(** * AURORA: the AWARE adaptation loop

    A shallow embedding of the decision cycle of the AURORA runtime
    (Assess, Weigh, Act, Reflect, Enrich) and of the orchestrator that
    sequences it, with the properties the design document states about it.

    Conventions of the embedding.
    - Python numbers (ints and binary64 floats) are exact rationals [Q];
      equality of computed numbers is [Qeq] ([==]). The figures of the
      concrete scenarios are replayed in binary64 arithmetic in
      [Binary64].
    - A value that may be Python's [None] is an [option]; using [None]
      where a number is required raises [TypeError] as in Python.
    - Exceptions are explicit: fallible code returns a [result].
    - Dictionaries whose iteration order is observable are association
      lists in insertion order; the others are [gmap]s.
    - Texts built with f-strings are kept as structured values carrying
      the formatted arguments; time stamps are left out. *)

From Stdlib Require Import QArith Qminmax Qround Qabs Lqa ZArith Lia Ascii String.
From Stdlib Require Floats.
From stdpp Require Import base option list strings gmap.

Local Open Scope Z_scope.
Local Open Scope Q_scope.
Local Open Scope string_scope.
Local Open Scope list_scope.

(** ** Python values and exceptions *)

Module Py.

Inductive exn : Type :=
| TypeError
| KeyError (key : string)
| ValueError
| OtherError (msg : string).

Inductive result (A : Type) : Type :=
| Ok (a : A)
| Raise (e : exn).
Arguments Ok {A} a.
Arguments Raise {A} e.

Definition bind {A B} (r : result A) (k : A -> result B) : result B :=
  match r with
  | Ok a => k a
  | Raise e => Raise e
  end.

Definition is_ok {A} (r : result A) : bool :=
  match r with Ok _ => true | Raise _ => false end.

(** A dictionary in insertion order. *)
Definition dict (V : Type) : Type := list (string * V).

Fixpoint lookup {V} (k : string) (d : dict V) : option V :=
  match d with
  | [] => None
  | (k', v) :: d' => if String.eqb k k' then Some v else lookup k d'
  end.

(** [d.get(k, default)] *)
Definition get {V} (d : dict V) (k : string) (default : V) : V :=
  match lookup k d with
  | Some v => v
  | None => default
  end.

(** [d[k] = v]: an existing key keeps its place, a new one goes last. *)
Fixpoint dict_set {V} (k : string) (v : V) (d : dict V) : dict V :=
  match d with
  | [] => [(k, v)]
  | (k', v') :: d' => if String.eqb k k' then (k, v) :: d'
                      else (k', v') :: dict_set k v d'
  end.

(** A number or [None]. *)
Abbreviation value := (option Q) (only parsing).

(** Using a value as a number: arithmetic, ordering and numeric
    formatting all raise [TypeError] on [None]. *)
Definition num (v : value) : result Q :=
  match v with
  | Some q => Ok q
  | None => Raise TypeError
  end.

Definition Qgtb (x y : Q) : bool := negb (Qle_bool x y).
Definition Qltb (x y : Q) : bool := negb (Qle_bool y x).

(** [v > q] and [v < q] for a possibly-[None] left operand. *)
Definition gt (v : value) (q : Q) : result bool :=
  bind (num v) (fun x => Ok (Qgtb x q)).
Definition lt (v : value) (q : Q) : result bool :=
  bind (num v) (fun x => Ok (Qltb x q)).

(** [a or b] and [a and b] evaluate [b] only when needed. *)
Definition or_else (a : result bool) (b : result bool) : result bool :=
  bind a (fun x => if x then Ok true else b).
Definition and_then (a : result bool) (b : result bool) : result bool :=
  bind a (fun x => if x then b else Ok false).

(** [sorted(l, key=key, reverse=True)]: stable, descending. *)
Fixpoint insert_desc {A} (key : A -> Q) (x : A) (l : list A) : list A :=
  match l with
  | [] => [x]
  | y :: l' => if Qgtb (key y) (key x) then y :: insert_desc key x l'
               else x :: l
  end.

Definition sorted_desc {A} (key : A -> Q) (l : list A) : list A :=
  fold_right (insert_desc key) [] l.

(** [max(generator, default=d)] over numbers. *)
Definition max_default (l : list Q) (d : Q) : Q :=
  match l with
  | [] => d
  | x :: l' => fold_left Qmax l' x
  end.

Definition sum (l : list Q) : Q := fold_left Qplus l 0.

(** A dictionary display [{k1: v1, k2: v2, ...}]: the items are
    inserted in order, a repeated key keeps its first place and takes
    the last value. *)
Definition literal {V} (items : list (string * V)) : dict V :=
  fold_left (fun d kv => dict_set (fst kv) (snd kv) d) items [].

(** [{**a, **b}] *)
Definition dict_update {V} (a b : dict V) : dict V :=
  fold_left (fun d kv => dict_set (fst kv) (snd kv) d) b a.

(** [l[start:]]: a negative index counts from the end; indices are
    clamped to the list. *)
Definition slice_from {A} (start : Z) (l : list A) : list A :=
  let len := Z.of_nat (length l) in
  let start :=
    if (start <? 0)%Z then Z.max (start + len) 0 else Z.min start len in
  drop (Z.to_nat start) l.

(** [l[:stop]] *)
Definition slice_to {A} (stop : Z) (l : list A) : list A :=
  let len := Z.of_nat (length l) in
  let stop :=
    if (stop <? 0)%Z then Z.max (stop + len) 0 else Z.min stop len in
  take (Z.to_nat stop) l.

(** [s.split(sep)] for a one-character separator. *)
Fixpoint str_split (sep : ascii) (s : string) : list string :=
  match s with
  | EmptyString => [EmptyString]
  | String a s' =>
      if Ascii.eqb a sep then EmptyString :: str_split sep s'
      else match str_split sep s' with
           | part :: parts => String a part :: parts
           | [] => [String a EmptyString]
           end
  end.

(** [sep.join(parts)] *)
Fixpoint str_join (sep : string) (parts : list string) : string :=
  match parts with
  | [] => EmptyString
  | part :: rest =>
      match rest with
      | [] => part
      | _ :: _ => part +:+ sep +:+ str_join sep rest
      end
  end.

End Py.

Notation "x <- r ;; k" := (Py.bind r (fun x => k))
  (at level 100, r at next level, right associativity).

(** ** constants.py *)

Module Constants.

Definition MAX_PODS : Z := 5%Z.
Definition KNOWLEDGE_BASE_PATH : string := "knowledge_base.db".
Definition RL_ENABLED : bool := true.
Definition RL_EXPLORATION_RATE : Q := 1 # 10.
Definition RL_UPDATE_FREQUENCY : Z := 10%Z.
Definition SUCCESS_THRESHOLD : Q := 8 # 10.
Definition DEGRADATION_THRESHOLD : Q := - (1 # 10).
Definition PATTERN_MINING_MIN_SUPPORT : Q := 3 # 10.
Definition PATTERN_MINING_MIN_CONFIDENCE : Q := 7 # 10.

(** Thresholds for derived metrics used in planning. *)
Definition THRESHOLDS : Py.dict Q :=
  [ ("http.error.rate", 5 # 100);
    ("http.latency", 1000 # 1);
    ("http.throughput", 10 # 1);
    ("cost.per.request", 1 # 1000) ].


(** The metric catalogue (the ["id"] of each definition). *)
Definition SYSTEM_GAUGES : list string :=
  [ "cpu.used.percent";
    "cpu.idle.percent";
    "memory.used.percent";
    "memory.swap.used.percent";
    "fs.used.percent";
    "fs.largest.used.percent";
    "fs.inodes.used.percent";
    "load.average.1m";
    "load.average.5m";
    "cpu.system.percent";
    "cpu.user.percent";
    "cpu.iowait.percent";
    "fd.used.percent" ].

Definition SYSTEM_COUNTERS : list string :=
  [ "proc.count";
    "thread.count";
    "syscall.count";
    "file.error.total.count";
    "host.error.count";
    "system.uptime" ].

Definition APP_GAUGES : list string :=
  [ "net.http.request.time" ].

Definition APP_COUNTERS : list string :=
  [ "net.http.request.count";
    "net.http.error.count";
    "net.http.statuscode.error.count";
    "net.sql.request.count";
    "net.sql.error.count";
    "net.mongodb.request.count";
    "net.mongodb.error.count" ].

Definition JVM_GAUGES : list string :=
  [ "jvm.heap.used.percent";
    "jvm.nonHeap.used.percent";
    "jvm.thread.count";
    "jvm.heap.max" ].

Definition JVM_COUNTERS : list string :=
  [ "jvm.class.loaded";
    "jvm.class.unloaded" ].

Definition NETWORK_COUNTERS : list string :=
  [ "net.bytes.in";
    "net.bytes.out";
    "net.connection.count.total";
    "net.error.count";
    "net.request.count";
    "net.tcp.queue.len" ].

Definition STORAGE_GAUGES : list string :=
  [ "fs.bytes.used";
    "fs.free.percent" ].

Definition K8S_GAUGES : list string :=
  [ "kubernetes.pod.status.ready";
    "kubernetes.deployment.replicas.running";
    "kubernetes.node.ready";
    "kubernetes.node.memoryPressure";
    "kubernetes.statefulSet.status.replicas.ready" ].

Definition K8S_COUNTERS : list string :=
  [ "kubernetes.pod.restart.count";
    "kubernetes.job.numFailed" ].

Definition COST_METRICS : list string :=
  [ "sysdig.cost.sysdig_costs_node_cost_total";
    "sysdig.cost.sysdig_costs_workload_cpu_used_cost_total";
    "sysdig.cost.sysdig_costs_workload_memory_used_cost_total";
    "sysdig.cost.sysdig_costs_workload_storage_used_cost_total" ].

Definition METRICS : list string :=
  SYSTEM_GAUGES ++ SYSTEM_COUNTERS ++ APP_GAUGES ++ APP_COUNTERS
  ++ JVM_GAUGES ++ JVM_COUNTERS ++ NETWORK_COUNTERS ++ STORAGE_GAUGES
  ++ K8S_GAUGES ++ K8S_COUNTERS ++ COST_METRICS.

(** Derived metrics computed from the raw metric values. *)
Definition DERIVED_METRICS : Py.dict (Py.dict Q -> Py.result Q) :=
  [ ("http.error.rate", fun d =>
       Py.Ok (Py.get d "net.http.error.count" 0
              / Qmax (Py.get d "net.http.request.count" 1) 1));
    ("http.latency", fun d => Py.Ok (Py.get d "net.http.request.time" 0));
    ("http.throughput", fun d =>
       Py.Ok (Py.get d "net.http.request.count" 0 / 60));
    ("cost.per.request", fun d =>
       Py.Ok ((Py.get d "sysdig.cost.sysdig_costs_workload_cpu_used_cost_total" 0
               + Py.get d "sysdig.cost.sysdig_costs_workload_memory_used_cost_total" 0
               + Py.get d "sysdig.cost.sysdig_costs_workload_storage_used_cost_total" 0)
              / Qmax (Py.get d "net.http.request.count" 1) 1)) ].

(** SLO thresholds: metric -> (direction, threshold). *)
Definition SLO_THRESHOLDS : Py.dict (string * Q) :=
  Py.literal
  [ ("cpu.used.percent", ("gt", 85));
    ("cpu.idle.percent", ("lt", 10));
    ("cpu.iowait.percent", ("gt", 20));
    ("memory.used.percent", ("gt", 85));
    ("memory.swap.used.percent", ("gt", 20));
    ("fs.used.percent", ("gt", 85));
    ("fd.used.percent", ("gt", 90));
    ("net.http.request.time", ("gt", 500));
    ("net.http.error.count", ("gt", 50));
    ("net.http.statuscode.error.count", ("gt", 50));
    ("net.sql.error.count", ("gt", 10));
    ("net.mongodb.error.count", ("gt", 10));
    ("jvm.heap.used.percent", ("gt", 80));
    ("jvm.nonHeap.used.percent", ("gt", 80));
    ("jvm.thread.count", ("gt", 1000));
    ("net.connection.count.total", ("gt", 8000));
    ("net.error.count", ("gt", 100));
    ("net.tcp.queue.len", ("gt", 500));
    ("fs.free.percent", ("lt", 15));
    ("kubernetes.pod.status.ready", ("lt", 9 # 10));
    ("kubernetes.deployment.replicas.running", ("lt", 9 # 10));
    ("kubernetes.node.ready", ("lt", 9 # 10));
    ("kubernetes.node.memoryPressure", ("gt", 0));
    ("kubernetes.statefulSet.status.replicas.ready", ("lt", 9 # 10));
    ("kubernetes.pod.restart.count", ("gt", 5));
    ("kubernetes.job.numFailed", ("gt", 3));
    ("fs.largest.used.percent", ("gt", 85));
    ("fs.inodes.used.percent", ("gt", 90));
    ("load.average.1m", ("gt", 2));
    ("load.average.5m", ("gt", 15 # 10));
    ("proc.count", ("gt", 3000));
    ("thread.count", ("gt", 8000));
    ("syscall.count", ("gt", 500000));
    ("file.error.total.count", ("gt", 0));
    ("host.error.count", ("gt", 0));
    ("system.uptime", ("lt", 60));
    ("net.http.request.count", ("gt", 1000000));
    ("net.sql.request.count", ("gt", 1000000));
    ("net.mongodb.request.count", ("gt", 1000000));
    ("jvm.heap.max", ("lt", 128));
    ("jvm.class.loaded", ("gt", 100000));
    ("jvm.class.unloaded", ("gt", 100000));
    ("net.bytes.in", ("gt", 1000000000));
    ("net.bytes.out", ("gt", 1000000000));
    ("net.request.count", ("gt", 1000000));
    ("fs.bytes.used", ("gt", 1000000000));
    ("sysdig.cost.sysdig_costs_node_cost_total", ("lt", 100));
    ("sysdig.cost.sysdig_costs_workload_cpu_used_cost_total", ("lt", 50));
    ("sysdig.cost.sysdig_costs_workload_memory_used_cost_total", ("lt", 50));
    ("sysdig.cost.sysdig_costs_workload_storage_used_cost_total", ("lt", 20));
    ("http.error.rate", ("lt", 5 # 100));
    ("cost.per.request", ("lt", 1 # 100)) ].

(** Severity of each metric (the keys written twice are kept twice). *)
Definition METRIC_SEVERITY : Py.dict Z :=
  Py.literal
  [ ("cpu.used.percent", 3%Z);
    ("cpu.idle.percent", 5%Z);
    ("cpu.iowait.percent", 2%Z);
    ("memory.used.percent", 2%Z);
    ("memory.swap.used.percent", 2%Z);
    ("fs.used.percent", 2%Z);
    ("fs.free.percent", 1%Z);
    ("fd.used.percent", 2%Z);
    ("net.http.error.count", 1%Z);
    ("net.http.statuscode.error.count", 1%Z);
    ("file.error.total.count", 1%Z);
    ("host.error.count", 1%Z);
    ("net.error.count", 1%Z);
    ("kubernetes.job.numFailed", 1%Z);
    ("kubernetes.pod.status.ready", 3%Z);
    ("kubernetes.pod.restart.count", 2%Z);
    ("kubernetes.node.ready", 2%Z);
    ("kubernetes.node.memoryPressure", 1%Z);
    ("fs.largest.used.percent", 2%Z);
    ("fs.inodes.used.percent", 2%Z);
    ("load.average.1m", 4%Z);
    ("load.average.5m", 4%Z);
    ("proc.count", 3%Z);
    ("thread.count", 3%Z);
    ("syscall.count", 4%Z);
    ("file.error.total.count", 1%Z);
    ("host.error.count", 1%Z);
    ("system.uptime", 5%Z);
    ("net.http.request.count", 6%Z);
    ("jvm.heap.max", 5%Z);
    ("jvm.class.loaded", 5%Z);
    ("jvm.class.unloaded", 5%Z);
    ("net.bytes.in", 6%Z);
    ("net.bytes.out", 6%Z);
    ("net.request.count", 6%Z);
    ("fs.bytes.used", 2%Z);
    ("sysdig.cost.sysdig_costs_node_cost_total", 2%Z);
    ("sysdig.cost.sysdig_costs_workload_cpu_used_cost_total", 2%Z);
    ("sysdig.cost.sysdig_costs_workload_memory_used_cost_total", 2%Z);
    ("sysdig.cost.sysdig_costs_workload_storage_used_cost_total", 3%Z);
    ("http.error.rate", 1%Z);
    ("cost.per.request", 2%Z) ].

End Constants.

(** ** The data exchanged between the agents *)

(** An SLO violation, as [AssessAgent._check_slo_violations] builds it. *)
Module Violation.
Record t : Type := mk {
  metric : string;
  value : Q;
  threshold : Q;
  direction : string;
  severity : option Z   (* [None]: the key is absent *)
}.
End Violation.

(** A system snapshot, as [AssessAgent.assess] returns it. *)
Module Snapshot.
Record t : Type := mk {
  service : string;
  derived_metrics : Py.dict Py.value;
  anomalies : gmap string (list nat);
  slo_violations : list Violation.t;
  health_score : Q
}.
End Snapshot.

(** The text of a candidate's ["reason"], with the values it formats. *)
Inductive reason : Type :=
| HighErrorRateOrLatency (error_rate latency : Q)
| LowLoad (error_rate latency : Q)
| HighCostPerRequest (cost_per_request : Q)
| LowResourceUtilization (cost_per_request : Q)
| CriticalSLOViolations (detected : nat)
| MultipleAnomalies (affected : nat).

(** A candidate action: a dictionary with the keys below, any of which
    may be absent ([None]) except ["name"] and ["service"]. *)
Module Action.
Record t : Type := mk {
  name : string;
  service : string;
  operation : option string;
  amount : option Z;
  resource : option string;
  factor : option Q;
  why : option reason;
  priority : option Z;
  utility : option Q
}.

Definition set_utility (u : Q) (a : t) : t :=
  mk (name a) (service a) (operation a) (amount a) (resource a)
     (factor a) (why a) (priority a) (Some u).

(** [a.get("utility", 0)] *)
Definition get_utility (a : t) : Q := default 0 (utility a).
End Action.

(** One part of the rationale text of a decision. *)
Inductive rationale_part : Type :=
| NoActionsNeeded
| SystemHealth (health : Q)
| ViolationsDetected (n : nat)
| AnomaliesDetected (n : nat)
| ActionLine (name : string) (why : option reason).

Module Decision.
Record t : Type := mk {
  service : string;
  actions : list Action.t;
  rationale : list rationale_part;
  candidates_evaluated : nat;
  confidence : Q;
  utility_scores : gmap string Q
}.
End Decision.

(** The error text of a failed action, with the values it formats. *)
Inductive act_error : Type :=
| FailedToGetReplicas (stderr : string)
| InvalidReplicaCount (stdout : string)
| FailedToScale (stderr : string)
| FailedToRestart (stderr : string)
| CommandTimeout
| ClientNotInitialized
| FailedAfterRetries
| UnknownActionType (action_type : string)
| ExceptionText (msg : string).

(** The result dictionary of one executed action. *)
Module ActionResult.
Record t : Type := mk {
  action : string;
  success : bool;
  error : option act_error;
  service : option string;
  previous_replicas : option Z;
  new_replicas : option Z;
  factor : option Q
}.

Definition failed (action : string) (e : act_error) : t :=
  mk action false (Some e) None None None None.
End ActionResult.

Module ExecutionResult.
Record t : Type := mk {
  success : bool;
  actions_executed : nat;
  results : list ActionResult.t;
  errors : option (list act_error)
}.
End ExecutionResult.

(** One entry of the improvement and degradation lists. *)
Module Change.
Record t : Type := mk {
  metric : string;
  pre_value : Q;
  post_value : Q;
  change_pct : Q
}.
End Change.

Inductive side_effect : Type :=
| NewSLOViolations (metrics : gset string)
| NewAnomalies (metrics : gset string)
| CostIncreasedAfterScalingUp.

Inductive recommendation : Type :=
| ReviewExecutionErrors
| CheckSystemPermissions
| AdaptationSuccessful
| BestImprovement (metric : string) (change_pct : Q)
| ConsiderAlternatives
| AddressDegradation (metric : string) (change_pct : Q)
| MonitorSideEffects
| SideEffectLine (s : side_effect)
| NoSignificantChanges.

(** A reflection has two shapes: the short one of a failed execution
    (["reason"] and ["errors"] present, the metric keys absent) and the
    full one. An absent key is [None]. *)
Module Reflection.
Record t : Type := mk {
  success : bool;
  failure_reason : option string;
  errors : option (option (list act_error));
  health_delta : option Q;
  pre_health : option Q;
  post_health : option Q;
  improvements : option (list Change.t);
  degradations : option (list Change.t);
  side_effects : option (list side_effect);
  recommendations : list recommendation;
  actions_taken : option (list string)
}.
End Reflection.

(** The knowledge store. *)
Module Pattern.
Record t : Type := mk {
  pattern_key : string;
  action_type : string;
  operation : option string;
  support : nat;
  confidence : Q;
  avg_health_delta : Q
}.
End Pattern.

Module Statistics.
Record t : Type := mk {
  total_adaptations : nat;
  successful_adaptations : nat;
  action_counts : gmap string nat;
  action_successes : gmap string nat
}.
End Statistics.

Module KnowledgeBase.
(** A dictionary with the optional keys ["patterns"] and
    ["statistics"]. *)
Record t : Type := mk {
  patterns : option (gmap string Pattern.t);
  statistics : option Statistics.t
}.

Definition empty : t := mk None None.

(** Truth value of the dictionary: it has at least one key. *)
Definition truthy (kb : t) : bool :=
  match patterns kb, statistics kb with
  | None, None => false
  | _, _ => true
  end.
End KnowledgeBase.

Module Enrichment.
Record t : Type := mk {
  learning_cycle : nat;
  patterns_learned : list Pattern.t;
  policies_updated : list (string * string);
  knowledge_base_size : nat;
  q_table_size : nat
}.
End Enrichment.

(** What [get_knowledge_summary] returns. *)
Module KnowledgeSummary.
Record t : Type := mk {
  learning_cycles : nat;
  total_patterns : nat;
  q_table_size : nat;
  total_adaptations : nat;
  successful_adaptations : nat;
  success_rate : Q;
  action_statistics : gmap string nat
}.
End KnowledgeSummary.

(** What [export_knowledge] writes. *)
Module KnowledgeExport.
Record t : Type := mk {
  learning_cycles : nat;
  summary : KnowledgeSummary.t;
  patterns : gmap string Pattern.t;
  statistics : option Statistics.t
}.
End KnowledgeExport.

(** The files [export_knowledge] is asked to write. *)
Inductive export_file : Type :=
| ExportDefault               (* aware_knowledge_export.json *)
| ExportCycle (cycle : nat)   (* knowledge_export_cycle_<n>.json *)
| ExportFinal                 (* knowledge_export_final.json *)
| ExportOnError.              (* knowledge_export_error.json *)

(** A CPU or memory quantity of a resource specification: the text is
    kept as its unit suffix and the number before it. [Unparsed] is a
    text whose number [float] rejects. *)
Inductive quantity : Type :=
| Millicores (base : Q)      (* "500m" *)
| Mebibytes (base : Q)       (* "256Mi" *)
| Gibibytes (base : Q)       (* "1Gi" *)
| Plain (base : Q)           (* cores or bytes *)
| Unparsed (text : string).

Module Container.
Record t : Type := mk {
  name : string;
  requests : Py.dict quantity;   (* empty: absent or empty *)
  limits : Py.dict quantity
}.
End Container.

(** A deployment object of the control plane, with its version token. *)
Module Deployment.
Record t : Type := mk {
  name : string;
  resource_version : Z;
  containers : list Container.t
}.
End Deployment.

(** ** The environment

    The cluster control plane, the [oc] command line, the telemetry
    backend, the clock and the file system are external: the embedding
    takes their replies from a world [W] and records every call in a
    trace. *)

Inductive oc_command : Type :=
| OcGetReplicas (service : string)
    (* oc get deployment <service> -o jsonpath={.spec.replicas} *)
| OcScale (service : string) (replicas : Z)
    (* oc scale deployment <service> --replicas=<n> *)
| OcRolloutRestart (service : string).
    (* oc rollout restart deployment <service> *)

(** The outcome of [subprocess.run]. *)
Inductive run_reply : Type :=
| Completed (returncode : Z) (stdout stderr : string)
| TimeoutExpired
| RunFailed (msg : string).

(** The outcome of [v1_deployments.patch]. *)
Inductive patch_reply : Type :=
| PatchOk
| PatchConflict              (* [ConflictError] *)
| PatchFailed (msg : string).

Inductive event : Type :=
| EvAssess (service : string)
| EvRun (cmd : oc_command) (timeout : Q)
| EvGetDeployment (name : string)
| EvPatchDeployment (body : Deployment.t)
| EvSleep (seconds : Q)
| EvLoadKnowledgeBase (path : string)
| EvSaveKnowledgeBase (path : string) (kb : KnowledgeBase.t)
| EvExportKnowledge (file : export_file) (data : KnowledgeExport.t)
| EvWaitNextCycle
| EvCsvRow (status : string) (actions_planned actions_executed : nat)
           (adaptation_success : bool).

Class World (W : Type) : Type := {
  (* AssessAgent.assess: telemetry collection and anomaly detection *)
  w_assess : string -> W -> W * Py.result (option Snapshot.t);
  w_run : oc_command -> Q -> W -> W * run_reply;
  w_get_deployment : string -> W -> W * Py.result Deployment.t;
  w_patch_deployment : Deployment.t -> W -> W * patch_reply;
  w_sleep : Q -> W -> W;
  (* open(path, "rb") and pickle.load: [None] when it raises *)
  w_load : string -> W -> W * option KnowledgeBase.t;
  (* open(path, "wb") and pickle.dump: [false] when it raises *)
  w_save : string -> KnowledgeBase.t -> W -> W * bool;
  (* open(path, "w") and json.dump: [false] when it raises *)
  w_export : export_file -> KnowledgeExport.t -> W -> W * bool;
  (* opening and appending to the audit log: [false] when it raises *)
  w_csv : W -> W * bool
}.

(** ** Computations with state, a trace and exceptions

    A method of an agent is a function from a context (the agent's own
    state [self], the world and the trace so far) to the context after it
    and either a value or a raised exception. State changes made before an
    exception is raised are kept, as in Python. *)

Module Eff.
Import Py.

Section WithWorld.
Context {W : Type}.

Record ctx (S : Type) : Type := Ctx {
  self : S;
  world : W;
  trace : list event
}.
Arguments Ctx {S} self world trace.
Arguments self {S} c.
Arguments world {S} c.
Arguments trace {S} c.

Definition M (S A : Type) : Type := ctx S -> ctx S * result A.

Definition ret {S A} (a : A) : M S A := fun c => (c, Ok a).

Definition bind {S A B} (m : M S A) (k : A -> M S B) : M S B :=
  fun c =>
    match m c with
    | (c', Ok a) => k a c'
    | (c', Raise e) => (c', Raise e)
    end.

(** [try: m  except Exception as e: h e] *)
Definition try_except {S A} (m : M S A) (h : exn -> M S A) : M S A :=
  fun c =>
    match m c with
    | (c', Ok a) => (c', Ok a)
    | (c', Raise e) => h e c'
    end.

Definition lift {S A} (r : result A) : M S A := fun c => (c, r).

Definition get_self {S} : M S S := fun c => (c, Ok (self c)).

Definition put_self {S} (s : S) : M S unit :=
  fun c => (Ctx s (world c) (trace c), Ok tt).

Definition modify {S} (f : S -> S) : M S unit :=
  fun c => (Ctx (f (self c)) (world c) (trace c), Ok tt).

(** A call to the world: the call is recorded, the world moves on. *)
Definition call {S A} (ev : event) (op : W -> W * A) : M S A :=
  fun c =>
    let (w', a) := op (world c) in
    (Ctx (self c) w' (trace c ++ [ev]), Ok a).

(** Running a method of a component [S'] of [S]. *)
Definition zoom {S S' A} (proj : S -> S') (upd : S' -> S -> S)
    (m : M S' A) : M S A :=
  fun c =>
    let (c', r) := m (Ctx (proj (self c)) (world c) (trace c)) in
    (Ctx (upd (self c') (self c)) (world c') (trace c'), r).

End WithWorld.

Arguments Ctx {W S} self world trace.
Arguments self {W S} c.
Arguments world {W S} c.
Arguments trace {W S} c.
Arguments M W S A : clear implicits.
End Eff.

Notation "x <~ m ;; k" := (Eff.bind m (fun x => k))
  (at level 100, m at next level, right associativity).
Notation "m ;;; k" := (Eff.bind m (fun _ => k))
  (at level 100, right associativity).

(** ** utils.py *)

Module Utils.
Import Py.

Definition normalize_service_name (pod_name : string) : string :=
  (* Split the name by hyphen *)
  let parts := str_split "-" pod_name in
  str_join "-" (slice_to (-2) parts).

End Utils.

(** ** assess_agent.py

    The telemetry response is a list of rows, each the list of the
    sampled values ([row["d"]], one per requested metric, [None] for a
    missing sample). The anomaly detector of the external library is a
    parameter: it maps a series to one prediction per sample, -1 for an
    anomalous one. The snapshot is built without its time stamp and
    without the raw metric values, which no other agent reads. *)

Module AssessAgent.
Import Py Constants.

Record t : Type := mk {
  metric_history : gmap string (list Snapshot.t)
}.

(** [[row["d"][idx] for row in raw_data["data"]
      if row["d"][idx] is not None]] *)
Fixpoint series_of (idx : nat) (data : list (list value)) : result (list Q) :=
  match data with
  | [] => Ok []
  | row :: rest =>
      match row !! idx with
      | None => Raise (OtherError "IndexError")
      | Some sample =>
          later <- series_of idx rest ;;
          Ok (match sample with
              | Some x => x :: later
              | None => later
              end)
      end
  end.

(** The loop of [_extract_latest_values], at position [idx]. *)
Fixpoint extract_from (idx : nat) (ids : list string)
    (data : list (list value)) (latest_values : dict Q) : result (dict Q) :=
  match ids with
  | [] => Ok latest_values
  | mid :: rest =>
      series <- series_of idx data ;;
      extract_from (S idx) rest data
        (match last series with
         | Some x => dict_set mid x latest_values
         | None => latest_values
         end)
  end.

Definition _extract_latest_values (data : list (list value))
    (metric_defs : list string) : result (dict Q) :=
  extract_from 0 metric_defs data [].

Definition _compute_derived_metrics (raw_metrics : dict Q) : dict value :=
  fold_left
    (fun derived item =>
       dict_set (fst item)
                (match snd item raw_metrics with
                 | Ok x => Some x
                 | Raise _ => None      (* the error is logged *)
                 end)
                derived)
    DERIVED_METRICS [].

(** [[i for i, p in enumerate(preds) if p == -1]], counting from [i]. *)
Fixpoint flagged (i : nat) (preds : list Z) : list nat :=
  match preds with
  | [] => []
  | p :: rest =>
      if (p =? -1)%Z then i :: flagged (S i) rest else flagged (S i) rest
  end.

Section Detector.
(** [IsolationForest(contamination=0.05, random_state=42).fit_predict] *)
Variable fit_predict : list Q -> list Z.

(** The loop of [_detect_anomalies], at position [idx]. *)
Fixpoint detect_from (idx : nat) (ids : list string)
    (data : list (list value)) (anomalies : gmap string (list nat))
    : result (gmap string (list nat)) :=
  match ids with
  | [] => Ok anomalies
  | mid :: rest =>
      series <- series_of idx data ;;
      if (length series <? 10)%nat then
        detect_from (S idx) rest data anomalies
      else
        let anomaly_indices := flagged 0 (fit_predict series) in
        detect_from (S idx) rest data
          (match anomaly_indices with
           | [] => anomalies
           | _ :: _ => <[mid := anomaly_indices]> anomalies
           end)
  end.

Definition _detect_anomalies (data : list (list value))
    (metric_defs : list string) : result (gmap string (list nat)) :=
  detect_from 0 metric_defs data ∅.

End Detector.

(** The body of the loop of [_check_slo_violations] for one entry of
    the threshold table. *)
Definition check_entry (all_metrics : dict value) (metric_id : string)
    (direction : string) (threshold : Q) : result (list Violation.t) :=
  match lookup metric_id all_metrics with
  | None => Ok []
  | Some value =>
      let violation x :=
        Violation.mk metric_id x threshold direction
                     (Some (get METRIC_SEVERITY metric_id 4%Z)) in
      if String.eqb direction "gt" then
        x <- num value ;;
        Ok (if Qgtb x threshold then [violation x] else [])
      else if String.eqb direction "lt" then
        x <- num value ;;
        Ok (if Qltb x threshold then [violation x] else [])
      else Ok []
  end.

Fixpoint check_entries (all_metrics : dict value)
    (thresholds : dict (string * Q)) : result (list Violation.t) :=
  match thresholds with
  | [] => Ok []
  | (metric_id, (direction, threshold)) :: rest =>
      here <- check_entry all_metrics metric_id direction threshold ;;
      later <- check_entries all_metrics rest ;;
      Ok (here ++ later)
  end.

Definition _check_slo_violations (raw_metrics : dict Q)
    (derived_metrics : dict value) : result (list Violation.t) :=
  let all_metrics :=
    dict_update (map (fun kv => (fst kv, Some (snd kv))) raw_metrics)
                derived_metrics in
  check_entries all_metrics SLO_THRESHOLDS.

(** The loop over the violations of [_compute_health_score]. *)
Fixpoint penalise (slo_violations : list Violation.t) (base_score : Q)
    : result Q :=
  match slo_violations with
  | [] => Ok base_score
  | violation :: rest =>
      let severity := default 4%Z (Violation.severity violation) in
      if (severity =? 0)%Z then Raise (OtherError "ZeroDivisionError")
      else
        let penalty := 10 / inject_Z severity in
        penalise rest (base_score - penalty)
  end.

(** [sum(len(indices) for indices in anomalies.values())] *)
Definition total_anomalies (anomalies : gmap string (list nat)) : nat :=
  map_fold (fun _ indices total => (length indices + total)%nat) O anomalies.

Definition _compute_health_score (slo_violations : list Violation.t)
    (anomalies : gmap string (list nat)) : result Q :=
  base_score <- penalise slo_violations 100 ;;
  let base_score :=
    base_score - inject_Z (Z.of_nat (total_anomalies anomalies)) * (5 # 10) in
  Ok (Qmax base_score 0).

Definition _update_history (service : string) (snapshot : Snapshot.t)
    (self : t) : t :=
  let history := default [] (metric_history self !! service) ++ [snapshot] in
  (* Keep only recent history (last 100 snapshots) *)
  let history :=
    if (100 <? length history)%nat then slice_from (-100) history
    else history in
  mk (<[service := history]> (metric_history self)).

Definition get_history (self : t) (service : string) (lookback : Z)
    : list Snapshot.t :=
  match metric_history self !! service with
  | None => []
  | Some history => slice_from (- lookback) history
  end.

Section WithDetector.
Variable fit_predict : list Q -> list Z.

(** [assess], given the response of the telemetry backend ([None]
    when the collection failed or returned nothing). *)
Definition assess (self : t) (metrics : list string) (service : string)
    (raw_data : option (list (list value)))
    : result (t * option Snapshot.t) :=
  match raw_data with
  | None => Ok (self, None)
  | Some data =>
      (* Extract latest values and compute derived metrics *)
      raw_metrics <- _extract_latest_values data metrics ;;
      let derived_metrics := _compute_derived_metrics raw_metrics in
      (* Detect anomalies *)
      anomalies <- _detect_anomalies fit_predict data metrics ;;
      (* Check SLO violations *)
      slo_violations <- _check_slo_violations raw_metrics derived_metrics ;;
      (* Build comprehensive system snapshot *)
      health_score <- _compute_health_score slo_violations anomalies ;;
      let system_snapshot :=
        Snapshot.mk service derived_metrics anomalies slo_violations
                    health_score in
      (* Store in history *)
      Ok (_update_history service system_snapshot self,
          Some system_snapshot)
  end.

End WithDetector.

End AssessAgent.

(** ** weigh_agent.py *)

Module WeighAgent.
Import Py Constants.

(** [knowledge_base] is a reference to the store of the Enrich agent
    (or [None]); only its truth value is read. *)
Record t : Type := mk {
  knowledge_base : option KnowledgeBase.t;
  decision_history : list Decision.t
}.

Definition knowledge_base_truthy (self : t) : bool :=
  match knowledge_base self with
  | Some kb => KnowledgeBase.truthy kb
  | None => false
  end.

Definition candidate (name service : string) (operation : option string)
    (amount : option Z) (resource : option string) (factor : option Q)
    (why : reason) (priority : Z) : Action.t :=
  Action.mk name service operation amount resource factor
            (Some why) (Some priority) None.

Definition _generate_candidates (derived_metrics : dict value)
    (slo_violations : list Violation.t) (anomalies : gmap string (list nat))
    (service : string) : result (list Action.t) :=
  let candidates : list Action.t := [] in
  (* Extract key metrics *)
  let error_rate := get derived_metrics "http.error.rate" (Some 0) in
  let latency := get derived_metrics "http.latency" (Some 0) in
  let throughput := get derived_metrics "http.throughput" (Some 0) in
  let cost_per_request := get derived_metrics "cost.per.request" (Some 0) in
  (* Get thresholds *)
  let max_error_rate := get THRESHOLDS "http.error.rate" (5 # 100) in
  let max_latency := get THRESHOLDS "http.latency" (1000 # 1) in
  let min_throughput := get THRESHOLDS "http.throughput" (10 # 1) in
  let max_cost_per_request := get THRESHOLDS "cost.per.request" (1 # 1000) in
  (* Rule 1: high error rate or latency: scale horizontally *)
  rule1 <- or_else (gt error_rate max_error_rate) (gt latency max_latency) ;;
  candidates <-
    (if rule1 then
       e <- num error_rate ;;
       l <- num latency ;;
       Ok (candidates ++
             [candidate "horizontal" service (Some "increase") (Some 1%Z)
                        None None (HighErrorRateOrLatency e l) 1])
     else
       (* Rule 2: low load and acceptable performance: scale down *)
       rule2 <- and_then (lt error_rate (max_error_rate * (25 # 100)))
                  (and_then (lt latency (max_latency * (5 # 10)))
                            (lt throughput min_throughput)) ;;
       if rule2 then
         e <- num error_rate ;;
         l <- num latency ;;
         Ok (candidates ++
               [candidate "horizontal" service (Some "decrease") (Some 1%Z)
                          None None (LowLoad e l) 3])
       else Ok candidates) ;;
  (* Rule 3: high cost per request: vertical scaling *)
  rule3 <- gt cost_per_request (max_cost_per_request * (105 # 100)) ;;
  candidates <-
    (if rule3 then
       c <- num cost_per_request ;;
       Ok (candidates ++
             [candidate "vertical" service (Some "increase") None
                        (Some "cpu/mem") (Some (15 # 10))
                        (HighCostPerRequest c) 2])
     else
       (* Rule 4: very low cost per request: reduce resources *)
       rule4 <- lt cost_per_request (max_cost_per_request * (5 # 10)) ;;
       if rule4 then
         c <- num cost_per_request ;;
         Ok (candidates ++
               [candidate "vertical" service (Some "decrease") None
                          (Some "cpu/mem") (Some (75 # 100))
                          (LowResourceUtilization c) 3])
       else Ok candidates) ;;
  (* Rule 5: critical SLO violations: emergency scale-up *)
  let critical_violations :=
    filter (fun v => (default 4 (Violation.severity v) <= 2)%Z)
           slo_violations in
  let candidates :=
    match critical_violations with
    | [] => candidates
    | _ :: _ =>
        candidates ++
          [candidate "horizontal" service (Some "increase") (Some 2%Z)
                     None None
                     (CriticalSLOViolations (length critical_violations)) 0]
    end in
  (* Rule 6: anomalies detected: restart *)
  let candidates :=
    if (5 <? size anomalies)%nat then
      candidates ++
        [candidate "restart" service None None None None
                   (MultipleAnomalies (size anomalies)) 2]
    else candidates in
  Ok candidates.

(** The utility of one candidate (the body of the loop of
    [_evaluate_utilities]). *)
Definition utility_of (derived_metrics : dict value) (health_score : Q)
    (candidate : Action.t) : result Q :=
  let priority := default 3%Z (Action.priority candidate) in
  let base_utility := 100 - inject_Z priority * 20 in
  if String.eqb (Action.name candidate) "horizontal" then
    match Action.operation candidate with
    | None => Raise (KeyError "operation")
    | Some op =>
        if String.eqb op "increase"
        then Ok (base_utility * (1 - health_score / 100))
        else Ok (base_utility * (health_score / 100))
    end
  else if String.eqb (Action.name candidate) "vertical" then
    let cost_per_request := get derived_metrics "cost.per.request" (Some 0) in
    let max_cost := get THRESHOLDS "cost.per.request" (1 # 1000) in
    match Action.operation candidate with
    | None => Raise (KeyError "operation")
    | Some op =>
        c <- num cost_per_request ;;
        if String.eqb op "increase"
        then Ok (base_utility * Qmin (c / max_cost) 2)
        else Ok (base_utility * Qmax (1 - c / max_cost) (5 # 10))
    end
  else if String.eqb (Action.name candidate) "restart" then
    Ok (base_utility * (1 - health_score / 100))
  else Ok base_utility.

Fixpoint _evaluate_utilities (candidates : list Action.t)
    (derived_metrics : dict value) (health_score : Q)
    : result (list Action.t) :=
  match candidates with
  | [] => Ok []
  | candidate :: rest =>
      utility <- utility_of derived_metrics health_score candidate ;;
      rest' <- _evaluate_utilities rest derived_metrics health_score ;;
      Ok (Action.set_utility utility candidate :: rest')
  end.

(** Placeholder in the source: returns the selection unchanged. *)
Definition _apply_learned_policies (selected candidates : list Action.t)
    : list Action.t := selected.

Definition _select_actions (self : t) (evaluated_candidates : list Action.t)
    : list Action.t :=
  match evaluated_candidates with
  | [] => []
  | _ :: _ =>
      let sorted_candidates :=
        sorted_desc Action.get_utility evaluated_candidates in
      let selected :=
        match sorted_candidates with
        | best :: _ => [best]
        | [] => []
        end in
      if knowledge_base_truthy self
      then _apply_learned_policies selected sorted_candidates
      else selected
  end.

Definition _build_rationale (actions : list Action.t)
    (system_snapshot : Snapshot.t) : list rationale_part :=
  match actions with
  | [] => [NoActionsNeeded]
  | _ :: _ =>
      let violations := length (Snapshot.slo_violations system_snapshot) in
      let anomalies := size (Snapshot.anomalies system_snapshot) in
      [SystemHealth (Snapshot.health_score system_snapshot)]
        ++ (if (0 <? violations)%nat then [ViolationsDetected violations] else [])
        ++ (if (0 <? anomalies)%nat then [AnomaliesDetected anomalies] else [])
        ++ map (fun a => ActionLine (Action.name a) (Action.why a)) actions
  end.

Definition _compute_confidence (actions : list Action.t) (health_score : Q)
    : Q :=
  match actions with
  | [] => if Qgtb health_score 80 then 9 # 10 else 5 # 10
  | a :: rest =>
      let max_utility :=
        fold_left Qmax (map Action.get_utility rest) (Action.get_utility a) in
      Qmin (max_utility / 100) 1
  end.

(** [{a["name"]: a.get("utility", 0) for a in evaluated_candidates}] *)
Definition utility_scores_of (evaluated_candidates : list Action.t)
    : gmap string Q :=
  fold_left (fun m a => <[Action.name a := Action.get_utility a]> m)
            evaluated_candidates ∅.

Definition weigh (self : t) (system_snapshot : Snapshot.t) (service : string)
    : result (t * Decision.t) :=
  let derived_metrics := Snapshot.derived_metrics system_snapshot in
  let slo_violations := Snapshot.slo_violations system_snapshot in
  let anomalies := Snapshot.anomalies system_snapshot in
  let health_score := Snapshot.health_score system_snapshot in
  candidates <- _generate_candidates derived_metrics slo_violations
                                     anomalies service ;;
  evaluated_candidates <- _evaluate_utilities candidates derived_metrics
                                              health_score ;;
  let selected_actions := _select_actions self evaluated_candidates in
  let decision :=
    Decision.mk service selected_actions
      (_build_rationale selected_actions system_snapshot)
      (length candidates)
      (_compute_confidence selected_actions health_score)
      (utility_scores_of evaluated_candidates) in
  Ok (mk (knowledge_base self) (decision_history self ++ [decision]),
      decision).

(** [self.decision_history[-lookback:]] *)
Definition get_decision_history (self : t) (lookback : Z)
    : list Decision.t :=
  slice_from (- lookback) (decision_history self).

End WeighAgent.

(** ** act_agent.py *)

Module ActAgent.
Import Py Constants Eff.

Record t : Type := mk {
  v1_deployments : bool;    (* whether the cluster client was initialised *)
  execution_history : list ExecutionResult.t
}.

(** *** Reading an integer: [int(text.strip())]

    ASCII white space and decimal digits with an optional sign (digit
    separators are not modelled). *)

Definition is_space (a : ascii) : bool :=
  let n := nat_of_ascii a in
  ((9 <=? n) && (n <=? 13) || (28 <=? n) && (n <=? 32))%nat.

Fixpoint lstrip (s : string) : string :=
  match s with
  | String a s' => if is_space a then lstrip s' else s
  | EmptyString => EmptyString
  end.

Definition strip (s : string) : string :=
  String.rev (lstrip (String.rev (lstrip s))).

Definition digit (a : ascii) : option Z :=
  let n := nat_of_ascii a in
  if ((48 <=? n) && (n <=? 57))%nat then Some (Z.of_nat (n - 48)) else None.

Fixpoint digits (s : string) (acc : Z) : option Z :=
  match s with
  | EmptyString => Some acc
  | String a s' =>
      match digit a with
      | Some d => digits s' (10 * acc + d)%Z
      | None => None
      end
  end.

Definition unsigned (s : string) : result Z :=
  match s with
  | EmptyString => Raise ValueError
  | _ => match digits s 0%Z with
         | Some n => Ok n
         | None => Raise ValueError
         end
  end.

Definition int (text : string) : result Z :=
  match strip text with
  | String "-"%char s => n <- unsigned s ;; Ok (- n)%Z
  | String "+"%char s => unsigned s
  | s => unsigned s
  end.

(** *** Resource quantities *)

(** [int(x)] of a number: truncation towards zero. *)
Definition trunc (x : Q) : Z := Z.quot (Qnum x) (Zpos (Qden x)).

(** [round(x, 2)], ties to even (on the exact value). *)
Definition round2 (x : Q) : Q :=
  let y := x * 100 in
  let n := Qfloor y in
  let frac := y - inject_Z n in
  let up :=
    match Qcompare frac (1 # 2) with
    | Lt => false
    | Gt => true
    | Eq => Z.odd n
    end in
  inject_Z (if up then n + 1 else n)%Z / 100.

Definition _adjust_resource_value (old_value : quantity) (factor : Q)
    : quantity :=
  match old_value with
  | Millicores base => Millicores (inject_Z (trunc (base * factor)))
  | Mebibytes base => Mebibytes (inject_Z (trunc (base * factor)))
  | Gibibytes base => Gibibytes (inject_Z (trunc (base * factor)))
  | Plain base => Plain (round2 (base * factor))
  | Unparsed text => Unparsed text      (* the error is logged *)
  end.

(** [scale_factor = factor if operation == 'increase' else 1/factor] *)
Definition scale_factor (operation : option string) (factor : Q) : result Q :=
  if bool_decide (operation = Some "increase") then Ok factor
  else if Qeq_bool factor 0 then Raise (OtherError "ZeroDivisionError")
  else Ok (1 / factor).

Definition adjust_entry (operation : option string) (factor : Q)
    (resource_type : string) (spec : dict quantity) : result (dict quantity) :=
  match lookup resource_type spec with
  | Some old_val =>
      f <- scale_factor operation factor ;;
      Ok (dict_set resource_type (_adjust_resource_value old_val f) spec)
  | None => Ok spec
  end.

Definition modify_container (operation : option string) (factor : Q)
    (c : Container.t) : result Container.t :=
  (* resource_type = 'cpu' *)
  req <- adjust_entry operation factor "cpu" (Container.requests c) ;;
  lim <- adjust_entry operation factor "cpu" (Container.limits c) ;;
  (* resource_type = 'memory' *)
  req <- adjust_entry operation factor "memory" req ;;
  lim <- adjust_entry operation factor "memory" lim ;;
  Ok (Container.mk (Container.name c) req lim).

Fixpoint modify_containers (operation : option string) (factor : Q)
    (cs : list Container.t) : result (list Container.t) :=
  match cs with
  | [] => Ok []
  | c :: cs' =>
      c' <- modify_container operation factor c ;;
      cs'' <- modify_containers operation factor cs' ;;
      Ok (c' :: cs'')
  end.

(** The closure [modify_resources] of [_vertical_scale]. *)
Definition modify_resources (operation : option string) (factor : Q)
    (deployment : Deployment.t) : result Deployment.t :=
  cs <- modify_containers operation factor
                          (Deployment.containers deployment) ;;
  Ok (Deployment.mk (Deployment.name deployment)
                    (Deployment.resource_version deployment) cs).

Section Methods.
Context {W : Type} `{World W}.

(** *** Horizontal scaling *)

Definition _horizontal_scale (action : Action.t) : M W t ActionResult.t :=
  let service := Action.service action in
  let operation := Action.operation action in
  let amount := default 1%Z (Action.amount action) in
  (* Get current replica count *)
  result <~ call (EvRun (OcGetReplicas service) 10)
                 (w_run (OcGetReplicas service) 10) ;;
  match result with
  | TimeoutExpired => ret (ActionResult.failed "horizontal" CommandTimeout)
  | RunFailed msg =>
      ret (ActionResult.failed "horizontal" (ExceptionText msg))
  | Completed returncode stdout stderr =>
      if negb (returncode =? 0)%Z then
        ret (ActionResult.failed "horizontal" (FailedToGetReplicas stderr))
      else
        match int stdout with
        | Raise _ =>
            ret (ActionResult.failed "horizontal"
                                     (InvalidReplicaCount stdout))
        | Ok curr_replicas =>
            (* Calculate new replica count *)
            let new_count :=
              if bool_decide (operation = Some "increase")
              then Z.min (curr_replicas + amount) MAX_PODS
              else Z.max (curr_replicas - amount) 1 in
            (* Execute scaling *)
            scale_result <~ call (EvRun (OcScale service new_count) 10)
                                 (w_run (OcScale service new_count) 10) ;;
            match scale_result with
            | TimeoutExpired =>
                ret (ActionResult.failed "horizontal" CommandTimeout)
            | RunFailed msg =>
                ret (ActionResult.failed "horizontal" (ExceptionText msg))
            | Completed returncode _ stderr =>
                if negb (returncode =? 0)%Z then
                  ret (ActionResult.failed "horizontal"
                                           (FailedToScale stderr))
                else
                  ret (ActionResult.mk "horizontal" true None
                         (Some service) (Some curr_replicas)
                         (Some new_count) None)
            end
        end
  end.

(** *** Vertical scaling with conflict retries *)

(** The loop [for attempt in range(max_retries)], from [attempt] on
    with [remaining] iterations left. *)
Fixpoint retry_attempts (deployment_name : string)
    (modify_fn : Deployment.t -> result Deployment.t)
    (remaining attempt : nat) : M W t bool :=
  match remaining with
  | O => ret false                       (* exceeded retries *)
  | S remaining' =>
      fetched <~ call (EvGetDeployment deployment_name)
                      (w_get_deployment deployment_name) ;;
      match fetched with
      | Raise _ => ret false
      | Ok deployment =>
          match modify_fn deployment with
          | Raise _ => ret false
          | Ok body =>
              reply <~ call (EvPatchDeployment body)
                            (w_patch_deployment body) ;;
              match reply with
              | PatchOk => ret true
              | PatchConflict =>
                  let pause := 1 + inject_Z (Z.of_nat attempt) * (5 # 10) in
                  call (EvSleep pause)
                       (fun w => (w_sleep pause w, tt)) ;;;
                  retry_attempts deployment_name modify_fn
                                 remaining' (S attempt)
              | PatchFailed _ => ret false
              end
          end
      end
  end.

Definition _retry_deployment_patch (deployment_name : string)
    (modify_fn : Deployment.t -> result Deployment.t)
    (max_retries : nat) : M W t bool :=
  retry_attempts deployment_name modify_fn max_retries 0.

Definition _vertical_scale (action : Action.t) : M W t ActionResult.t :=
  let service := Action.service action in
  let operation := Action.operation action in
  let factor := default 1 (Action.factor action) in
  self <~ get_self ;;
  if negb (v1_deployments self) then
    ret (ActionResult.failed "vertical" ClientNotInitialized)
  else
    success <~ _retry_deployment_patch service
                 (modify_resources operation factor) 3 ;;
    if success : bool then
      ret (ActionResult.mk "vertical" true None (Some service)
                           None None (Some factor))
    else
      ret (ActionResult.failed "vertical" FailedAfterRetries).

(** *** Restart *)

Definition _restart_service (action : Action.t) : M W t ActionResult.t :=
  let service := Action.service action in
  result <~ call (EvRun (OcRolloutRestart service) 30)
                 (w_run (OcRolloutRestart service) 30) ;;
  match result with
  | TimeoutExpired => ret (ActionResult.failed "restart" CommandTimeout)
  | RunFailed msg => ret (ActionResult.failed "restart" (ExceptionText msg))
  | Completed returncode _ stderr =>
      if negb (returncode =? 0)%Z then
        ret (ActionResult.failed "restart" (FailedToRestart stderr))
      else
        ret (ActionResult.mk "restart" true None (Some service)
                             None None None)
  end.

Definition _execute_action (action : Action.t) : M W t ActionResult.t :=
  let action_type := Action.name action in
  if String.eqb action_type "horizontal" then _horizontal_scale action
  else if String.eqb action_type "vertical" then _vertical_scale action
  else if String.eqb action_type "restart" then _restart_service action
  else ret (ActionResult.failed action_type (UnknownActionType action_type)).

(** The loop of [act]: results, errors and the overall flag so far. *)
Fixpoint execute_all (actions : list Action.t)
    (results : list ActionResult.t) (errors : list act_error)
    (all_success : bool)
    : M W t (list ActionResult.t * list act_error * bool) :=
  match actions with
  | [] => ret (results, errors, all_success)
  | action :: rest =>
      result <~ _execute_action action ;;
      if ActionResult.success result then
        execute_all rest (results ++ [result]) errors all_success
      else
        execute_all rest (results ++ [result])
          (errors ++ [default (ExceptionText "Unknown error")
                              (ActionResult.error result)])
          false
  end.

Definition act (decision : Decision.t) : M W t ExecutionResult.t :=
  let actions := Decision.actions decision in
  out <~ execute_all actions [] [] true ;;
  let '(results, errors, all_success) := out in
  let execution_result :=
    ExecutionResult.mk all_success (length actions) results
      (match errors with [] => None | _ => Some errors end) in
  modify (fun self => mk (v1_deployments self)
                         (execution_history self ++ [execution_result])) ;;;
  ret execution_result.

End Methods.
(** [self.execution_history[-lookback:]] *)
Definition get_execution_history (self : t) (lookback : Z)
    : list ExecutionResult.t :=
  slice_from (- lookback) (execution_history self).

End ActAgent.

(** What [get_reflection_summary] returns: [{"total": 0}] for an empty
    history, the statistics otherwise. *)
Module ReflectionSummary.
Inductive t : Type :=
| NoReflections
| Summary (total_reflections successful failed : nat)
          (success_rate avg_health_delta : Q).
End ReflectionSummary.

(** ** reflect_agent.py *)

Module ReflectAgent.
Import Py Constants.

Record t : Type := mk {
  reflection_history : list Reflection.t
}.

Definition lower_is_better : list string :=
  ["http.error.rate"; "http.latency"; "cost.per.request"].
Definition higher_is_better : list string := ["http.throughput"].

Definition mem (metric : string) (l : list string) : bool :=
  existsb (String.eqb metric) l.

Definition pct_change (pre_value post_value : Q) : Q :=
  if Qeq_bool pre_value 0 then 0
  else ((post_value - pre_value) / Qabs pre_value) * 100.

Definition is_improvement (metric : string) (pre_value post_value : Q)
    : bool :=
  if mem metric lower_is_better then Qltb post_value pre_value
  else if mem metric higher_is_better then Qgtb post_value pre_value
  else false.

Definition is_degradation (metric : string) (pre_value post_value : Q)
    : bool :=
  if mem metric lower_is_better then Qgtb post_value pre_value
  else if mem metric higher_is_better then Qltb post_value pre_value
  else false.

(** The common loop of [_identify_improvements] and
    [_identify_degradations] over [post_metrics.items()]. *)
Fixpoint changes (selected : string -> Q -> Q -> bool)
    (pre_metrics : dict value) (post_items : dict value) : list Change.t :=
  match post_items with
  | [] => []
  | (metric, post_value) :: rest =>
      let others := changes selected pre_metrics rest in
      match lookup metric pre_metrics with
      | None => others                         (* not in pre_metrics *)
      | Some pre_value =>
          match pre_value, post_value with
          | Some pre, Some post =>
              let pct := pct_change pre post in
              if selected metric pre post && Qgtb (Qabs pct) 5
              then Change.mk metric pre post pct :: others
              else others
          | _, _ => others                     (* skip None values *)
          end
      end
  end.

Definition _identify_improvements (pre_state post_state : Snapshot.t)
    : list Change.t :=
  changes is_improvement (Snapshot.derived_metrics pre_state)
          (Snapshot.derived_metrics post_state).

Definition _identify_degradations (pre_state post_state : Snapshot.t)
    : list Change.t :=
  changes is_degradation (Snapshot.derived_metrics pre_state)
          (Snapshot.derived_metrics post_state).

Definition average_magnitude (l : list Change.t) : Q :=
  sum (map (fun c => Qabs (Change.change_pct c)) l)
    / inject_Z (Z.of_nat (length l)).

Definition _evaluate_success (health_delta : Q)
    (improvements degradations : list Change.t) : bool :=
  (* Success if health improved significantly *)
  if Qgtb health_delta (SUCCESS_THRESHOLD * 100) then true
  (* Failure if health degraded significantly *)
  else if Qltb health_delta (DEGRADATION_THRESHOLD * 100) then false
  (* Otherwise, compare improvements vs degradations *)
  else if (length degradations <? length improvements)%nat then true
  else
    match improvements, degradations with
    | _ :: _, _ :: _ =>
        (* "If tied, check magnitude of changes" *)
        Qgtb (average_magnitude improvements)
             (average_magnitude degradations)
    | _ :: _, [] => true                    (* only improvements *)
    | [], _ => false                        (* no clear improvement *)
    end.

Definition violation_metrics (s : Snapshot.t) : gset string :=
  list_to_set (map Violation.metric (Snapshot.slo_violations s)).

(** The loop over the actions of [_detect_side_effects]. *)
Fixpoint cost_side_effects (pre_state post_state : Snapshot.t)
    (actions : list Action.t) : result (list side_effect) :=
  match actions with
  | [] => Ok []
  | action :: rest =>
      here <-
        (if String.eqb (Action.name action) "horizontal"
            && bool_decide (Action.operation action = Some "increase")
         then
           let pre_cost :=
             get (Snapshot.derived_metrics pre_state)
                 "cost.per.request" (Some 0) in
           let post_cost :=
             get (Snapshot.derived_metrics post_state)
                 "cost.per.request" (Some 0) in
           pre <- num pre_cost ;;
           spiked <- gt post_cost (pre * (15 # 10)) ;;
           Ok (if spiked : bool then [CostIncreasedAfterScalingUp] else [])
         else Ok []) ;;
      later <- cost_side_effects pre_state post_state rest ;;
      Ok (here ++ later)
  end.

Definition _detect_side_effects (pre_state post_state : Snapshot.t)
    (actions : list Action.t) : result (list side_effect) :=
  let new_violations :=
    violation_metrics post_state ∖ violation_metrics pre_state in
  let new_anomalies :=
    dom (Snapshot.anomalies post_state)
      ∖ dom (Snapshot.anomalies pre_state) in
  costs <- cost_side_effects pre_state post_state actions ;;
  Ok ((if bool_decide (new_violations = ∅) then []
       else [NewSLOViolations new_violations])
      ++ (if bool_decide (new_anomalies = ∅) then []
          else [NewAnomalies new_anomalies])
      ++ costs).

(** [max(l, key=lambda x: abs(x["change_pct"]))]: the first maximum. *)
Definition strongest (first : Change.t) (rest : list Change.t) : Change.t :=
  fold_left
    (fun best c =>
       if Qgtb (Qabs (Change.change_pct c)) (Qabs (Change.change_pct best))
       then c else best)
    rest first.

Definition _generate_recommendations (success : bool)
    (improvements degradations : list Change.t)
    (side_effects : list side_effect) : list recommendation :=
  (if success then
     AdaptationSuccessful ::
       match improvements with
       | [] => []
       | i :: rest =>
           let top := strongest i rest in
           [BestImprovement (Change.metric top) (Change.change_pct top)]
       end
   else
     ConsiderAlternatives ::
       match degradations with
       | [] => []
       | d :: rest =>
           let worst := strongest d rest in
           [AddressDegradation (Change.metric worst) (Change.change_pct worst)]
       end)
  ++ match side_effects with
     | [] => []
     | _ :: _ => MonitorSideEffects :: map SideEffectLine side_effects
     end
  ++ match improvements, degradations with
     | [], [] => [NoSignificantChanges]
     | _, _ => []
     end.

Definition record (self : t) (reflection : Reflection.t) : t :=
  mk (reflection_history self ++ [reflection]).

Definition reflect (self : t) (pre_state post_state : Snapshot.t)
    (decision : Decision.t) (execution_result : ExecutionResult.t)
    : result (t * Reflection.t) :=
  (* Check if execution itself succeeded *)
  if negb (ExecutionResult.success execution_result) then
    let reflection :=
      Reflection.mk false (Some "Execution failed")
        (Some (ExecutionResult.errors execution_result))
        None None None None None None
        [ReviewExecutionErrors; CheckSystemPermissions] None in
    Ok (record self reflection, reflection)
  else
    (* Compare metrics *)
    let improvements := _identify_improvements pre_state post_state in
    let degradations := _identify_degradations pre_state post_state in
    (* Analyze health score change *)
    let pre_health := Snapshot.health_score pre_state in
    let post_health := Snapshot.health_score post_state in
    let health_delta := post_health - pre_health in
    (* Determine overall success *)
    let success := _evaluate_success health_delta improvements degradations in
    (* Identify side effects *)
    side_effects <- _detect_side_effects pre_state post_state
                                         (Decision.actions decision) ;;
    (* Generate recommendations *)
    let recommendations :=
      _generate_recommendations success improvements degradations
                                side_effects in
    let reflection :=
      Reflection.mk success None None (Some health_delta) (Some pre_health)
        (Some post_health) (Some improvements) (Some degradations)
        (Some side_effects) recommendations
        (Some (map Action.name (Decision.actions decision))) in
    Ok (record self reflection, reflection).

Definition get_reflection_summary (self : t) (lookback : option Z)
    : ReflectionSummary.t :=
  let history :=
    match lookback with
    | None => reflection_history self
    | Some n => slice_from (- n) (reflection_history self)
    end in
  match history with
  | [] => ReflectionSummary.NoReflections
  | _ :: _ =>
      let successful := length (filter (fun r => Reflection.success r = true) history) in
      let avg_health_delta :=
        sum (map (fun r => default 0 (Reflection.health_delta r)) history)
          / inject_Z (Z.of_nat (length history)) in
      ReflectionSummary.Summary
        (length history) successful (length history - successful)
        (inject_Z (Z.of_nat successful) / inject_Z (Z.of_nat (length history)))
        avg_health_delta
  end.

End ReflectAgent.

(** ** enrich_agent.py *)

Module EnrichAgent.
Import Py Constants Eff.

Record t : Type := mk {
  knowledge_base_path : string;
  knowledge_base : KnowledgeBase.t;
  learning_cycles : nat;
  (* Pattern mining structures *)
  pattern_counts : gmap string nat;
  pattern_successes : gmap string nat;
  (* RL structures (simple Q-learning) *)
  q_table : gmap (string * string) Q;
  learning_rate : Q;
  discount_factor : Q;
  epsilon : Q
}.

Definition set_knowledge_base (kb : KnowledgeBase.t) (self : t) : t :=
  mk (knowledge_base_path self) kb (learning_cycles self)
     (pattern_counts self) (pattern_successes self) (q_table self)
     (learning_rate self) (discount_factor self) (epsilon self).

Definition set_learning_cycles (n : nat) (self : t) : t :=
  mk (knowledge_base_path self) (knowledge_base self) n
     (pattern_counts self) (pattern_successes self) (q_table self)
     (learning_rate self) (discount_factor self) (epsilon self).

Definition set_pattern_tables (counts successes : gmap string nat)
    (self : t) : t :=
  mk (knowledge_base_path self) (knowledge_base self) (learning_cycles self)
     counts successes (q_table self)
     (learning_rate self) (discount_factor self) (epsilon self).

Definition set_q_table (q : gmap (string * string) Q) (self : t) : t :=
  mk (knowledge_base_path self) (knowledge_base self) (learning_cycles self)
     (pattern_counts self) (pattern_successes self) q
     (learning_rate self) (discount_factor self) (epsilon self).

(** ["high" if x > hi else "medium" if x > lo else "low"] *)
Definition bucket (x : value) (hi lo : Q) : result string :=
  is_high <- gt x hi ;;
  if is_high : bool then Ok "high"
  else
    is_medium <- gt x lo ;;
    Ok (if is_medium : bool then "medium" else "low").

Definition _create_pattern_key (derived_metrics : dict value)
    (action : Action.t) : result string :=
  let error_rate := get derived_metrics "http.error.rate" (Some 0) in
  let latency := get derived_metrics "http.latency" (Some 0) in
  let throughput := get derived_metrics "http.throughput" (Some 0) in
  error_bucket <- bucket error_rate (5 # 100) (1 # 100) ;;
  latency_bucket <- bucket latency 1000 500 ;;
  throughput_bucket <- bucket throughput 50 10 ;;
  let action_type := Action.name action in
  let operation := default "" (Action.operation action) in
  Ok (error_bucket +:+ "_" +:+ latency_bucket +:+ "_" +:+ throughput_bucket
        +:+ "_" +:+ action_type +:+ "_" +:+ operation).

Definition _calculate_reward (health_delta : Q) (success : bool) : Q :=
  (* Base reward from health improvement *)
  let reward := health_delta / 10 in
  (* Bonus for success *)
  if success then reward + 10 else reward - 5.

Definition _get_state_key (state : Snapshot.t) : result string :=
  let derived := Snapshot.derived_metrics state in
  let health := Snapshot.health_score state in
  let error_rate := get derived "http.error.rate" (Some 0) in
  let latency := get derived "http.latency" (Some 0) in
  error_level <- bucket error_rate (5 # 100) (1 # 100) ;;
  latency_level <- bucket latency 1000 500 ;;
  let health_level :=
    if Qltb health 50 then "critical"
    else if Qltb health 80 then "degraded" else "healthy" in
  Ok (error_level +:+ "_" +:+ latency_level +:+ "_" +:+ health_level).

Definition _get_possible_actions : list string :=
  [ "horizontal_increase";
    "horizontal_decrease";
    "vertical_increase";
    "vertical_decrease";
    "restart_" ].

(** [f"{action.get('name')}_{action.get('operation', '')}"] *)
Definition action_key (action : Action.t) : string :=
  Action.name action +:+ "_" +:+ default "" (Action.operation action).

(** [self.q_table.get(k, 0.0)] *)
Definition q_get (q : gmap (string * string) Q) (k : string * string) : Q :=
  default 0 (q !! k).

(** One Q-learning update (the body of the loop of
    [_update_rl_policies]). *)
Definition q_update (learning_rate discount_factor reward : Q)
    (pre_state_key post_state_key : string)
    (q : gmap (string * string) Q) (action : Action.t)
    : gmap (string * string) Q :=
  let q_key := (pre_state_key, action_key action) in
  (* Current Q-value *)
  let current_q := q_get q q_key in
  (* Maximum Q-value for next state *)
  let next_max_q :=
    max_default
      (map (fun a => q_get q (post_state_key, a)) _get_possible_actions)
      0 in
  (* Q-learning update *)
  let new_q :=
    current_q
    + learning_rate * (reward + discount_factor * next_max_q - current_q) in
  <[q_key := new_q]> q.

(** [self.pattern_counts[k] += 1] on a [defaultdict(int)] *)
Definition increment (k : string) (m : gmap string nat) : gmap string nat :=
  <[k := S (default O (m !! k))]> m.

(** Reading [m[k]] on a [defaultdict(int)] creates the entry. *)
Definition touch (k : string) (m : gmap string nat) : gmap string nat :=
  <[k := default O (m !! k)]> m.

Definition nat_to_Q (n : nat) : Q := inject_Z (Z.of_nat n).

Definition store_pattern (pattern : Pattern.t) (kb : KnowledgeBase.t)
    : KnowledgeBase.t :=
  KnowledgeBase.mk
    (Some (<[Pattern.pattern_key pattern := pattern]>
             (default ∅ (KnowledgeBase.patterns kb))))
    (KnowledgeBase.statistics kb).

Definition _update_statistics_pure (actions : list Action.t) (success : bool)
    (kb : KnowledgeBase.t) : KnowledgeBase.t :=
  let stats :=
    default (Statistics.mk 0 0 ∅ ∅) (KnowledgeBase.statistics kb) in
  let total := S (Statistics.total_adaptations stats) in
  let successful :=
    if success then S (Statistics.successful_adaptations stats)
    else Statistics.successful_adaptations stats in
  let counts :=
    fold_left (fun m a => increment (Action.name a) m) actions
              (Statistics.action_counts stats) in
  let successes :=
    if success then
      fold_left (fun m a => increment (Action.name a) m) actions
                (Statistics.action_successes stats)
    else Statistics.action_successes stats in
  KnowledgeBase.mk (KnowledgeBase.patterns kb)
                   (Some (Statistics.mk total successful counts successes)).

Definition get_knowledge_summary (self : t) : KnowledgeSummary.t :=
  let stats := KnowledgeBase.statistics (knowledge_base self) in
  let total := from_option Statistics.total_adaptations O stats in
  let successful := from_option Statistics.successful_adaptations O stats in
  KnowledgeSummary.mk (learning_cycles self)
    (size (default ∅ (KnowledgeBase.patterns (knowledge_base self))))
    (size (q_table self)) total successful
    (if (0 <? total)%nat then nat_to_Q successful / nat_to_Q total else 0)
    (from_option Statistics.action_counts ∅ stats).

Section Methods.
Context {W : Type} `{World W}.

Definition _load_knowledge_base (path : string)
    : W -> W * list event * KnowledgeBase.t :=
  fun w =>
    let (w', loaded) := w_load path w in
    (w', [EvLoadKnowledgeBase path], default KnowledgeBase.empty loaded).

(** [EnrichAgent.__init__] *)
Definition init (knowledge_base_path : string) (w : W)
    : W * list event * t :=
  let '(w', evs, kb) := _load_knowledge_base knowledge_base_path w in
  (w', evs,
   mk knowledge_base_path kb 0 ∅ ∅ ∅ (1 # 10) (95 # 100)
      RL_EXPLORATION_RATE).

(** The loop of [_mine_patterns]. *)
Fixpoint mine (derived_metrics : dict value) (actions : list Action.t)
    (success : bool) (health_delta : Q) (patterns : list Pattern.t)
    : M W t (list Pattern.t) :=
  match actions with
  | [] => ret patterns
  | action :: rest =>
      pattern_key <~ lift (_create_pattern_key derived_metrics action) ;;
      modify (fun self =>
        let counts := increment pattern_key (pattern_counts self) in
        let successes :=
          if success then increment pattern_key (pattern_successes self)
          else pattern_successes self in
        set_pattern_tables counts (touch pattern_key successes) self) ;;;
      self <~ get_self ;;
      (* Calculate support and confidence *)
      let support := default O (pattern_counts self !! pattern_key) in
      let confidence :=
        if (0 <? support)%nat then
          nat_to_Q (default O (pattern_successes self !! pattern_key))
            / nat_to_Q support
        else 0 in
      (* If pattern meets thresholds, add to knowledge base *)
      if Qle_bool (PATTERN_MINING_MIN_SUPPORT * 10) (nat_to_Q support)
         && Qle_bool PATTERN_MINING_MIN_CONFIDENCE confidence
      then
        let pattern :=
          Pattern.mk pattern_key (Action.name action)
                     (Action.operation action) support confidence
                     health_delta in
        modify (fun self =>
          set_knowledge_base
            (store_pattern pattern (knowledge_base self)) self) ;;;
        mine derived_metrics rest success health_delta
             (patterns ++ [pattern])
      else
        mine derived_metrics rest success health_delta patterns
  end.

Definition _mine_patterns (pre_state : Snapshot.t)
    (actions : list Action.t) (success : bool) (health_delta : Q)
    : M W t (list Pattern.t) :=
  mine (Snapshot.derived_metrics pre_state) actions success health_delta [].

Definition _update_rl_policies (pre_state : Snapshot.t)
    (actions : list Action.t) (post_state : Snapshot.t) (success : bool)
    (health_delta : Q) : M W t (list (string * string)) :=
  (* Calculate reward *)
  let reward := _calculate_reward health_delta success in
  (* Get state representations *)
  pre_state_key <~ lift (_get_state_key pre_state) ;;
  post_state_key <~ lift (_get_state_key post_state) ;;
  modify (fun self =>
    set_q_table
      (fold_left
         (q_update (learning_rate self) (discount_factor self) reward
                   pre_state_key post_state_key)
         actions (q_table self))
      self) ;;;
  ret (map (fun action => (pre_state_key, action_key action)) actions).

Definition _update_statistics (actions : list Action.t) (success : bool)
    : M W t unit :=
  modify (fun self =>
    set_knowledge_base
      (_update_statistics_pure actions success (knowledge_base self)) self).

Definition _save_knowledge_base : M W t unit :=
  self <~ get_self ;;
  call (EvSaveKnowledgeBase (knowledge_base_path self)
                            (knowledge_base self))
       (w_save (knowledge_base_path self) (knowledge_base self)) ;;;
  ret tt.

Definition enrich (reflection : Reflection.t) (decision : Decision.t)
    (pre_state post_state : Snapshot.t) : M W t Enrichment.t :=
  modify (fun self => set_learning_cycles (S (learning_cycles self)) self) ;;;
  (* Extract key information *)
  let success := Reflection.success reflection in
  let actions := Decision.actions decision in
  let health_delta := default 0 (Reflection.health_delta reflection) in
  (* Mine patterns *)
  patterns_learned <~ _mine_patterns pre_state actions success
                                     health_delta ;;
  (* Update Q-learning policies (if enabled) *)
  policies_updated <~
    (if RL_ENABLED
     then _update_rl_policies pre_state actions post_state success
                              health_delta
     else ret []) ;;
  (* Update success/failure statistics *)
  _update_statistics actions success ;;;
  (* Periodically save knowledge base *)
  self <~ get_self ;;
  (if (Z.of_nat (learning_cycles self) mod RL_UPDATE_FREQUENCY =? 0)%Z
   then _save_knowledge_base else ret tt) ;;;
  self <~ get_self ;;
  ret (Enrichment.mk (learning_cycles self) patterns_learned
         policies_updated
         (size (default ∅ (KnowledgeBase.patterns (knowledge_base self))))
         (size (q_table self))).

Definition export_knowledge (filepath : export_file) : M W t unit :=
  self <~ get_self ;;
  let export_data :=
    KnowledgeExport.mk (learning_cycles self)
      (get_knowledge_summary self)
      (default ∅ (KnowledgeBase.patterns (knowledge_base self)))
      (KnowledgeBase.statistics (knowledge_base self)) in
  call (EvExportKnowledge filepath export_data)
       (w_export filepath export_data) ;;;
  ret tt.

End Methods.
(** [max(action_values.items(), key=lambda x: x[1])]: the first item of
    maximal value. *)
Definition best_item (first : string * Q) (rest : list (string * Q))
    : string * Q :=
  fold_left (fun best item => if Qgtb (snd item) (snd best) then item else best)
            rest first.

Definition get_best_action (self : t) (state : Snapshot.t)
    : result (option string) :=
  if negb RL_ENABLED || bool_decide (q_table self = ∅) then Ok None
  else
    state_key <- _get_state_key state ;;
    (* Get Q-values for all actions in this state *)
    let action_values :=
      fold_left
        (fun values action_key =>
           dict_set action_key (q_get (q_table self) (state_key, action_key))
                    values)
        _get_possible_actions [] in
    (* Return action with highest Q-value *)
    match action_values with
    | first :: rest => Ok (Some (fst (best_item first rest)))
    | [] => Ok None
    end.

End EnrichAgent.

(** ** aware_orchestrator.py *)

Module CycleResult.
(** The summaries stored under ["phases"] (durations left out). *)
Record phases : Type := mk_phases {
  assess : option (Q * nat * nat);       (* health, violations, anomalies *)
  weigh : option (nat * Q);              (* actions planned, confidence *)
  act : option (bool * nat);             (* success, actions executed *)
  reflect : option (bool * Q * nat * nat);
                        (* success, health delta, improvements, degradations *)
  enrich : option (nat * nat)            (* patterns learned, policies updated *)
}.

Record t : Type := mk {
  cycle_number : nat;
  service : string;
  phase : phases;
  status : option string;
  reason : option string;
  adaptation_success : option bool;
  error : option Py.exn
}.

Definition start (cycle_number : nat) (service : string) : t :=
  mk cycle_number service (mk_phases None None None None None)
     None None None None.

Definition set_phase (p : phases) (r : t) : t :=
  mk (cycle_number r) (service r) p (status r) (reason r)
     (adaptation_success r) (error r).

Definition set_status (s : string) (why : option string) (r : t) : t :=
  mk (cycle_number r) (service r) (phase r) (Some s) why
     (adaptation_success r) (error r).

Definition set_adaptation_success (b : bool) (r : t) : t :=
  mk (cycle_number r) (service r) (phase r) (status r) (reason r)
     (Some b) (error r).

Definition set_error (e : Py.exn) (r : t) : t :=
  mk (cycle_number r) (service r) (phase r) (Some "error") (reason r)
     (adaptation_success r) (Some e).
End CycleResult.

Module AWAREOrchestrator.
Import Py Constants Eff.

Record t : Type := mk {
  weigh_agent : WeighAgent.t;
  act_agent : ActAgent.t;
  reflect_agent : ReflectAgent.t;
  enrich_agent : EnrichAgent.t;
  cycle_count : nat
}.

Definition set_weigh_agent (a : WeighAgent.t) (o : t) : t :=
  mk a (act_agent o) (reflect_agent o) (enrich_agent o) (cycle_count o).
Definition set_act_agent (a : ActAgent.t) (o : t) : t :=
  mk (weigh_agent o) a (reflect_agent o) (enrich_agent o) (cycle_count o).
Definition set_reflect_agent (a : ReflectAgent.t) (o : t) : t :=
  mk (weigh_agent o) (act_agent o) a (enrich_agent o) (cycle_count o).
Definition set_enrich_agent (a : EnrichAgent.t) (o : t) : t :=
  mk (weigh_agent o) (act_agent o) (reflect_agent o) a (cycle_count o).

(** The Weigh agent as it is when called: its [knowledge_base] is the
    very store of the Enrich agent. *)
Definition weigh_agent_now (o : t) : WeighAgent.t :=
  WeighAgent.mk (Some (EnrichAgent.knowledge_base (enrich_agent o)))
                (WeighAgent.decision_history (weigh_agent o)).

(** The state while a cycle runs: the orchestrator and the local
    [cycle_result]. *)
Definition running : Type := t * CycleResult.t.

Section Methods.
Context {W : Type} `{World W}.

(** [AWAREOrchestrator.__init__] *)
Definition init (client_initialised : bool) (w : W)
    : W * list event * t :=
  let '(w', evs, enrich_agent) :=
    EnrichAgent.init KNOWLEDGE_BASE_PATH w in
  (w', evs,
   mk (WeighAgent.mk (Some (EnrichAgent.knowledge_base enrich_agent)) [])
      (ActAgent.mk client_initialised [])
      (ReflectAgent.mk [])
      enrich_agent
      0).

Definition on_agent {S A} (proj : t -> S) (upd : S -> t -> t)
    (m : M W S A) : M W running A :=
  zoom (fun s : running => proj (fst s))
       (fun a (s : running) => (upd a (fst s), snd s)) m.

Definition update_result (f : CycleResult.t -> CycleResult.t)
    : M W running unit :=
  modify (fun s : running => (fst s, f (snd s))).

Definition update_phases (f : CycleResult.phases -> CycleResult.phases)
    : M W running unit :=
  update_result
    (fun r => CycleResult.set_phase (f (CycleResult.phase r)) r).

Definition current_result : M W running CycleResult.t :=
  s <~ get_self ;; ret (snd s).

Definition assess (service : string) : M W running (option Snapshot.t) :=
  r <~ call (EvAssess service) (w_assess service) ;; lift r.

Definition weigh (system_snapshot : Snapshot.t) (service : string)
    : M W WeighAgent.t Decision.t :=
  self <~ get_self ;;
  out <~ lift (WeighAgent.weigh self system_snapshot service) ;;
  put_self (fst out) ;;; ret (snd out).

Definition reflect (pre_state post_state : Snapshot.t)
    (decision : Decision.t) (execution_result : ExecutionResult.t)
    : M W ReflectAgent.t Reflection.t :=
  self <~ get_self ;;
  out <~ lift (ReflectAgent.reflect self pre_state post_state decision
                                    execution_result) ;;
  put_self (fst out) ;;; ret (snd out).

Definition _log_to_csv (decision : option Decision.t)
    (execution : option ExecutionResult.t)
    (reflection : option Reflection.t) : M W running unit :=
  cycle_result <~ current_result ;;
  call (EvCsvRow
          (default "unknown" (CycleResult.status cycle_result))
          (from_option (fun d => length (Decision.actions d)) O decision)
          (from_option ExecutionResult.actions_executed O execution)
          (from_option Reflection.success false reflection))
       w_csv ;;;
  ret tt.

(** The [try] block of [run_aware_cycle]. *)
Definition cycle_body (service : string) : M W running CycleResult.t :=
  (* Phase 1: ASSESS *)
  assessed <~ assess service ;;
  match assessed with
  | None =>
      update_result
        (CycleResult.set_status "aborted" (Some "Assessment failed")) ;;;
      current_result
  | Some system_snapshot =>
      update_phases (fun p =>
        CycleResult.mk_phases
          (Some (Snapshot.health_score system_snapshot,
                 length (Snapshot.slo_violations system_snapshot),
                 size (Snapshot.anomalies system_snapshot)))
          (CycleResult.weigh p) (CycleResult.act p)
          (CycleResult.reflect p) (CycleResult.enrich p)) ;;;
      (* Phase 2: WEIGH *)
      decision <~ on_agent weigh_agent_now set_weigh_agent
                           (weigh system_snapshot service) ;;
      update_phases (fun p =>
        CycleResult.mk_phases (CycleResult.assess p)
          (Some (length (Decision.actions decision),
                 Decision.confidence decision))
          (CycleResult.act p) (CycleResult.reflect p)
          (CycleResult.enrich p)) ;;;
      (* Check if any actions are needed *)
      match Decision.actions decision with
      | [] =>
          update_result
            (CycleResult.set_status "stable"
                                    (Some "No adaptations required")) ;;;
          _log_to_csv None None None ;;;
          current_result
      | _ :: _ =>
          (* Phase 3: ACT *)
          execution_result <~ on_agent act_agent set_act_agent
                                       (ActAgent.act decision) ;;
          update_phases (fun p =>
            CycleResult.mk_phases (CycleResult.assess p)
              (CycleResult.weigh p)
              (Some (ExecutionResult.success execution_result,
                     ExecutionResult.actions_executed execution_result))
              (CycleResult.reflect p) (CycleResult.enrich p)) ;;;
          (* Wait for system to stabilize after adaptation *)
          call (EvSleep 30) (fun w => (w_sleep 30 w, tt)) ;;;
          (* Reassess system after adaptation *)
          reassessed <~ assess service ;;
          let post_snapshot := default system_snapshot reassessed in
          (* Phase 4: REFLECT *)
          reflection <~ on_agent reflect_agent set_reflect_agent
                          (reflect system_snapshot post_snapshot decision
                                   execution_result) ;;
          update_phases (fun p =>
            CycleResult.mk_phases (CycleResult.assess p)
              (CycleResult.weigh p) (CycleResult.act p)
              (Some (Reflection.success reflection,
                     default 0 (Reflection.health_delta reflection),
                     length (default [] (Reflection.improvements reflection)),
                     length (default [] (Reflection.degradations reflection))))
              (CycleResult.enrich p)) ;;;
          (* Phase 5: ENRICH *)
          enrichment <~ on_agent enrich_agent set_enrich_agent
                          (EnrichAgent.enrich reflection decision
                                              system_snapshot post_snapshot) ;;
          update_phases (fun p =>
            CycleResult.mk_phases (CycleResult.assess p)
              (CycleResult.weigh p) (CycleResult.act p)
              (CycleResult.reflect p)
              (Some (length (Enrichment.patterns_learned enrichment),
                     length (Enrichment.policies_updated enrichment)))) ;;;
          (* Overall cycle status *)
          update_result (CycleResult.set_status "completed" None) ;;;
          update_result
            (CycleResult.set_adaptation_success
               (Reflection.success reflection)) ;;;
          _log_to_csv (Some decision) (Some execution_result)
                      (Some reflection) ;;;
          current_result
      end
  end.

Definition run_aware_cycle (service : string) : M W t CycleResult.t :=
  fun c =>
    let o := self c in
    let o := mk (weigh_agent o) (act_agent o) (reflect_agent o)
                (enrich_agent o) (S (cycle_count o)) in
    let cycle_result := CycleResult.start (cycle_count o) service in
    let (c', r) :=
      try_except (cycle_body service)
        (fun e => update_result (CycleResult.set_error e) ;;;
                  current_result)
        (Ctx (o, cycle_result) (world c) (trace c)) in
    (Ctx (fst (self c')) (world c') (trace c'), r).

Definition export_knowledge (filepath : export_file) : M W t unit :=
  zoom enrich_agent set_enrich_agent (EnrichAgent.export_knowledge filepath).

End Methods.
(** What [get_cycle_summary] returns. *)
Record cycle_summary : Type := CycleSummary {
  total_cycles : nat;
  reflection_summary : ReflectionSummary.t;
  knowledge_summary : KnowledgeSummary.t
}.

Definition get_cycle_summary (o : t) (lookback : Z) : cycle_summary :=
  CycleSummary (cycle_count o)
    (ReflectAgent.get_reflection_summary (reflect_agent o) (Some lookback))
    (EnrichAgent.get_knowledge_summary (enrich_agent o)).

End AWAREOrchestrator.

(** ** monitoring_aware.py *)

Module Monitoring.
Import Py Eff.

Section Main.
Context {W : Type} `{World W}.
(** [utils.normalize_service_name] *)
Variable normalize_service_name : string -> string.

Fixpoint run_monitoring_cycle (pods : list string)
    (all_results : dict CycleResult.t)
    : M W AWAREOrchestrator.t (dict CycleResult.t) :=
  match pods with
  | [] => ret all_results
  | pod :: rest =>
      let service := normalize_service_name pod in
      cycle_result <~ AWAREOrchestrator.run_aware_cycle service ;;
      run_monitoring_cycle rest
        (dict_set service cycle_result all_results)
  end.

(** One iteration of the [while True] loop of [main]. *)
Definition iteration (pods : list string) (cycle_counter : nat)
    : M W AWAREOrchestrator.t unit :=
  run_monitoring_cycle pods [] ;;;
  (* Export knowledge periodically *)
  (if (cycle_counter mod 10 =? 0)%nat
   then AWAREOrchestrator.export_knowledge (ExportCycle cycle_counter)
   else ret tt) ;;;
  (* Wait before next cycle *)
  call EvWaitNextCycle (fun w => (w, tt)).

(** [iterations] turns of the loop, the first one numbered
    [cycle_counter + 1]. *)
Fixpoint loop (pods : list string) (iterations cycle_counter : nat)
    : M W AWAREOrchestrator.t unit :=
  match iterations with
  | O => ret tt
  | S n =>
      iteration pods (S cycle_counter) ;;;
      loop pods n (S cycle_counter)
  end.

(** [except KeyboardInterrupt:] *)
Definition on_keyboard_interrupt : M W AWAREOrchestrator.t unit :=
  AWAREOrchestrator.export_knowledge ExportFinal.

(** [except Exception as e:] *)
Definition on_unexpected_error : M W AWAREOrchestrator.t unit :=
  try_except (AWAREOrchestrator.export_knowledge ExportOnError)
             (fun _ => ret tt).

(** [main], interrupted by the user after [iterations] turns of the
    loop; an exception escaping the loop takes the other handler. *)
Definition main (client_initialised : bool) (pods : list string)
    (iterations : nat) (w : W)
    : ctx AWAREOrchestrator.t * result unit :=
  let '(w', evs, orchestrator) :=
    AWAREOrchestrator.init client_initialised w in
  match loop pods iterations 0 (Ctx orchestrator w' evs) with
  | (c, Ok _) => on_keyboard_interrupt c
  | (c, Raise _) => on_unexpected_error c
  end.

End Main.
End Monitoring.

(** ** A simulated environment

    A scripted telemetry backend and command line, a control plane that
    checks the version token of a patch against the live object, a clock
    and a disk. *)

Module Sim.
Import Py.

(** What happens between a fetch and the patch that follows it. *)
Inductive interference : Type :=
| Quiet
| ConcurrentWrite (containers : list Container.t)
| Fault (msg : string).

Record t : Type := mk {
  telemetry : list (result (option Snapshot.t));
  commands : list run_reply;
  live : Deployment.t;
  schedule : list interference;
  clock : Q;
  kb_file : option KnowledgeBase.t;
  exports : list (export_file * KnowledgeExport.t);
  disk_ok : bool
}.

Definition assess (service : string) (w : t)
    : t * result (option Snapshot.t) :=
  match telemetry w with
  | [] => (w, Ok None)
  | r :: rest =>
      (mk rest (commands w) (live w) (schedule w) (clock w) (kb_file w)
          (exports w) (disk_ok w), r)
  end.

Definition run (cmd : oc_command) (timeout : Q) (w : t) : t * run_reply :=
  match commands w with
  | [] => (w, RunFailed "no reply")
  | r :: rest =>
      (mk (telemetry w) rest (live w) (schedule w) (clock w) (kb_file w)
          (exports w) (disk_ok w), r)
  end.

Definition get_deployment (name : string) (w : t)
    : t * result Deployment.t :=
  if String.eqb name (Deployment.name (live w)) then (w, Ok (live w))
  else (w, Raise (OtherError "NotFound")).

Definition bump (containers : list Container.t) (d : Deployment.t)
    : Deployment.t :=
  Deployment.mk (Deployment.name d) (Deployment.resource_version d + 1)%Z
                containers.

Definition set_live (d : Deployment.t) (rest : list interference) (w : t)
    : t :=
  mk (telemetry w) (commands w) d rest (clock w) (kb_file w) (exports w)
     (disk_ok w).

(** A patch is accepted when its version token is the live one. *)
Definition check_version (body : Deployment.t) (w : t) : t * patch_reply :=
  if (Deployment.resource_version body
        =? Deployment.resource_version (live w))%Z
  then (set_live (bump (Deployment.containers body) (live w)) (schedule w) w,
        PatchOk)
  else (w, PatchConflict).

Definition patch_deployment (body : Deployment.t) (w : t)
    : t * patch_reply :=
  match schedule w with
  | [] => check_version body w
  | Quiet :: rest => check_version body (set_live (live w) rest w)
  | ConcurrentWrite containers :: rest =>
      check_version body (set_live (bump containers (live w)) rest w)
  | Fault msg :: rest => (set_live (live w) rest w, PatchFailed msg)
  end.

Definition sleep (seconds : Q) (w : t) : t :=
  mk (telemetry w) (commands w) (live w) (schedule w)
     (Qred (clock w + seconds)) (kb_file w) (exports w) (disk_ok w).

Definition load (path : string) (w : t) : t * option KnowledgeBase.t :=
  (w, kb_file w).

Definition save (path : string) (kb : KnowledgeBase.t) (w : t) : t * bool :=
  if disk_ok w then
    (mk (telemetry w) (commands w) (live w) (schedule w) (clock w)
        (Some kb) (exports w) (disk_ok w), true)
  else (w, false).

Definition export (file : export_file) (data : KnowledgeExport.t) (w : t)
    : t * bool :=
  if disk_ok w then
    (mk (telemetry w) (commands w) (live w) (schedule w) (clock w)
        (kb_file w) (exports w ++ [(file, data)]) (disk_ok w), true)
  else (w, false).

Definition csv (w : t) : t * bool := (w, disk_ok w).

#[global] Instance world : World t := {
  w_assess := assess;
  w_run := run;
  w_get_deployment := get_deployment;
  w_patch_deployment := patch_deployment;
  w_sleep := sleep;
  w_load := load;
  w_save := save;
  w_export := export;
  w_csv := csv
}.

(** A world with the given telemetry and command replies, one
    deployment and an empty disk. *)
Definition make (telemetry : list (result (option Snapshot.t)))
    (commands : list run_reply) (live : Deployment.t)
    (schedule : list interference) : t :=
  mk telemetry commands live schedule 0 None [] true.

End Sim.

(** ** Vocabulary for runs

    Relations between the context before and after a computation. *)

Module EffSpec.
Import Eff.

(** The knowledge export files written, in order. *)
Definition exports_of (evs : list event) : list export_file :=
  omap (fun ev => match ev with
                  | EvExportKnowledge file _ => Some file
                  | _ => None
                  end) evs.

Section WithWorld.
Context {W : Type}.

(** The trace after is the trace before, extended by events none of
    which writes a knowledge export. *)
Definition extends {S S'} (c : @ctx W S) (c' : @ctx W S') : Prop :=
  exists evs, trace c' = trace c ++ evs /\ exports_of evs = [].

(** The agent's own state is unchanged and the trace is extended. *)
Definition follows {S} (c c' : @ctx W S) : Prop :=
  self c' = self c /\ extends c c'.

End WithWorld.
End EffSpec.

(** * Vocabulary of the properties

    The candidates each rule produces, the rule groups as functions of the
    metric values, and the first maximum of a list, in which the
    properties of the Decision Engine are stated. *)

Module WeighSpec.
Import Py Constants WeighAgent.

(** The candidate of each rule. *)
Definition scale_out (service : string) (e l : Q) : Action.t :=
  candidate "horizontal" service (Some "increase") (Some 1%Z) None None
            (HighErrorRateOrLatency e l) 1.

Definition scale_in (service : string) (e l : Q) : Action.t :=
  candidate "horizontal" service (Some "decrease") (Some 1%Z) None None
            (LowLoad e l) 3.

Definition resize_up (service : string) (c : Q) : Action.t :=
  candidate "vertical" service (Some "increase") None (Some "cpu/mem")
            (Some (15 # 10)) (HighCostPerRequest c) 2.

Definition resize_down (service : string) (c : Q) : Action.t :=
  candidate "vertical" service (Some "decrease") None (Some "cpu/mem")
            (Some (75 # 100)) (LowResourceUtilization c) 3.

Definition emergency (service : string) (n : nat) : Action.t :=
  candidate "horizontal" service (Some "increase") (Some 2%Z) None None
            (CriticalSLOViolations n) 0.

Definition restart (service : string) (n : nat) : Action.t :=
  candidate "restart" service None None None None (MultipleAnomalies n) 2.

(** The violations of severity 2 or less. *)
Definition critical (violations : list Violation.t) : list Violation.t :=
  filter (fun v => (default 4 (Violation.severity v) <= 2)%Z) violations.

(** The four rule groups as functions of the metric values. *)
Definition horizontal_rule (service : string) (e l t : Q) : list Action.t :=
  if Qgtb e (5 # 100) || Qgtb l (1000 # 1) then [scale_out service e l]
  else if Qltb e ((5 # 100) * (25 # 100))
          && (Qltb l ((1000 # 1) * (5 # 10)) && Qltb t (10 # 1))
       then [scale_in service e l]
       else [].

Definition vertical_rule (service : string) (c : Q) : list Action.t :=
  if Qgtb c ((1 # 1000) * (105 # 100)) then [resize_up service c]
  else if Qltb c ((1 # 1000) * (5 # 10)) then [resize_down service c]
       else [].

Definition emergency_rule (service : string) (violations : list Violation.t)
    : list Action.t :=
  match critical violations with
  | [] => []
  | _ :: _ => [emergency service (length (critical violations))]
  end.

Definition restart_rule (service : string) (anomalies : gmap string (list nat))
    : list Action.t :=
  if (5 <? size anomalies)%nat then [restart service (size anomalies)]
  else [].

(** The first element of maximal key. *)
Fixpoint first_max {A} (key : A -> Q) (l : list A) : option A :=
  match l with
  | [] => None
  | a :: l' =>
      match first_max key l' with
      | Some y => if Qgtb (key y) (key a) then Some y else Some a
      | None => Some a
      end
  end.

(** The utility of a scale-out or restart of the given tier: the base
    utility scaled by 1 - health/100. *)
Definition rising (priority : Z) (h : Q) : Q :=
  (100 - inject_Z priority * 20) * (1 - h / 100).

(** The vertical candidates with their utilities. *)
Definition vertical_scored (service : string) (c : Q) : list Action.t :=
  if Qgtb c ((1 # 1000) * (105 # 100)) then
    [Action.set_utility
       ((100 - inject_Z 2 * 20) * Qmin (c / (1 # 1000)) 2)
       (resize_up service c)]
  else if Qltb c ((1 # 1000) * (5 # 10)) then
    [Action.set_utility
       ((100 - inject_Z 3 * 20) * Qmax (1 - c / (1 # 1000)) (5 # 10))
       (resize_down service c)]
  else [].

(** The emergency and restart candidates with their utilities. *)
Definition emergency_scored (service : string) (h : Q)
    (violations : list Violation.t) : list Action.t :=
  map (Action.set_utility (rising 0 h)) (emergency_rule service violations).

Definition restart_scored (service : string) (h : Q)
    (anomalies : gmap string (list nat)) : list Action.t :=
  map (Action.set_utility (rising 2 h)) (restart_rule service anomalies).

(** The scenario of C7: error rate 0.08, health 40, one violation of
    severity 1, nothing else reported. *)
Definition scenario : Snapshot.t :=
  Snapshot.mk "svc" [("http.error.rate", Some (8 # 100))] ∅
    [Violation.mk "net.http.error.count" 60 50 "gt" (Some 1%Z)] 40.

(** No metric rule fires: error rate and latency within their
    thresholds, not a low load, cost per request between 50% and 105%
    of its threshold. *)
Definition quiet_metrics (e l t c : Q) : Prop :=
  e <= 5 # 100 /\ l <= 1000 # 1
  /\ ~ (e < (5 # 100) * (25 # 100) /\ l < (1000 # 1) * (5 # 10)
        /\ t < 10 # 1)
  /\ c <= (1 # 1000) * (105 # 100)
  /\ (1 # 1000) * (5 # 10) <= c.

(** A snapshot with health 100, no violation and no anomaly, whose
    error rate is above the threshold. *)
Definition healthy_with_errors : Snapshot.t :=
  Snapshot.mk "svc"
    [("http.error.rate", Some (8 # 100)); ("http.latency", Some 200);
     ("http.throughput", Some 20); ("cost.per.request", Some (8 # 10000))]
    ∅ [] 100.

(** A lightly loaded service as the Assess agent reports it: its error
    rate and cost per request fall under the "lt" entries of
    SLO_THRESHOLDS (severities 1 and 2), hence the health score
    100 - 10/1 - 10/2 = 85. *)
Definition idle_with_alerts : Snapshot.t :=
  Snapshot.mk "svc"
    [("http.error.rate", Some (1 # 100)); ("http.latency", Some 100);
     ("http.throughput", Some 5); ("cost.per.request", Some (8 # 10000))]
    ∅
    [Violation.mk "http.error.rate" (1 # 100) (5 # 100) "lt" (Some 1%Z);
     Violation.mk "cost.per.request" (8 # 10000) (1 # 100) "lt" (Some 2%Z)]
    85.


(** A snapshot on which no rule fires. *)
Definition quiet_snapshot : Snapshot.t :=
  Snapshot.mk "svc"
    [("http.error.rate", Some (3 # 100)); ("http.latency", Some 400);
     ("http.throughput", Some 20); ("cost.per.request", Some (8 # 10000))]
    ∅ [] 100.

End WeighSpec.

Module ActSpec.
Import Py.

(** [clamp(x, lo, hi)] *)
Definition clamp (x lo hi : Z) : Z := Z.max lo (Z.min x hi).

(** The back-off after a conflict at attempt [i]: 1s + 0.5s x i. *)
Definition pause (i : nat) : Q := 1 + inject_Z (Z.of_nat i) * (5 # 10).

(** A world whose deployment is over-provisioned at ten replicas. *)
Definition ten_replicas : Sim.t :=
  Sim.make [] [Completed 0 "10" ""; Completed 0 "" ""]
           (Deployment.mk "svc" 1 []) [].

Definition three_replicas : Sim.t :=
  Sim.make [] [Completed 0 "3" ""; Completed 0 "" ""]
           (Deployment.mk "svc" 1 []) [].

Definition scale_in_by_one : Action.t :=
  Action.mk "horizontal" "svc" (Some "decrease") (Some 1%Z) None None
            None (Some 3%Z) None.

Definition scale_out_by_one : Action.t :=
  Action.mk "horizontal" "svc" (Some "increase") (Some 1%Z) None None
            None (Some 1%Z) None.

Definition resize_up_action : Action.t :=
  Action.mk "vertical" "svc" (Some "increase") None (Some "cpu/mem")
            (Some (15 # 10)) None (Some 2%Z) None.

Definition app_container (cpu memory : Q) : Container.t :=
  Container.mk "app" [("cpu", Millicores cpu); ("memory", Mebibytes memory)]
               [("cpu", Millicores (2 * cpu))].

(** A control plane on which two other clients update the deployment,
    one before each of the first two patches. *)
Definition contended : Sim.t :=
  Sim.make [] [] (Deployment.mk "svc" 7 [app_container 500 256])
    [Sim.ConcurrentWrite [app_container 600 256];
     Sim.ConcurrentWrite [app_container 700 256];
     Sim.Quiet].

Definition act_agent : ActAgent.t := ActAgent.mk true [].

(** The errors [act] collects: one for each failed result. *)
Definition errors_of (results : list ActionResult.t) : list act_error :=
  omap (fun r : ActionResult.t =>
          if ActionResult.success r then None
          else Some (default (ExceptionText "Unknown error")
                             (ActionResult.error r)))
       results.
End ActSpec.

Module ReflectSpec.
Import Py.

(** Before and after a scale-out: the error rate halves (-50%) while
    latency and cost per request rise by 10% each; health unchanged. *)
Definition before : Snapshot.t :=
  Snapshot.mk "svc"
    [("http.error.rate", Some (10 # 100)); ("http.latency", Some 100);
     ("http.throughput", Some 20); ("cost.per.request", Some (10 # 10000))]
    ∅ [] 70.

Definition after : Snapshot.t :=
  Snapshot.mk "svc"
    [("http.error.rate", Some (5 # 100)); ("http.latency", Some 110);
     ("http.throughput", Some 20); ("cost.per.request", Some (11 # 10000))]
    ∅ [] 70.

Definition scaled_out : Decision.t :=
  Decision.mk "svc" [WeighSpec.scale_out "svc" (10 # 100) 100]
              [] 1 (24 # 100) ∅.

Definition executed : ExecutionResult.t :=
  ExecutionResult.mk true 1
    [ActionResult.mk "horizontal" true None (Some "svc") (Some 2%Z)
                     (Some 3%Z) None]
    None.
End ReflectSpec.

Module EnrichSpec.
Import Py.

(** The reward: the normalised health delta plus 10 on success, minus
    5 on failure. *)
Definition reward_of (health_delta : Q) (success : bool) : Q :=
  health_delta / 10 + (if success then 10 else -5).

(** [Q(s, a)], 0 for a pair never seen. *)
Definition value_of (q : gmap (string * string) Q) (s a : string) : Q :=
  default 0 (q !! (s, a)).

(** The maximum of [Q(s', a')] over the five action keys. *)
Definition next_state_max (q : gmap (string * string) Q) (s' : string) : Q :=
  Qmax (Qmax (Qmax (Qmax (value_of q s' "horizontal_increase")
                         (value_of q s' "horizontal_decrease"))
                   (value_of q s' "vertical_increase"))
             (value_of q s' "vertical_decrease"))
       (value_of q s' "restart_").

(** The value table after the one-step update of each action in turn:
    Q(s,a) <- Q(s,a) + alpha (r + gamma max_a' Q(s',a') - Q(s,a)). *)
Inductive updated_in_turn (alpha gamma r : Q) (s s' : string)
    : gmap (string * string) Q -> list Action.t
      -> gmap (string * string) Q -> Prop :=
| updated_none q : updated_in_turn alpha gamma r s s' q [] q
| updated_next q a rest q' :
    updated_in_turn alpha gamma r s s'
      (<[(s, EnrichAgent.action_key a) :=
           value_of q s (EnrichAgent.action_key a)
           + alpha * (r + gamma * next_state_max q s'
                      - value_of q s (EnrichAgent.action_key a))]> q)
      rest q' ->
    updated_in_turn alpha gamma r s s' q (a :: rest) q'.

(** The fields of the Enrich agent that only [enrich] itself and the
    Q-learning update change. *)
Definition same_settings (a b : EnrichAgent.t) : Prop :=
  EnrichAgent.knowledge_base_path a = EnrichAgent.knowledge_base_path b
  /\ EnrichAgent.learning_cycles a = EnrichAgent.learning_cycles b
  /\ EnrichAgent.learning_rate a = EnrichAgent.learning_rate b
  /\ EnrichAgent.discount_factor a = EnrichAgent.discount_factor b.

(** Whether a derived metric is a number (absent counts as 0). *)
Definition numeric (s : Snapshot.t) (metric : string) : Prop :=
  is_Some (get (Snapshot.derived_metrics s) metric (Some 0)).

Definition fresh_agent : EnrichAgent.t :=
  EnrichAgent.mk "knowledge_base.db" KnowledgeBase.empty 0 ∅ ∅ ∅
                 (1 # 10) (95 # 100) (1 # 10).

Definition good_reflection : Reflection.t :=
  Reflection.mk true None None (Some 15) (Some 60) (Some 75)
    (Some []) (Some []) (Some []) [AdaptationSuccessful] (Some ["horizontal"]).

Definition idle_world : Sim.t :=
  Sim.make [] [] (Deployment.mk "svc" 1 []) [].

(** The arguments of one call to [enrich]. *)
Record cycle_input : Type := Cycle {
  c_reflection : Reflection.t;
  c_decision : Decision.t;
  c_pre_state : Snapshot.t;
  c_post_state : Snapshot.t
}.

Section Runs.
Context {W : Type} `{World W}.

(** Successive calls to [enrich], one per completed cycle. *)
Fixpoint enrich_all (calls : list cycle_input)
    : Eff.M W EnrichAgent.t unit :=
  match calls with
  | [] => Eff.ret tt
  | k :: rest =>
      Eff.bind
        (EnrichAgent.enrich (c_reflection k) (c_decision k)
                            (c_pre_state k) (c_post_state k))
        (fun _ => enrich_all rest)
  end.
End Runs.

(** The knowledge base is being written to its file. *)
Definition is_save (ev : event) : bool :=
  match ev with
  | EvSaveKnowledgeBase _ _ => true
  | _ => false
  end.

(** One successful scale-out cycle on the scenario of C7. *)
Definition learning_call : cycle_input :=
  Cycle good_reflection
       (Decision.mk "svc" [WeighSpec.scale_out "svc" (8 # 100) 0] [] 1
                    (48 # 100) ∅)
       WeighSpec.scenario WeighSpec.scenario.

(** A world in which one adaptation cycle runs to completion: two
    assessments, a replica count of 2 and an accepted scale command. *)
Definition one_cycle_world : Sim.t :=
  Sim.make [Ok (Some WeighSpec.scenario); Ok (Some WeighSpec.scenario)]
           [Completed 0 "2" ""; Completed 0 "" ""]
           (Deployment.mk "svc" 1 []) [].

(** A world in which the command line fails. *)
Definition failing_world : Sim.t :=
  Sim.make [Ok (Some WeighSpec.scenario); Ok (Some WeighSpec.scenario)]
           [Completed 1 "" "forbidden"]
           (Deployment.mk "svc" 1 []) [].

(** Ten cycles that each start from a different state (so that each
    value-table entry is written once), all ending in the same state. *)
Definition snapshot_at (e l h : Q) : Snapshot.t :=
  Snapshot.mk "svc"
    [("http.error.rate", Some e); ("http.latency", Some l);
     ("http.throughput", Some 20)] ∅ [] h.

Definition cycle_at (e l h : Q) : cycle_input :=
  Cycle good_reflection
        (Decision.mk "svc" [WeighSpec.scale_out "svc" e l] [] 1 (1 # 2) ∅)
        (snapshot_at e l h) (snapshot_at 0 0 40).

Definition ten_cycles : list cycle_input :=
  [ cycle_at (1 # 1000) 100 90; cycle_at (1 # 1000) 700 90;
    cycle_at (1 # 1000) 2000 90; cycle_at (3 # 100) 100 90;
    cycle_at (3 # 100) 700 90; cycle_at (3 # 100) 2000 90;
    cycle_at (8 # 100) 100 90; cycle_at (8 # 100) 700 90;
    cycle_at (8 # 100) 2000 90; cycle_at (8 # 100) 2000 60 ].

(** Every learned value lies between -300 and 400, the least and the
    greatest discounted return of rewards between -15 and 20. *)
Definition values_bounded (q : gmap (string * string) Q) : Prop :=
  forall key v, q !! key = Some v -> - (300) <= v /\ v <= 400.

(** No pattern has more recorded successes than occurrences. *)
Definition tables_consistent (self : EnrichAgent.t) : Prop :=
  forall key,
    (default O (EnrichAgent.pattern_successes self !! key)
     <= default O (EnrichAgent.pattern_counts self !! key))%nat.

(** The statistics of a knowledge base count no more successes than
    adaptations, overall and for each action type. *)
Definition statistics_consistent (kb : KnowledgeBase.t) : Prop :=
  match KnowledgeBase.statistics kb with
  | None => True
  | Some stats =>
      (Statistics.successful_adaptations stats
       <= Statistics.total_adaptations stats)%nat
      /\ forall action_type,
           (default O (Statistics.action_successes stats !! action_type)
            <= default O (Statistics.action_counts stats !! action_type))%nat
  end.
End EnrichSpec.

Module OrchestratorSpec.
Import Py Eff.

(** The orchestrator just after [__init__], in a simulated world. *)
Definition boot (w : Sim.t) : @ctx Sim.t AWAREOrchestrator.t :=
  let '(w', evs, orchestrator) := AWAREOrchestrator.init true w in
  Ctx orchestrator w' evs.

(** The process run for one turn of the monitoring loop over one pod,
    then interrupted by the user. *)
Definition one_turn_then_interrupt
    : @ctx Sim.t AWAREOrchestrator.t * result unit :=
  Monitoring.main (fun _ => "svc") true ["svc-5d9c7b-x2x4z"] 1
                  EnrichSpec.one_cycle_world.

(** How far the agents have got: decisions made, executions, reflections
    and learning cycles. *)
Definition decisions (o : AWAREOrchestrator.t) : nat :=
  length (WeighAgent.decision_history (AWAREOrchestrator.weigh_agent o)).
Definition executions (o : AWAREOrchestrator.t) : nat :=
  length (ActAgent.execution_history (AWAREOrchestrator.act_agent o)).
Definition reflections (o : AWAREOrchestrator.t) : nat :=
  length (ReflectAgent.reflection_history
            (AWAREOrchestrator.reflect_agent o)).
Definition learning (o : AWAREOrchestrator.t) : nat :=
  EnrichAgent.learning_cycles (AWAREOrchestrator.enrich_agent o).

(** Each phase has run at most as often as the phase before it. *)
Definition counters_ordered (o : AWAREOrchestrator.t) : Prop :=
  (learning o <= reflections o)%nat
  /\ (reflections o <= executions o)%nat
  /\ (executions o <= decisions o)%nat
  /\ (decisions o <= AWAREOrchestrator.cycle_count o)%nat.
End OrchestratorSpec.

Module UtilsSpec.
(** A text without hyphen: one segment of a pod name. *)
Fixpoint segment (s : string) : bool :=
  match s with
  | EmptyString => true
  | String a s' => negb (Ascii.eqb a "-") && segment s'
  end.
End UtilsSpec.

Module AssessSpec.
Import Py Constants.

(** The samples of the metric at position [idx], missing ones left
    out. *)
Definition column (idx : nat) (data : list (list value)) : list Q :=
  omap (fun row : list value => default None (row !! idx)) data.

(** The value the SLO check reads for a metric: the derived metric of
    that name if there is one, the raw metric otherwise. *)
Definition reading (raw_metrics : dict Q) (metric : string) : option Q :=
  match lookup metric (AssessAgent._compute_derived_metrics raw_metrics) with
  | Some v => v
  | None => lookup metric raw_metrics
  end.

(** The value is on the wrong side of the threshold. *)
Definition breached (direction : string) (x threshold : Q) : Prop :=
  (direction = "gt" /\ threshold < x) \/ (direction = "lt" /\ x < threshold).

(** The last [n] elements. *)
Definition lastn {A} (n : nat) (l : list A) : list A :=
  drop (length l - n) l.

End AssessSpec.

(** The scoring formulas on binary64 floats, as Python evaluates them. *)
Module Binary64.
Import PrimFloat.
Local Open Scope float_scope.
Set Warnings "-inexact-float".

(** [base_utility * (1 - health_score / 100)] *)
Definition rising (priority health_score : float) : float :=
  (100 - priority * 20) * (1 - health_score / 100).

(** [base_utility * (health_score / 100)] *)
Definition falling (priority health_score : float) : float :=
  (100 - priority * 20) * (health_score / 100).

(** [((post_value - pre_value) / abs(pre_value)) * 100] *)
Definition pct_change (pre_value post_value : float) : float :=
  ((post_value - pre_value) / abs pre_value) * 100.

(** [current_q + learning_rate * (reward + discount_factor * next_max_q
    - current_q)] *)
Definition new_q (current_q learning_rate reward discount_factor next_max_q
                  : float) : float :=
  current_q
  + learning_rate * (reward + discount_factor * next_max_q - current_q).

(** [1 + attempt * 0.5] *)
Definition pause (attempt : float) : float := 1 + attempt * 0.5.
End Binary64.

(** * Properties *)

(** ** Arithmetic of the comparisons *)

Module Facts.
Import Py.

Lemma Qgtb_true x y : Qgtb x y = true <-> y < x.
Proof.
  unfold Qgtb. rewrite negb_true_iff, <- not_true_iff_false, Qle_bool_iff.
  split; [apply Qnot_le_lt | apply Qlt_not_le].
Qed.

Lemma Qgtb_false x y : Qgtb x y = false <-> x <= y.
Proof. unfold Qgtb. rewrite negb_false_iff. apply Qle_bool_iff. Qed.

Lemma Qltb_true x y : Qltb x y = true <-> x < y.
Proof. unfold Qltb. apply (Qgtb_true y x). Qed.

Lemma Qltb_false x y : Qltb x y = false <-> y <= x.
Proof. unfold Qltb. apply (Qgtb_false y x). Qed.

Lemma multiple_of_ten (s : nat) :
  (s mod 10 = 0)%nat -> (Z.of_nat s mod 10 = 0)%Z.
Proof.
  intros Hs. apply Nat.Div0.div_exact in Hs. rewrite Hs.
  rewrite Nat2Z.inj_mul, Z.mul_comm. apply Z_mod_mult.
Qed.

Lemma past_multiple_of_ten (s i : nat) :
  (s mod 10 = 0)%nat -> (1 <= i < 10)%nat ->
  (Z.of_nat (s + i) mod 10 <> 0)%Z.
Proof.
  intros Hs Hi. apply Nat.Div0.div_exact in Hs. rewrite Hs.
  rewrite Nat2Z.inj_add, Nat2Z.inj_mul, Z.add_comm, Z.mul_comm,
    Z_mod_plus_full.
  rewrite Z.mod_small; lia.
Qed.

Lemma Qgtb_spec x y : BoolSpec (y < x) (x <= y) (Qgtb x y).
Proof.
  destruct (Qgtb x y) eqn:H; constructor;
    [apply Qgtb_true | apply Qgtb_false]; exact H.
Qed.

Lemma Qltb_spec x y : BoolSpec (x < y) (y <= x) (Qltb x y).
Proof. apply (Qgtb_spec y x). Qed.

End Facts.

(** Closed reciprocals and injected integers are replaced by their values,
    so that linear arithmetic applies. *)
Ltac qconst :=
  unfold Qdiv in *;
  repeat match goal with
    | |- context [Qinv ?c] =>
        let v := eval vm_compute in (Qinv c) in
        lazymatch v with (_ # _) => change (Qinv c) with v end
    | H : context [Qinv ?c] |- _ =>
        let v := eval vm_compute in (Qinv c) in
        lazymatch v with (_ # _) => change (Qinv c) with v in H end
    | |- context [inject_Z ?z] =>
        let v := eval vm_compute in (inject_Z z) in
        lazymatch v with (_ # _) => change (inject_Z z) with v end
    | H : context [inject_Z ?z] |- _ =>
        let v := eval vm_compute in (inject_Z z) in
        lazymatch v with (_ # _) => change (inject_Z z) with v in H end
    end.

(** Membership in a list built with [++] and [::]. *)
Ltac in_list := rewrite ?in_app_iff; cbn [In map]; auto 12.

Module WeighFacts.
Import Py Constants WeighAgent WeighSpec Facts.

Lemma generate_candidates_numeric dm violations anomalies service e l t c :
  get dm "http.error.rate" (Some 0) = Some e ->
  get dm "http.latency" (Some 0) = Some l ->
  get dm "http.throughput" (Some 0) = Some t ->
  get dm "cost.per.request" (Some 0) = Some c ->
  _generate_candidates dm violations anomalies service
  = Ok (horizontal_rule service e l t ++ vertical_rule service c
          ++ emergency_rule service violations
          ++ restart_rule service anomalies).
Proof.
  intros He Hl Ht Hc.
  unfold _generate_candidates, horizontal_rule, vertical_rule,
    emergency_rule, restart_rule, critical.
  cbv zeta. rewrite He, Hl, Ht, Hc.
  change (get THRESHOLDS "http.error.rate" (5 # 100)) with (5 # 100).
  change (get THRESHOLDS "http.latency" (1000 # 1)) with (1000 # 1).
  change (get THRESHOLDS "http.throughput" (10 # 1)) with (10 # 1).
  change (get THRESHOLDS "cost.per.request" (1 # 1000)) with (1 # 1000).
  unfold or_else, and_then, gt, lt, num, bind.
  destruct (Qgtb e (5 # 100)), (Qgtb l (1000 # 1)),
    (Qltb e ((5 # 100) * (25 # 100))), (Qltb l ((1000 # 1) * (5 # 10))),
    (Qltb t (10 # 1)), (Qgtb c ((1 # 1000) * (105 # 100))),
    (Qltb c ((1 # 1000) * (5 # 10)));
    cbn [orb andb app];
    destruct (filter _ violations); destruct (5 <? size anomalies)%nat;
    reflexivity.
Qed.

(** When rule 1 fires, rule 2 is not evaluated and the throughput is not
    read. *)
Lemma generate_candidates_rule1 dm violations anomalies service e l c :
  get dm "http.error.rate" (Some 0) = Some e ->
  get dm "http.latency" (Some 0) = Some l ->
  get dm "cost.per.request" (Some 0) = Some c ->
  Qgtb e (5 # 100) || Qgtb l (1000 # 1) = true ->
  _generate_candidates dm violations anomalies service
  = Ok ([scale_out service e l] ++ vertical_rule service c
          ++ emergency_rule service violations
          ++ restart_rule service anomalies).
Proof.
  intros He Hl Hc Hfire.
  unfold _generate_candidates, vertical_rule, emergency_rule, restart_rule,
    critical.
  cbv zeta. rewrite He, Hl, Hc.
  change (get THRESHOLDS "http.error.rate" (5 # 100)) with (5 # 100).
  change (get THRESHOLDS "http.latency" (1000 # 1)) with (1000 # 1).
  change (get THRESHOLDS "cost.per.request" (1 # 1000)) with (1 # 1000).
  unfold or_else, and_then, gt, lt, num, bind.
  destruct (Qgtb e (5 # 100)), (Qgtb l (1000 # 1)); try discriminate Hfire;
    destruct (Qgtb c ((1 # 1000) * (105 # 100))),
      (Qltb c ((1 # 1000) * (5 # 10)));
    cbn [orb andb app];
    destruct (filter _ violations); destruct (5 <? size anomalies)%nat;
    reflexivity.
Qed.

Lemma evaluate_utilities_app l1 l2 dm h :
  _evaluate_utilities (l1 ++ l2) dm h
  = (x <- _evaluate_utilities l1 dm h ;;
     y <- _evaluate_utilities l2 dm h ;;
     Ok (x ++ y)).
Proof.
  induction l1 as [|a l1 IH]; cbn [app _evaluate_utilities].
  - destruct (_evaluate_utilities l2 dm h); reflexivity.
  - destruct (utility_of dm h a); cbn [bind]; [|reflexivity].
    rewrite IH. destruct (_evaluate_utilities l1 dm h); cbn [bind];
      [|reflexivity].
    destruct (_evaluate_utilities l2 dm h); reflexivity.
Qed.

(** *** Selection: the first candidate of maximal utility *)

Lemma hd_insert_desc {A} (key : A -> Q) x l :
  hd_error (insert_desc key x l)
  = match hd_error l with
    | Some y => if Qgtb (key y) (key x) then Some y else Some x
    | None => Some x
    end.
Proof.
  destruct l as [|y l]; [reflexivity|]. cbn [insert_desc hd_error].
  destruct (Qgtb (key y) (key x)); reflexivity.
Qed.

Lemma hd_sorted_desc {A} (key : A -> Q) l :
  hd_error (sorted_desc key l) = first_max key l.
Proof.
  induction l as [|a l IH]; [reflexivity|].
  cbn [sorted_desc fold_right first_max].
  rewrite hd_insert_desc. fold (sorted_desc key l). rewrite IH. reflexivity.
Qed.

Lemma select_actions_first_max self l :
  _select_actions self l
  = match first_max Action.get_utility l with
    | Some best => [best]
    | None => []
    end.
Proof.
  unfold _select_actions, _apply_learned_policies.
  rewrite <- hd_sorted_desc.
  destruct l as [|a l]; [reflexivity|].
  destruct (sorted_desc Action.get_utility (a :: l)); cbn [hd_error];
    destruct (knowledge_base_truthy self); reflexivity.
Qed.

Lemma first_max_in {A} (key : A -> Q) l b :
  first_max key l = Some b -> In b l.
Proof.
  revert b. induction l as [|a l IH]; intros b; cbn [first_max];
    [discriminate|].
  destruct (first_max key l) as [y|].
  - destruct (Qgtb (key y) (key a)); intros [= <-];
      [right; apply IH; reflexivity | left; reflexivity].
  - intros [= <-]. left; reflexivity.
Qed.

Lemma first_max_upper {A} (key : A -> Q) l b :
  first_max key l = Some b -> forall y, In y l -> key y <= key b.
Proof.
  revert b. induction l as [|a l IH]; intros b; cbn [first_max];
    [discriminate|].
  destruct (first_max key l) as [z|] eqn:Hz.
  - destruct (Qgtb (key z) (key a)) eqn:Hcmp; intros [= <-] y [<-|Hy].
    + apply Qgtb_true in Hcmp. apply Qlt_le_weak, Hcmp.
    + apply (IH z eq_refl), Hy.
    + apply Qle_refl.
    + apply Qgtb_false in Hcmp.
      apply Qle_trans with (key z); [apply (IH z eq_refl), Hy | exact Hcmp].
  - intros [= <-] y [<-|Hy]; [apply Qle_refl|].
    destruct l; [contradiction | cbn [first_max] in Hz].
    destruct (first_max key l); [destruct (Qgtb _ _)|]; discriminate.
Qed.

(** A candidate that beats every earlier one and is not beaten by a
    later one is the one selected. *)
Lemma first_max_winner {A} (key : A -> Q) l1 x l2 :
  (forall y, In y l1 -> key y < key x) ->
  (forall y, In y l2 -> key y <= key x) ->
  first_max key (l1 ++ x :: l2) = Some x.
Proof.
  intros Hbefore Hafter. induction l1 as [|a l1 IH]; cbn [app first_max].
  - destruct (first_max key l2) as [y|] eqn:Hy; [|reflexivity].
    assert (Hle : key y <= key x) by (apply Hafter, (first_max_in _ _ _ Hy)).
    apply Qgtb_false in Hle. rewrite Hle. reflexivity.
  - rewrite IH by (intros y Hy; apply Hbefore; right; exact Hy).
    assert (Hlt : key a < key x) by (apply Hbefore; left; reflexivity).
    apply Qgtb_true in Hlt. rewrite Hlt. reflexivity.
Qed.

(** *** Utilities of the candidates the rules produce *)

Lemma utility_scale_out dm h service e l :
  utility_of dm h (scale_out service e l) = Ok (rising 1 h).
Proof. reflexivity. Qed.

Lemma utility_emergency dm h service n :
  utility_of dm h (emergency service n) = Ok (rising 0 h).
Proof. reflexivity. Qed.

Lemma utility_restart dm h service n :
  utility_of dm h (restart service n) = Ok (rising 2 h).
Proof. reflexivity. Qed.

Lemma utility_scale_in dm h service e l :
  utility_of dm h (scale_in service e l)
  = Ok ((100 - inject_Z 3 * 20) * (h / 100)).
Proof. reflexivity. Qed.

Lemma utility_resize_up dm h service c :
  get dm "cost.per.request" (Some 0) = Some c ->
  utility_of dm h (resize_up service c)
  = Ok ((100 - inject_Z 2 * 20) * Qmin (c / (1 # 1000)) 2).
Proof.
  intros Hc. unfold utility_of. cbn [resize_up candidate Action.name
    Action.operation Action.priority]. cbv zeta. rewrite Hc. reflexivity.
Qed.

Lemma utility_resize_down dm h service c :
  get dm "cost.per.request" (Some 0) = Some c ->
  utility_of dm h (resize_down service c)
  = Ok ((100 - inject_Z 3 * 20) * Qmax (1 - c / (1 # 1000)) (5 # 10)).
Proof.
  intros Hc. unfold utility_of. cbn [resize_down candidate Action.name
    Action.operation Action.priority]. cbv zeta. rewrite Hc. reflexivity.
Qed.

Lemma evaluate_vertical_rule dm h service c :
  get dm "cost.per.request" (Some 0) = Some c ->
  _evaluate_utilities (vertical_rule service c) dm h
  = Ok (vertical_scored service c).
Proof.
  intros Hc. unfold vertical_rule, vertical_scored.
  destruct (Qgtb c _); [|destruct (Qltb c _)]; cbn [_evaluate_utilities].
  - rewrite (utility_resize_up _ _ _ _ Hc). reflexivity.
  - rewrite (utility_resize_down _ _ _ _ Hc). reflexivity.
  - reflexivity.
Qed.

Lemma evaluate_emergency_rule dm h service violations :
  _evaluate_utilities (emergency_rule service violations) dm h
  = Ok (emergency_scored service h violations).
Proof.
  unfold emergency_scored, emergency_rule.
  destruct (critical violations); reflexivity.
Qed.

Lemma evaluate_restart_rule dm h service anomalies :
  _evaluate_utilities (restart_rule service anomalies) dm h
  = Ok (restart_scored service h anomalies).
Proof.
  unfold restart_scored, restart_rule.
  destruct (5 <? size anomalies)%nat; reflexivity.
Qed.

Lemma vertical_scored_priority service c a :
  In a (vertical_scored service c) ->
  Action.priority a = Some 2%Z \/ Action.priority a = Some 3%Z.
Proof.
  unfold vertical_scored.
  destruct (Qgtb c _); [|destruct (Qltb c _)]; cbn [In];
    intros Hin; try contradiction; destruct Hin as [<-|[]];
    [left|right]; reflexivity.
Qed.

(** Within the stated range of the cost per request, a vertical
    candidate scores below 60. *)
Lemma vertical_scored_below_60 service c a :
  - ((1 # 1000) * (5 # 10)) < c -> c <= (1 # 1000) * (105 # 100) ->
  In a (vertical_scored service c) -> Action.get_utility a < 60.
Proof.
  intros Hlo Hhi. unfold vertical_scored.
  destruct (Qgtb c _) eqn:Hup.
  - apply Qgtb_true in Hup. exfalso. lra.
  - destruct (Qltb c _); cbn [In]; intros Hin; try contradiction.
    destruct Hin as [<-|[]].
    cbn [Action.get_utility Action.set_utility Action.utility default].
    destruct (Q.max_spec (1 - c / (1 # 1000)) (5 # 10)) as [[_ ->]|[_ ->]];
      unfold id; qconst; lra.
Qed.

Lemma emergency_rule_fires service violations v :
  In v violations -> Violation.severity v = Some 1%Z ->
  emergency_rule service violations
  = [emergency service (length (critical violations))].
Proof.
  intros Hin Hsev. unfold emergency_rule.
  assert (Hc : v ∈ critical violations).
  { unfold critical. apply list_elem_of_filter. split.
    - rewrite Hsev. cbn. lia.
    - apply list_elem_of_In, Hin. }
  destruct (critical violations); [|reflexivity].
  apply not_elem_of_nil in Hc. contradiction.
Qed.

Lemma restart_scored_utility service h anomalies a :
  In a (restart_scored service h anomalies) ->
  Action.get_utility a = rising 2 h /\ Action.priority a = Some 2%Z.
Proof.
  unfold restart_scored, restart_rule.
  destruct (5 <? size anomalies)%nat; cbn [map In]; intros Hin;
    try contradiction.
  destruct Hin as [<-|[]]. split; reflexivity.
Qed.

(** C7. For a snapshot with error rate 0.08 (threshold 0.05) and health
    score 40, the Decision Engine proposes a tier-1 scale-out by one
    unit with utility 80 x (1 - 0.4) = 48. If the snapshot also has a
    violation of severity 1, it proposes as well a tier-0 emergency
    scale-out by two units with utility 100 x 0.6 = 60, never selects
    the tier-1 candidate, and selects the emergency candidate whenever
    no vertical candidate outranks it (cost per request within
    (-0.0005, 0.00105], which includes an absent or zero cost). *)
Theorem error_rate_scenario (self : WeighAgent.t) (snapshot : Snapshot.t)
    (service : string) (e l c : Q) :
  get (Snapshot.derived_metrics snapshot) "http.error.rate" (Some 0)
    = Some e ->
  e == 8 # 100 ->
  get (Snapshot.derived_metrics snapshot) "http.latency" (Some 0)
    = Some l ->
  get (Snapshot.derived_metrics snapshot) "cost.per.request" (Some 0)
    = Some c ->
  Snapshot.health_score snapshot == 40 ->
  exists self' decision candidates evaluated u1,
    _generate_candidates (Snapshot.derived_metrics snapshot)
      (Snapshot.slo_violations snapshot) (Snapshot.anomalies snapshot)
      service = Ok candidates
    /\ _evaluate_utilities candidates (Snapshot.derived_metrics snapshot)
         (Snapshot.health_score snapshot) = Ok evaluated
    /\ weigh self snapshot service = Ok (self', decision)
    /\ In (scale_out service e l) candidates
    /\ In (Action.set_utility u1 (scale_out service e l)) evaluated
    /\ u1 == 48
    /\ ((exists v, In v (Snapshot.slo_violations snapshot)
                   /\ Violation.severity v = Some 1%Z) ->
        exists n u0,
          In (emergency service n) candidates
          /\ In (Action.set_utility u0 (emergency service n)) evaluated
          /\ u0 == 60
          /\ (forall a, In a (Decision.actions decision) ->
                        Action.priority a <> Some 1%Z)
          /\ (- ((1 # 1000) * (5 # 10)) < c ->
              c <= (1 # 1000) * (105 # 100) ->
              Decision.actions decision
              = [Action.set_utility u0 (emergency service n)])).
Proof.
  intros He Hev Hl Hc Hh.
  set (dm := Snapshot.derived_metrics snapshot) in *.
  set (h := Snapshot.health_score snapshot) in *.
  set (violations := Snapshot.slo_violations snapshot).
  set (anomalies := Snapshot.anomalies snapshot).
  assert (Hfire : Qgtb e (5 # 100) || Qgtb l (1000 # 1) = true).
  { apply orb_true_iff. left. apply Qgtb_true. lra. }
  pose proof (generate_candidates_rule1 dm violations anomalies service
                e l c He Hl Hc Hfire) as Hgen.
  assert (Heval :
    _evaluate_utilities
      ([scale_out service e l] ++ vertical_rule service c
         ++ emergency_rule service violations
         ++ restart_rule service anomalies) dm h
    = Ok ([Action.set_utility (rising 1 h) (scale_out service e l)]
            ++ vertical_scored service c
            ++ emergency_scored service h violations
            ++ restart_scored service h anomalies)).
  { rewrite !evaluate_utilities_app.
    rewrite (evaluate_vertical_rule dm h service c Hc),
      evaluate_emergency_rule, evaluate_restart_rule.
    reflexivity. }
  assert (H48 : rising 1 h == 48) by (unfold rising; qconst; lra).
  assert (H60 : rising 0 h == 60) by (unfold rising; qconst; lra).
  assert (H36 : rising 2 h == 36) by (unfold rising; qconst; lra).
  eexists _, _, _, _, (rising 1 h).
  split; [exact Hgen|]. split; [exact Heval|].
  split; [unfold weigh; fold dm h violations anomalies;
          rewrite Hgen; cbn [bind]; rewrite Heval; cbn [bind]; reflexivity|].
  split; [in_list|]. split; [in_list|].
  split; [exact H48|].
  intros (v & Hv & Hsev).
  pose proof (emergency_rule_fires service violations v Hv Hsev) as Hem.
  exists (length (critical violations)), (rising 0 h).
  split; [rewrite Hem; in_list|].
  split; [unfold emergency_scored; rewrite Hem; in_list|].
  split; [exact H60|].
  cbn [Decision.actions]. rewrite select_actions_first_max.
  unfold emergency_scored. rewrite Hem. cbn [map].
  set (chosen := Action.set_utility (rising 0 h)
                   (emergency service (length (critical violations)))).
  split.
  - intros a Ha.
    destruct (first_max Action.get_utility _) as [b|] eqn:Hb;
      [|contradiction].
    destruct Ha as [<-|[]].
    pose proof (first_max_in _ _ _ Hb) as Hin.
    assert (Hge : Action.get_utility chosen <= Action.get_utility b).
    { apply (first_max_upper _ _ _ Hb). in_list. }
    change (Action.get_utility chosen) with (rising 0 h) in Hge.
    intros Hprio.
    apply in_app_or in Hin. destruct Hin as [[<-|[]]|Hin];
      [|apply in_app_or in Hin; destruct Hin as [Hin|Hin];
        [|apply in_app_or in Hin; destruct Hin as [[<-|[]]|Hin]]].
    + change (rising 0 h <= rising 1 h) in Hge. lra.
    + idtac.
      apply vertical_scored_priority in Hin. rewrite Hprio in Hin.
      destruct Hin; discriminate.
    + discriminate Hprio.
    + apply restart_scored_utility in Hin. destruct Hin as [_ Hp].
      rewrite Hprio in Hp. discriminate.
  - intros Hlo Hhi.
    rewrite app_assoc.
    change ([chosen] ++ restart_scored service h anomalies)
      with (chosen :: restart_scored service h anomalies).
    rewrite first_max_winner; [reflexivity| |].
    + intros y Hy. apply in_app_or in Hy. destruct Hy as [[<-|[]]|Hy].
      * change (rising 1 h < rising 0 h). lra.
      * change (Action.get_utility chosen) with (rising 0 h).
        pose proof (vertical_scored_below_60 service c y Hlo Hhi Hy). lra.
    + intros y Hy. apply restart_scored_utility in Hy. destruct Hy as [-> _].
      change (Action.get_utility chosen) with (rising 0 h). lra.
Qed.

(** The scenario itself: the emergency scale-out is the action selected. *)
Lemma error_rate_scenario_witness :
  (get (Snapshot.derived_metrics scenario) "http.error.rate" (Some 0)
     = Some (8 # 100)
   /\ Snapshot.health_score scenario == 40
   /\ exists v, In v (Snapshot.slo_violations scenario)
                /\ Violation.severity v = Some 1%Z)
  /\ exists self' decision n u0,
       weigh (WeighAgent.mk None []) scenario "svc" = Ok (self', decision)
       /\ Decision.actions decision
          = [Action.set_utility u0 (emergency "svc" n)]
       /\ u0 == 60.
Proof.
  assert (Hv : exists v, In v (Snapshot.slo_violations scenario)
                        /\ Violation.severity v = Some 1%Z).
  { eexists. split; [left; reflexivity | reflexivity]. }
  split; [split; [reflexivity | split; [reflexivity | exact Hv]]|].
  destruct (error_rate_scenario (WeighAgent.mk None []) scenario "svc"
              (8 # 100) 0 0 eq_refl (Qeq_refl _) eq_refl eq_refl
              (Qeq_refl _))
    as (self' & decision & candidates & evaluated & u1 & _ & _ & Hw & _ & _
        & _ & Hcrit).
  destruct (Hcrit Hv) as (n & u0 & _ & _ & Hu0 & _ & Hsel).
  exists self', decision, n, u0.
  split; [exact Hw|]. split; [|exact Hu0].
  apply Hsel; [reflexivity | discriminate].
Defined.

(** C2, as stated, fails: a snapshot with health 100, no violation and
    no anomaly whose error rate is 0.08 yields the scale-out candidate,
    and the decision carries it. *)
Lemma healthy_snapshot_not_stable :
  Snapshot.health_score healthy_with_errors == 100
  /\ Snapshot.slo_violations healthy_with_errors = []
  /\ Snapshot.anomalies healthy_with_errors = ∅
  /\ exists self' decision,
       weigh (WeighAgent.mk None []) healthy_with_errors "svc"
         = Ok (self', decision)
       /\ Decision.candidates_evaluated decision = 1%nat
       /\ Decision.actions decision
          = [Action.set_utility (rising 1 100)
               (scale_out "svc" (8 # 100) 200)].
Proof.
  split; [reflexivity|]. split; [reflexivity|]. split; [reflexivity|].
  eexists _, _. split; [reflexivity|]. split; reflexivity.
Qed.

Lemma rules_silent_iff_quiet service e l t c :
  horizontal_rule service e l t ++ vertical_rule service c = []
  <-> quiet_metrics e l t c.
Proof.
  unfold horizontal_rule, vertical_rule, quiet_metrics.
  destruct (Qgtb_spec e (5 # 100)), (Qgtb_spec l (1000 # 1)),
    (Qltb_spec e ((5 # 100) * (25 # 100))),
    (Qltb_spec l ((1000 # 1) * (5 # 10))), (Qltb_spec t (10 # 1)),
    (Qgtb_spec c ((1 # 1000) * (105 # 100))),
    (Qltb_spec c ((1 # 1000) * (5 # 10)));
    cbn [orb andb app];
    (split;
     [ intros Hnil; try discriminate Hnil;
       repeat split; try lra; intros (? & ? & ?); lra
     | intros (Q1 & Q2 & Q3 & Q4 & Q5); try reflexivity; exfalso;
       try lra; apply Q3; repeat split; lra ]).
Qed.

(** C2 (amended). For every snapshot with no SLO violation and no
    anomaly whose four derived metrics are numbers, whatever its health
    score, the Decision Engine generates zero candidates exactly when
    the metrics fire none of the metric rules; the decision then has an
    empty action list. *)
Theorem stable_iff_quiet_metrics (self : WeighAgent.t)
    (snapshot : Snapshot.t) (service : string) (e l t c : Q) :
  get (Snapshot.derived_metrics snapshot) "http.error.rate" (Some 0)
    = Some e ->
  get (Snapshot.derived_metrics snapshot) "http.latency" (Some 0)
    = Some l ->
  get (Snapshot.derived_metrics snapshot) "http.throughput" (Some 0)
    = Some t ->
  get (Snapshot.derived_metrics snapshot) "cost.per.request" (Some 0)
    = Some c ->
  Snapshot.slo_violations snapshot = [] ->
  Snapshot.anomalies snapshot = ∅ ->
  (_generate_candidates (Snapshot.derived_metrics snapshot)
     (Snapshot.slo_violations snapshot) (Snapshot.anomalies snapshot)
     service = Ok []
   <-> quiet_metrics e l t c)
  /\ (quiet_metrics e l t c ->
      exists self' decision,
        weigh self snapshot service = Ok (self', decision)
        /\ Decision.candidates_evaluated decision = 0%nat
        /\ Decision.actions decision = []).
Proof.
  intros He Hl Ht Hc Hv Ha.
  pose proof (generate_candidates_numeric
                (Snapshot.derived_metrics snapshot)
                (Snapshot.slo_violations snapshot)
                (Snapshot.anomalies snapshot) service e l t c
                He Hl Ht Hc) as Hgen.
  rewrite Hv, Ha in Hgen.
  change (emergency_rule service []) with (@nil Action.t) in Hgen.
  change (restart_rule service ∅) with (@nil Action.t) in Hgen.
  rewrite !app_nil_r in Hgen.
  split.
  - rewrite Hv, Ha, Hgen. rewrite <- rules_silent_iff_quiet.
    split; [intros [= ->]; reflexivity | intros ->; reflexivity].
  - intros Hquiet. apply (rules_silent_iff_quiet service) in Hquiet.
    unfold weigh. rewrite Hv, Ha, Hgen, Hquiet. cbn [bind].
    eexists _, _. split; [reflexivity|]. split; reflexivity.
Qed.

(** A snapshot with quiet metrics yields the empty decision. *)
Lemma stable_iff_quiet_metrics_witness :
  quiet_metrics (3 # 100) 400 20 (8 # 10000)
  /\ exists self' decision,
       weigh (WeighAgent.mk None []) quiet_snapshot "svc"
         = Ok (self', decision)
       /\ Decision.candidates_evaluated decision = 0%nat
       /\ Decision.actions decision = [].
Proof.
  assert (Hq : quiet_metrics (3 # 100) 400 20 (8 # 10000)).
  { unfold quiet_metrics. repeat split; try discriminate.
    intros (_ & _ & H). vm_compute in H. discriminate H. }
  split; [exact Hq|].
  exact (proj2 (stable_iff_quiet_metrics (WeighAgent.mk None [])
                  quiet_snapshot "svc" (3 # 100) 400 20 (8 # 10000)
                  eq_refl eq_refl eq_refl eq_refl eq_refl eq_refl) Hq).
Defined.

(** C8, as stated, fails: with health 85 the tier-0 emergency scale-out
    scores 100 x 0.15 = 15 and the tier-3 scale-in of the same cycle
    scores 40 x 0.85 = 34; the scale-in is the action selected. *)
Lemma tier0_below_tier3 :
  exists self' decision evaluated a0 a3,
    weigh (WeighAgent.mk None []) idle_with_alerts "svc"
      = Ok (self', decision)
    /\ (candidates <-
          _generate_candidates (Snapshot.derived_metrics idle_with_alerts)
            (Snapshot.slo_violations idle_with_alerts)
            (Snapshot.anomalies idle_with_alerts) "svc" ;;
        _evaluate_utilities candidates
          (Snapshot.derived_metrics idle_with_alerts)
          (Snapshot.health_score idle_with_alerts)) = Ok evaluated
    /\ In a0 evaluated /\ In a3 evaluated
    /\ Action.priority a0 = Some 0%Z /\ Action.priority a3 = Some 3%Z
    /\ Action.get_utility a0 == 15 /\ Action.get_utility a3 == 34
    /\ ~ (Action.get_utility a3 <= Action.get_utility a0)
    /\ Decision.actions decision = [a3].
Proof.
  eexists _, _, _,
    (Action.set_utility (rising 0 85) (emergency "svc" 2)),
    (Action.set_utility ((100 - inject_Z 3 * 20) * (85 / 100))
       (scale_in "svc" (1 # 100) 100)).
  split; [reflexivity|]. split; [reflexivity|].
  split; [in_list|]. split; [in_list|].
  split; [reflexivity|]. split; [reflexivity|].
  split; [reflexivity|]. split; [reflexivity|].
  split; [intros H; vm_compute in H; apply H; reflexivity | reflexivity].
Qed.

Lemma multiplier_monotone (m : Q) :
  0 <= m -> (100 - inject_Z 3 * 20) * m <= (100 - inject_Z 0 * 20) * m.
Proof. intros Hm. qconst. lra. Qed.

(** C8 (amended). Holding the health score (within [0, 100]) and the
    derived metrics (cost per request not negative) fixed, a tier-0
    candidate scores at least as much as a tier-3 candidate of the same
    action kind and operation. *)
Theorem utility_monotone_same_kind (dm : dict value) (h : Q)
    (a0 a3 : Action.t) (u3 : Q) :
  0 <= h -> h <= 100 ->
  (forall c, get dm "cost.per.request" (Some 0) = Some c -> 0 <= c) ->
  Action.name a0 = Action.name a3 ->
  Action.operation a0 = Action.operation a3 ->
  Action.priority a0 = Some 0%Z ->
  Action.priority a3 = Some 3%Z ->
  utility_of dm h a3 = Ok u3 ->
  exists u0, utility_of dm h a0 = Ok u0 /\ u3 <= u0.
Proof.
  intros Hh0 Hh100 Hcost Hname Hop Hp0 Hp3.
  unfold utility_of. rewrite Hname, Hop, Hp0, Hp3.
  cbn [default from_option id]. unfold id.
  assert (Hrise : 0 <= 1 - h / 100) by (qconst; lra).
  assert (Hfall : 0 <= h / 100) by (qconst; lra).
  destruct (String.eqb (Action.name a3) "horizontal").
  { destruct (Action.operation a3) as [op|]; [|discriminate].
    destruct (String.eqb op "increase"); intros [= <-]; eexists;
      (split; [reflexivity | apply multiplier_monotone; assumption]). }
  destruct (String.eqb (Action.name a3) "vertical").
  { destruct (Action.operation a3) as [op|]; [|discriminate].
    change (get THRESHOLDS "cost.per.request" (1 # 1000)) with (1 # 1000).
    destruct (get dm "cost.per.request" (Some 0)) as [c|] eqn:Hc;
      cbn [num bind]; [|discriminate].
    specialize (Hcost c eq_refl).
    destruct (String.eqb op "increase"); intros [= <-]; eexists;
      (split; [reflexivity | apply multiplier_monotone]).
    - apply Q.min_glb; [qconst; lra | discriminate].
    - apply Qle_trans with (5 # 10); [discriminate | apply Q.le_max_r]. }
  destruct (String.eqb (Action.name a3) "restart"); intros [= <-]; eexists;
    (split; [reflexivity|]).
  - apply multiplier_monotone; assumption.
  - discriminate.
Qed.

(** An emergency scale-out against a tier-3 scale-out at health 40. *)
Lemma utility_monotone_same_kind_witness :
  (0 <= 40 /\ 40 <= 100)
  /\ exists u0,
       utility_of (Snapshot.derived_metrics scenario) 40
                  (emergency "svc" 1) = Ok u0
       /\ rising 3 40 <= u0.
Proof.
  split; [split; discriminate|].
  apply (utility_monotone_same_kind (Snapshot.derived_metrics scenario) 40
           (emergency "svc" 1)
           (candidate "horizontal" "svc" (Some "increase") (Some 2%Z)
                      None None (CriticalSLOViolations 1) 3)
           (rising 3 40));
    try reflexivity; try discriminate.
  intros c [= <-]. discriminate.
Defined.

(** C10: the code drops scores. On the scenario of C7 three candidates
    are generated and scored (tier-1 scale-out 48, resize-down 40,
    emergency scale-out 60), but [utility_scores] is keyed by action
    kind: it has two entries, and the score 48 of the tier-1 scale-out
    is overwritten by the 60 of the emergency scale-out. *)
Theorem utility_scores_keyed_by_kind :
  exists self' decision,
    weigh (WeighAgent.mk None []) scenario "svc" = Ok (self', decision)
    /\ Decision.candidates_evaluated decision = 3%nat
    /\ size (Decision.utility_scores decision) = 2%nat
    /\ Decision.utility_scores decision !! "horizontal"
       = Some (rising 0 40)
    /\ rising 0 40 == 60
    /\ Decision.utility_scores decision !! "vertical"
       = Some ((100 - inject_Z 3 * 20) * Qmax (1 - 0 / (1 # 1000)) (5 # 10)).
Proof.
  eexists _, _. split; [reflexivity|].
  split; [reflexivity|]. split; [vm_compute; reflexivity|].
  split; [vm_compute; reflexivity|]. split; [reflexivity|].
  vm_compute. reflexivity.
Qed.
End WeighFacts.

Module EffFacts.
Import Py Eff.

Section WithWorld.
Context {W : Type}.

Lemma bind_ok {S A B} (m : M W S A) (k : A -> M W S B) c c' a :
  m c = (c', Ok a) -> Eff.bind m k c = k a c'.
Proof. intros H. unfold Eff.bind. rewrite H. reflexivity. Qed.

Lemma call_eq {S A} (ev : event) (op : W -> W * A) (c : ctx S) w' a :
  op (world c) = (w', a) ->
  call ev op c = (Ctx (self c) w' (trace c ++ [ev]), Ok a).
Proof. intros H. unfold call. rewrite H. reflexivity. Qed.
End WithWorld.
End EffFacts.

Module ActFacts.
Import Py Constants Eff ActAgent ActSpec EffFacts.

Section WithWorld.
Context {W : Type} `{World W}.

Lemma retry_conflict name modify_fn remaining attempt
    (c : ctx ActAgent.t) w d b w' :
  w_get_deployment name (world c) = (w, Ok d) ->
  modify_fn d = Ok b ->
  w_patch_deployment b w = (w', PatchConflict) ->
  retry_attempts name modify_fn (S remaining) attempt c
  = retry_attempts name modify_fn remaining (S attempt)
      (Ctx (self c) (w_sleep (pause attempt) w')
           (trace c ++ [EvGetDeployment name; EvPatchDeployment b;
                        EvSleep (pause attempt)])).
Proof.
  intros Hget Hmod Hpatch. cbn [retry_attempts].
  rewrite (bind_ok _ _ _ _ _ (call_eq _ _ c _ _ Hget)).
  rewrite Hmod.
  erewrite bind_ok by (apply call_eq; exact Hpatch).
  cbv beta iota zeta.
  erewrite bind_ok by (apply call_eq; reflexivity).
  cbn [self world trace]. rewrite <- !app_assoc. reflexivity.
Qed.

Lemma retry_success name modify_fn remaining attempt
    (c : ctx ActAgent.t) w d b w' :
  w_get_deployment name (world c) = (w, Ok d) ->
  modify_fn d = Ok b ->
  w_patch_deployment b w = (w', PatchOk) ->
  retry_attempts name modify_fn (S remaining) attempt c
  = (Ctx (self c) w'
         (trace c ++ [EvGetDeployment name; EvPatchDeployment b]),
     Ok true).
Proof.
  intros Hget Hmod Hpatch. cbn [retry_attempts].
  rewrite (bind_ok _ _ _ _ _ (call_eq _ _ c _ _ Hget)).
  rewrite Hmod.
  erewrite bind_ok by (apply call_eq; exact Hpatch).
  unfold ret. cbn [self world trace]. rewrite <- !app_assoc. reflexivity.
Qed.

Lemma retry_patch_error name modify_fn remaining attempt
    (c : ctx ActAgent.t) w d b w' msg :
  w_get_deployment name (world c) = (w, Ok d) ->
  modify_fn d = Ok b ->
  w_patch_deployment b w = (w', PatchFailed msg) ->
  retry_attempts name modify_fn (S remaining) attempt c
  = (Ctx (self c) w'
         (trace c ++ [EvGetDeployment name; EvPatchDeployment b]),
     Ok false).
Proof.
  intros Hget Hmod Hpatch. cbn [retry_attempts].
  rewrite (bind_ok _ _ _ _ _ (call_eq _ _ c _ _ Hget)).
  rewrite Hmod.
  erewrite bind_ok by (apply call_eq; exact Hpatch).
  unfold ret. cbn [self world trace]. rewrite <- !app_assoc. reflexivity.
Qed.

Lemma retry_get_error name modify_fn remaining attempt
    (c : ctx ActAgent.t) w e :
  w_get_deployment name (world c) = (w, Raise e) ->
  retry_attempts name modify_fn (S remaining) attempt c
  = (Ctx (self c) w (trace c ++ [EvGetDeployment name]), Ok false).
Proof.
  intros Hget. cbn [retry_attempts].
  rewrite (bind_ok _ _ _ _ _ (call_eq _ _ c _ _ Hget)). reflexivity.
Qed.

Lemma retry_modify_error name modify_fn remaining attempt
    (c : ctx ActAgent.t) w d e :
  w_get_deployment name (world c) = (w, Ok d) ->
  modify_fn d = Raise e ->
  retry_attempts name modify_fn (S remaining) attempt c
  = (Ctx (self c) w (trace c ++ [EvGetDeployment name]), Ok false).
Proof.
  intros Hget Hmod. cbn [retry_attempts].
  rewrite (bind_ok _ _ _ _ _ (call_eq _ _ c _ _ Hget)).
  rewrite Hmod. reflexivity.
Qed.

(** C3. A vertical resize against a control plane that answers the
    first two patches with a version conflict and accepts the third
    succeeds after exactly three attempts. Each attempt fetches the
    object again and patches the transform of what that fetch
    returned; after the conflict at attempt [i] the executor sleeps
    1 + 0.5 i seconds. At any attempt, an error other than a conflict
    (from the patch, the fetch or the transform) ends the loop at once
    with failure. *)
Theorem conflict_retry (c : ctx ActAgent.t) (action : Action.t)
    (d0 d1 d2 b0 b1 b2 : Deployment.t) (w0 w1 w2 w3 w4 w5 : W) :
  let name := Action.service action in
  let factor := default 1 (Action.factor action) in
  let transform := modify_resources (Action.operation action) factor in
  v1_deployments (self c) = true ->
  w_get_deployment name (world c) = (w0, Ok d0) ->
  transform d0 = Ok b0 ->
  w_patch_deployment b0 w0 = (w1, PatchConflict) ->
  w_get_deployment name (w_sleep (pause 0) w1) = (w2, Ok d1) ->
  transform d1 = Ok b1 ->
  w_patch_deployment b1 w2 = (w3, PatchConflict) ->
  w_get_deployment name (w_sleep (pause 1) w3) = (w4, Ok d2) ->
  transform d2 = Ok b2 ->
  w_patch_deployment b2 w4 = (w5, PatchOk) ->
  (_vertical_scale action c
   = (Ctx (self c) w5
          (trace c ++
             [EvGetDeployment name; EvPatchDeployment b0;
              EvSleep (pause 0);
              EvGetDeployment name; EvPatchDeployment b1;
              EvSleep (pause 1);
              EvGetDeployment name; EvPatchDeployment b2]),
      Ok (ActionResult.mk "vertical" true None (Some name) None None
                          (Some factor)))
   /\ pause 0 == 1 /\ pause 1 == 1 + (5 # 10))
  /\ (forall (c' : ctx ActAgent.t) modify_fn remaining attempt w d b w'
             msg,
        w_get_deployment name (world c') = (w, Ok d) ->
        modify_fn d = Ok b ->
        w_patch_deployment b w = (w', PatchFailed msg) ->
        retry_attempts name modify_fn (S remaining) attempt c'
        = (Ctx (self c') w'
               (trace c' ++ [EvGetDeployment name; EvPatchDeployment b]),
           Ok false))
  /\ (forall (c' : ctx ActAgent.t) modify_fn remaining attempt w e,
        w_get_deployment name (world c') = (w, Raise e) ->
        retry_attempts name modify_fn (S remaining) attempt c'
        = (Ctx (self c') w (trace c' ++ [EvGetDeployment name]),
           Ok false))
  /\ (forall (c' : ctx ActAgent.t) modify_fn remaining attempt w d e,
        w_get_deployment name (world c') = (w, Ok d) ->
        modify_fn d = Raise e ->
        retry_attempts name modify_fn (S remaining) attempt c'
        = (Ctx (self c') w (trace c' ++ [EvGetDeployment name]),
           Ok false)).
Proof.
  intros name factor transform Hclient Hg0 Hm0 Hp0 Hg1 Hm1 Hp1 Hg2 Hm2
    Hp2.
  split; [split; [|split; reflexivity]|split; [|split]].
  - unfold _vertical_scale. fold name factor transform.
    unfold Eff.bind at 1. unfold get_self at 1. rewrite Hclient.
    cbn [negb]. unfold _retry_deployment_patch.
    erewrite bind_ok.
    2:{ erewrite retry_conflict; [|exact Hg0|exact Hm0|exact Hp0].
        erewrite retry_conflict; [|exact Hg1|exact Hm1|exact Hp1].
        eapply retry_success; [exact Hg2|exact Hm2|exact Hp2]. }
    unfold ret. cbn [self world trace]. rewrite <- !app_assoc.
    reflexivity.
  - intros c' modify_fn remaining attempt w d b w' msg.
    apply retry_patch_error.
  - intros c' modify_fn remaining attempt w e. apply retry_get_error.
  - intros c' modify_fn remaining attempt w d e. apply retry_modify_error.
Qed.

(** C6 (amended). Once the current replica count is read, scale-out
    writes min(current + amount, MAX_PODS), which never exceeds
    MAX_PODS and is clamp(current + amount, 1, MAX_PODS) whenever
    current + amount >= 1; scale-in writes max(current - amount, 1),
    which is never below 1 and is clamp(current - amount, 1, MAX_PODS)
    whenever current - amount <= MAX_PODS. *)
Theorem horizontal_scale_bounds (c : ctx ActAgent.t) (action : Action.t)
    (w1 : W) (stdout stderr : string) (current : Z) :
  let service := Action.service action in
  let amount := default 1%Z (Action.amount action) in
  w_run (OcGetReplicas service) 10 (world c)
    = (w1, Completed 0 stdout stderr) ->
  int stdout = Ok current ->
  exists new_count,
    trace (fst (_horizontal_scale action c))
    = trace c ++ [EvRun (OcGetReplicas service) 10;
                  EvRun (OcScale service new_count) 10]
    /\ (Action.operation action = Some "increase" ->
        new_count = Z.min (current + amount) MAX_PODS
        /\ (new_count <= MAX_PODS)%Z
        /\ ((1 <= current + amount)%Z ->
            new_count = clamp (current + amount) 1 MAX_PODS))
    /\ (Action.operation action <> Some "increase" ->
        new_count = Z.max (current - amount) 1
        /\ (1 <= new_count)%Z
        /\ ((current - amount <= MAX_PODS)%Z ->
            new_count = clamp (current - amount) 1 MAX_PODS)).
Proof.
  intros service amount Hget Hint.
  unfold _horizontal_scale. fold service amount.
  erewrite bind_ok by (apply call_eq; exact Hget).
  cbn [Z.eqb negb]. rewrite Hint.
  set (new_count :=
         if bool_decide (Action.operation action = Some "increase")
         then Z.min (current + amount) MAX_PODS
         else Z.max (current - amount) 1).
  exists new_count. split.
  - unfold Eff.bind, call. cbn [world self trace].
    destruct (w_run (OcScale service new_count) 10 w1) as [w2 reply].
    rewrite <- app_assoc.
    destruct reply as [returncode out err| |msg]; cbn [trace fst];
      [destruct (negb (returncode =? 0)%Z)|..]; reflexivity.
  - unfold new_count, clamp, MAX_PODS. split; intros Hop.
    + rewrite bool_decide_eq_true_2 by exact Hop. repeat split; lia.
    + rewrite bool_decide_eq_false_2 by exact Hop. repeat split; lia.
Qed.
End WithWorld.

(** A resize by 1.5 on the contended control plane: each patch carries the
    transform of the object as the other client last wrote it (500, 600
    and 700 millicores become 750, 900 and 1050), with its version. *)
Lemma conflict_retry_witness :
  v1_deployments act_agent = true
  /\ _vertical_scale resize_up_action (Ctx act_agent contended [])
     = (Ctx act_agent
            (Sim.mk [] [] (Deployment.mk "svc" 10 [app_container 1050 384])
                    [] (5 # 2) None [] true)
            [EvGetDeployment "svc";
             EvPatchDeployment (Deployment.mk "svc" 7 [app_container 750 384]);
             EvSleep (pause 0);
             EvGetDeployment "svc";
             EvPatchDeployment (Deployment.mk "svc" 8 [app_container 900 384]);
             EvSleep (pause 1);
             EvGetDeployment "svc";
             EvPatchDeployment (Deployment.mk "svc" 9 [app_container 1050 384])],
        Ok (ActionResult.mk "vertical" true None (Some "svc") None None
                            (Some (15 # 10)))).
Proof.
  split; [reflexivity|].
  refine (proj1 (proj1
    (conflict_retry (Ctx act_agent contended []) resize_up_action
       (Deployment.mk "svc" 7 [app_container 500 256])
       (Deployment.mk "svc" 8 [app_container 600 256])
       (Deployment.mk "svc" 9 [app_container 700 256])
       (Deployment.mk "svc" 7 [app_container 750 384])
       (Deployment.mk "svc" 8 [app_container 900 384])
       (Deployment.mk "svc" 9 [app_container 1050 384])
       _ _ _ _ _ _ eq_refl _ _ _ _ _ _ _ _ _))); vm_compute; reflexivity.
Defined.

(** C6, as stated, fails: scaling in by one a deployment that runs ten
    replicas writes nine, above MAX_PODS = 5, where the clamp would
    give five. *)
Lemma scale_in_writes_above_max_pods :
  trace (fst (_horizontal_scale scale_in_by_one
                (Ctx act_agent ten_replicas [])))
  = [EvRun (OcGetReplicas "svc") 10; EvRun (OcScale "svc" 9) 10]
  /\ (MAX_PODS < 9)%Z
  /\ clamp (10 - 1) 1 MAX_PODS = 5%Z.
Proof. split; [reflexivity | split; reflexivity]. Qed.

(** Scaling out by one from three replicas writes four. *)
Lemma horizontal_scale_bounds_witness :
  (w_run (OcGetReplicas "svc") 10 three_replicas
   = (Sim.make [] [Completed 0 "" ""] (Deployment.mk "svc" 1 []) [],
      Completed 0 "3" "")
   /\ int "3" = Ok 3%Z)
  /\ trace (fst (_horizontal_scale scale_out_by_one
                   (Ctx act_agent three_replicas [])))
     = [EvRun (OcGetReplicas "svc") 10; EvRun (OcScale "svc" 4) 10].
Proof.
  assert (Hrun : w_run (OcGetReplicas "svc") 10 three_replicas
                 = (Sim.make [] [Completed 0 "" ""]
                             (Deployment.mk "svc" 1 []) [],
                    Completed 0 "3" "")) by reflexivity.
  assert (Hint : int "3" = Ok 3%Z) by reflexivity.
  split; [split; [exact Hrun | exact Hint]|].
  destruct (horizontal_scale_bounds (Ctx act_agent three_replicas [])
              scale_out_by_one _ "3" "" 3%Z Hrun Hint)
    as (new_count & Htrace & Hout & _).
  destruct (Hout eq_refl) as (-> & _). exact Htrace.
Defined.
End ActFacts.

Module ReflectFacts.
Import Py Constants ReflectAgent ReflectSpec.

(** C4: the code departs from the claim. With the health delta between
    the two thresholds, one improvement (error rate -50%) and two
    degradations (latency and cost per request +10% each), the
    degradations outnumber the improvements, yet the reflection reports
    success: the comparison of average magnitudes, commented "if tied"
    in the source, also runs when the degradations are more numerous. *)
Theorem outnumbered_yet_successful :
  exists self' reflection improvements degradations,
    reflect (ReflectAgent.mk []) before after scaled_out executed
      = Ok (self', reflection)
    /\ Reflection.health_delta reflection = Some (70 - 70)
    /\ Reflection.improvements reflection = Some improvements
    /\ Reflection.degradations reflection = Some degradations
    /\ length improvements = 1%nat
    /\ length degradations = 2%nat
    /\ average_magnitude improvements == 50
    /\ average_magnitude degradations == 10
    /\ Reflection.success reflection = true
    /\ _evaluate_success (70 - 70) improvements degradations = true.
Proof.
  eexists _, _, _, _. split; [reflexivity|]. split; [reflexivity|].
  split; [reflexivity|]. split; [reflexivity|]. split; [reflexivity|].
  split; [reflexivity|]. split; [reflexivity|]. split; [reflexivity|].
  split; reflexivity.
Qed.

(** What the code computes between the thresholds. *)
Lemma evaluate_success_between_thresholds health_delta improvements
    degradations :
  health_delta <= SUCCESS_THRESHOLD * 100 ->
  DEGRADATION_THRESHOLD * 100 <= health_delta ->
  _evaluate_success health_delta improvements degradations
  = ((length degradations <? length improvements)%nat
     || match improvements, degradations with
        | _ :: _, _ :: _ =>
            Qgtb (average_magnitude improvements)
                 (average_magnitude degradations)
        | _, _ => false
        end).
Proof.
  intros Hup Hdown. unfold _evaluate_success.
  apply Facts.Qgtb_false in Hup. apply Facts.Qltb_false in Hdown.
  rewrite Hup, Hdown.
  destruct (length degradations <? length improvements)%nat eqn:Hlen;
    [reflexivity|].
  destruct improvements, degradations; try reflexivity.
  cbn in Hlen. discriminate Hlen.
Qed.
End ReflectFacts.

Module EnrichFacts.
Import Py Constants Eff EnrichAgent EnrichSpec EffFacts.

Lemma bucket_ok x hi lo v :
  x = Some v -> exists b, bucket x hi lo = Ok b.
Proof.
  intros ->. unfold bucket, gt, num, Py.bind.
  destruct (Qgtb v hi); eexists; reflexivity.
Qed.

Lemma create_pattern_key_ok dm action :
  is_Some (get dm "http.error.rate" (Some 0)) ->
  is_Some (get dm "http.latency" (Some 0)) ->
  is_Some (get dm "http.throughput" (Some 0)) ->
  exists key, _create_pattern_key dm action = Ok key.
Proof.
  intros [e He] [l Hl] [t Ht]. unfold _create_pattern_key. cbv zeta.
  destruct (bucket_ok _ (5 # 100) (1 # 100) _ He) as [b1 ->].
  destruct (bucket_ok _ 1000 500 _ Hl) as [b2 ->].
  destruct (bucket_ok _ 50 10 _ Ht) as [b3 ->].
  eexists. reflexivity.
Qed.

Lemma get_state_key_ok state :
  numeric state "http.error.rate" -> numeric state "http.latency" ->
  exists key, _get_state_key state = Ok key.
Proof.
  intros [e He] [l Hl]. unfold _get_state_key. cbv zeta.
  destruct (bucket_ok _ (5 # 100) (1 # 100) _ He) as [b1 ->].
  destruct (bucket_ok _ 1000 500 _ Hl) as [b2 ->].
  eexists. reflexivity.
Qed.

Section WithWorld.
Context {W : Type} `{World W}.

Local Abbreviation learner := (@ctx W EnrichAgent.t).

(** Pattern mining leaves the value table, the settings, the world and
    the trace alone, whether or not it raises. *)
Lemma mine_frame dm actions success health_delta patterns
    (c c' : learner) r :
  mine dm actions success health_delta patterns c = (c', r) ->
  same_settings (self c) (self c')
  /\ q_table (self c') = q_table (self c)
  /\ world c' = world c
  /\ trace c' = trace c.
Proof.
  revert patterns c. induction actions as [|action rest IH];
    intros patterns c; cbn [mine].
  - intros [= <- <-]. repeat split.
  - unfold Eff.bind at 1. unfold lift at 1.
    destruct (_create_pattern_key dm action) as [key|e];
      [|intros [= <- <-]; repeat split].
    unfold Eff.bind at 1. unfold modify at 1.
    unfold Eff.bind at 1. unfold get_self at 1.
    cbn [self world trace].
    match goal with
    | |- context [if ?b then _ else _] => destruct b
    end;
      [unfold Eff.bind at 1; unfold modify at 1; cbn [self world trace]|];
      intros Hrest; apply IH in Hrest; cbn [self world trace] in Hrest;
      destruct Hrest as ((? & ? & ? & ?) & Hq & Hw & Ht);
      repeat split; assumption.
Qed.

Lemma mine_ok dm actions success health_delta patterns (c : learner) :
  is_Some (get dm "http.error.rate" (Some 0)) ->
  is_Some (get dm "http.latency" (Some 0)) ->
  is_Some (get dm "http.throughput" (Some 0)) ->
  exists learned,
    snd (mine dm actions success health_delta patterns c) = Ok learned.
Proof.
  intros He Hl Ht. revert patterns c.
  induction actions as [|action rest IH]; intros patterns c; cbn [mine].
  - eexists. reflexivity.
  - destruct (create_pattern_key_ok dm action He Hl Ht) as [key Hkey].
    unfold Eff.bind at 1. unfold lift at 1. rewrite Hkey.
    unfold Eff.bind at 1. unfold modify at 1.
    unfold Eff.bind at 1. unfold get_self at 1.
    cbn [self world trace].
    match goal with
    | |- context [if ?b then _ else _] => destruct b
    end.
    + unfold Eff.bind at 1. unfold modify at 1. apply IH.
    + apply IH.
Qed.

Lemma update_rl_policies_ok pre_state actions post_state success
    health_delta (c : learner) s s' :
  _get_state_key pre_state = Ok s ->
  _get_state_key post_state = Ok s' ->
  _update_rl_policies pre_state actions post_state success health_delta c
  = (Ctx (set_q_table
            (fold_left
               (q_update (learning_rate (self c))
                         (discount_factor (self c))
                         (_calculate_reward health_delta success) s s')
               actions (q_table (self c)))
            (self c))
         (world c) (trace c),
     Ok (map (fun action => (s, action_key action)) actions)).
Proof.
  intros Hs Hs'. unfold _update_rl_policies. cbv zeta.
  rewrite Hs, Hs'. reflexivity.
Qed.

Lemma update_rl_policies_raise pre_state actions post_state success
    health_delta (c c' : learner) e :
  _update_rl_policies pre_state actions post_state success health_delta c
  = (c', Raise e) ->
  c' = c.
Proof.
  unfold _update_rl_policies. cbv zeta.
  destruct (_get_state_key pre_state); cbn;
    [destruct (_get_state_key post_state); cbn|];
    intros [= <-]; destruct c; reflexivity.
Qed.

Lemma fold_updated_in_turn alpha gamma r s s' actions q :
  updated_in_turn alpha gamma r s s' q actions
    (fold_left (q_update alpha gamma r s s') actions q).
Proof.
  revert q. induction actions as [|a rest IH]; intros q;
    cbn [fold_left].
  - constructor.
  - constructor. apply IH.
Qed.

(** The steps of [enrich] one after the other. *)
Lemma enrich_eq reflection decision pre_state post_state (c : learner) :
  enrich reflection decision pre_state post_state c
  = let success := Reflection.success reflection in
    let actions := Decision.actions decision in
    let health_delta := default 0 (Reflection.health_delta reflection) in
    let c1 :=
      Ctx (set_learning_cycles (S (learning_cycles (self c))) (self c))
          (world c) (trace c) in
    match _mine_patterns pre_state actions success health_delta c1 with
    | (c2, Raise e) => (c2, Raise e)
    | (c2, Ok patterns_learned) =>
        match _update_rl_policies pre_state actions post_state success
                                  health_delta c2 with
        | (c3, Raise e) => (c3, Raise e)
        | (c3, Ok policies_updated) =>
            let kb :=
              _update_statistics_pure actions success
                                      (knowledge_base (self c3)) in
            let agent := set_knowledge_base kb (self c3) in
            let path := knowledge_base_path agent in
            let saving :=
              (Z.of_nat (learning_cycles agent) mod RL_UPDATE_FREQUENCY
                 =? 0)%Z in
            (Ctx agent
                 (if saving then fst (w_save path kb (world c3))
                  else world c3)
                 (trace c3 ++
                    (if saving then [EvSaveKnowledgeBase path kb]
                     else [])),
             Ok (Enrichment.mk (learning_cycles agent) patterns_learned
                   policies_updated
                   (size (default ∅ (KnowledgeBase.patterns kb)))
                   (size (q_table agent))))
        end
    end.
Proof.
  unfold enrich. cbv zeta.
  unfold Eff.bind at 1. unfold modify at 1.
  unfold Eff.bind at 1.
  destruct (_mine_patterns _ _ _ _ _) as [c2 [patterns_learned|e]];
    [|reflexivity].
  unfold Eff.bind at 1. change RL_ENABLED with true. cbv iota.
  destruct (_update_rl_policies _ _ _ _ _ _) as [c3 [policies|e]];
    [|reflexivity].
  unfold Eff.bind at 1. unfold _update_statistics at 1.
  unfold modify at 1.
  unfold Eff.bind at 1. unfold get_self at 1. cbn [self world trace].
  destruct (_ =? 0)%Z.
  - unfold Eff.bind at 1. unfold _save_knowledge_base.
    unfold Eff.bind at 1. unfold get_self at 1.
    unfold Eff.bind at 1. unfold call at 1. cbn [self world trace].
    destruct (w_save _ _ _) as [w' ok]. reflexivity.
  - unfold Eff.bind at 1. unfold ret at 1.
    unfold Eff.bind at 1. unfold get_self at 1. unfold ret.
    cbn [self world trace]. rewrite app_nil_r. reflexivity.
Qed.

Lemma calculate_reward_eq health_delta success :
  _calculate_reward health_delta success = reward_of health_delta success.
Proof. destruct success; reflexivity. Qed.

(** C5. When the metrics the state keys are built from are numbers,
    [enrich] completes and leaves the value table updated, for each
    action of the decision in turn, by
    Q(s,a) <- Q(s,a) + alpha (reward + gamma max_a' Q(s',a') - Q(s,a)),
    where s and s' are the state keys of the snapshots before and
    after, reward is health_delta / 10 plus 10 on success or minus 5
    on failure, a pair never seen reads as 0, and the maximum ranges
    over the five action keys. *)
Theorem q_learning_update (reflection : Reflection.t)
    (decision : Decision.t) (pre_state post_state : Snapshot.t)
    (c : learner) :
  numeric pre_state "http.error.rate" ->
  numeric pre_state "http.latency" ->
  numeric pre_state "http.throughput" ->
  numeric post_state "http.error.rate" ->
  numeric post_state "http.latency" ->
  exists (c' : learner) out s s',
    enrich reflection decision pre_state post_state c = (c', Ok out)
    /\ _get_state_key pre_state = Ok s
    /\ _get_state_key post_state = Ok s'
    /\ updated_in_turn (learning_rate (self c)) (discount_factor (self c))
         (reward_of (default 0 (Reflection.health_delta reflection))
                    (Reflection.success reflection))
         s s' (q_table (self c)) (Decision.actions decision)
         (q_table (self c'))
    /\ Enrichment.policies_updated out
       = map (fun a => (s, action_key a)) (Decision.actions decision).
Proof.
  intros He Hl Ht He' Hl'.
  destruct (get_state_key_ok pre_state He Hl) as [s Hs].
  destruct (get_state_key_ok post_state He' Hl') as [s' Hs'].
  rewrite enrich_eq. cbv zeta. unfold _mine_patterns.
  match goal with
  | |- context [mine ?dm ?a ?b ?h ?p ?c1] =>
      destruct (mine_ok dm a b h p c1 He Hl Ht) as [learned Hok];
      destruct (mine dm a b h p c1) as [c2 r] eqn:Hmine
  end.
  cbn [snd] in Hok. subst r.
  apply mine_frame in Hmine. cbn [self world trace] in Hmine.
  destruct Hmine as ((_ & _ & Hrate & Hdisc) & Hq & _ & _).
  cbn [learning_rate discount_factor set_learning_cycles] in Hrate, Hdisc.
  rewrite (update_rl_policies_ok _ _ _ _ _ c2 s s' Hs Hs').
  eexists _, _, s, s'. split; [reflexivity|].
  split; [exact Hs|]. split; [exact Hs'|]. split; [|reflexivity].
  cbn [self q_table set_knowledge_base set_q_table].
  rewrite <- Hrate, <- Hdisc, Hq, calculate_reward_eq.
  cbn [q_table set_learning_cycles]. apply fold_updated_in_turn.
Qed.

(** [enrich] advances the learning-cycle counter by one, whether or
    not it completes. *)
Lemma enrich_learning_cycles reflection decision pre_state post_state
    (c c' : learner) r :
  enrich reflection decision pre_state post_state c = (c', r) ->
  learning_cycles (self c') = S (learning_cycles (self c)).
Proof.
  rewrite enrich_eq. cbv zeta. unfold _mine_patterns.
  destruct (mine _ _ _ _ _ _) as [c2 r2] eqn:Hmine.
  apply mine_frame in Hmine. cbn [self world trace] in Hmine.
  destruct Hmine as ((_ & Hlc & _ & _) & _).
  cbn [learning_cycles set_learning_cycles] in Hlc.
  destruct r2 as [learned|e]; [|intros [= <- <-]; congruence].
  destruct (_update_rl_policies _ _ _ _ _ c2) as [c3 [pol|e]] eqn:Hrl.
  - intros [= <- <-]. cbn [self learning_cycles set_knowledge_base].
    unfold _update_rl_policies in Hrl. cbv zeta in Hrl.
    destruct (_get_state_key pre_state); [|discriminate Hrl].
    destruct (_get_state_key post_state); [|discriminate Hrl].
    injection Hrl as <- _. cbn [self learning_cycles set_q_table].
    congruence.
  - intros [= <- <-]. apply update_rl_policies_raise in Hrl. subst c3.
    congruence.
Qed.

(** What [enrich] adds to the trace: one write of the knowledge base,
    as it is after the call, when the call completes with the
    counter on a multiple of RL_UPDATE_FREQUENCY; nothing
    otherwise. *)
Lemma enrich_trace reflection decision pre_state post_state
    (c c' : learner) r :
  enrich reflection decision pre_state post_state c = (c', r) ->
  trace c'
  = trace c ++
      (if is_ok r
          && (Z.of_nat (S (learning_cycles (self c)))
                mod RL_UPDATE_FREQUENCY =? 0)%Z
       then [EvSaveKnowledgeBase (knowledge_base_path (self c))
                                 (knowledge_base (self c'))]
       else []).
Proof.
  rewrite enrich_eq. cbv zeta. unfold _mine_patterns.
  destruct (mine _ _ _ _ _ _) as [c2 r2] eqn:Hmine.
  apply mine_frame in Hmine. cbn [self world trace] in Hmine.
  destruct Hmine as ((Hpath & Hlc & _ & _) & _ & _ & Htr).
  cbn [learning_cycles knowledge_base_path set_learning_cycles]
    in Hlc, Hpath.
  destruct r2 as [learned|e];
    [|intros [= <- <-]; cbn [is_ok andb]; rewrite app_nil_r; exact Htr].
  destruct (_update_rl_policies _ _ _ _ _ c2) as [c3 [pol|e]] eqn:Hrl.
  - unfold _update_rl_policies in Hrl. cbv zeta in Hrl.
    destruct (_get_state_key pre_state); [|discriminate Hrl].
    destruct (_get_state_key post_state); [|discriminate Hrl].
    injection Hrl as <- _.
    intros [= <- <-].
    cbn [self world trace learning_cycles knowledge_base_path
           knowledge_base set_knowledge_base set_q_table is_ok andb].
    rewrite <- Hlc, <- Hpath, Htr. reflexivity.
  - intros [= <- <-]. apply update_rl_policies_raise in Hrl. subst c3.
    cbn [is_ok andb]. rewrite app_nil_r. exact Htr.
Qed.

Lemma enrich_path reflection decision pre_state post_state
    (c c' : learner) r :
  enrich reflection decision pre_state post_state c = (c', r) ->
  knowledge_base_path (self c') = knowledge_base_path (self c).
Proof.
  rewrite enrich_eq. cbv zeta. unfold _mine_patterns.
  destruct (mine _ _ _ _ _ _) as [c2 r2] eqn:Hmine.
  apply mine_frame in Hmine. cbn [self world trace] in Hmine.
  destruct Hmine as ((Hpath & _) & _).
  cbn [knowledge_base_path set_learning_cycles] in Hpath.
  destruct r2 as [learned|e]; [|intros [= <- <-]; congruence].
  destruct (_update_rl_policies _ _ _ _ _ c2) as [c3 [pol|e]] eqn:Hrl.
  - unfold _update_rl_policies in Hrl. cbv zeta in Hrl.
    destruct (_get_state_key pre_state); [|discriminate Hrl].
    destruct (_get_state_key post_state); [|discriminate Hrl].
    injection Hrl as <- _. intros [= <- <-].
    cbn [self knowledge_base_path set_knowledge_base set_q_table].
    congruence.
  - intros [= <- <-]. apply update_rl_policies_raise in Hrl. subst c3.
    congruence.
Qed.

Lemma enrich_all_app calls1 calls2 (c : learner) :
  enrich_all (calls1 ++ calls2) c
  = match enrich_all calls1 c with
    | (c', Ok _) => enrich_all calls2 c'
    | (c', Raise e) => (c', Raise e)
    end.
Proof.
  revert c. induction calls1 as [|k rest IH]; intros c;
    cbn [app enrich_all].
  - reflexivity.
  - unfold Eff.bind.
    destruct (enrich _ _ _ _ c) as [c1 [out|e]]; [apply IH|reflexivity].
Qed.

Lemma enrich_all_counter calls (c c' : learner) :
  enrich_all calls c = (c', Ok tt) ->
  learning_cycles (self c')
  = (learning_cycles (self c) + length calls)%nat
  /\ knowledge_base_path (self c') = knowledge_base_path (self c).
Proof.
  revert c. induction calls as [|k rest IH]; intros c; cbn [enrich_all].
  - intros [= <-]. split; [cbn; lia | reflexivity].
  - unfold Eff.bind.
    destruct (enrich _ _ _ _ c) as [c1 [out|e]] eqn:Hk; [|discriminate].
    intros Hrest. apply IH in Hrest. destruct Hrest as [Hn Hp].
    rewrite Hn, Hp, (enrich_learning_cycles _ _ _ _ _ _ _ Hk),
      (enrich_path _ _ _ _ _ _ _ Hk).
    split; [cbn [length]; lia | reflexivity].
Qed.

(** Calls whose counter values are not multiples of the frequency
    write nothing. *)
Lemma enrich_all_quiet calls (c c' : learner) :
  enrich_all calls c = (c', Ok tt) ->
  (forall i, (1 <= i <= length calls)%nat ->
     (Z.of_nat (learning_cycles (self c) + i) mod RL_UPDATE_FREQUENCY
      <> 0)%Z) ->
  trace c' = trace c.
Proof.
  revert c. induction calls as [|k rest IH]; intros c; cbn [enrich_all].
  - intros [= <-] _. reflexivity.
  - unfold Eff.bind.
    destruct (enrich _ _ _ _ c) as [c1 [out|e]] eqn:Hk; [|discriminate].
    intros Hrest Hquiet.
    rewrite (IH c1 Hrest).
    + rewrite (enrich_trace _ _ _ _ _ _ _ Hk). cbn [is_ok andb].
      specialize (Hquiet 1%nat ltac:(cbn [length]; lia)).
      replace (learning_cycles (self c) + 1)%nat
        with (S (learning_cycles (self c))) in Hquiet by lia.
      apply Z.eqb_neq in Hquiet. rewrite Hquiet. apply app_nil_r.
    + intros i Hi.
      rewrite (enrich_learning_cycles _ _ _ _ _ _ _ Hk).
      specialize (Hquiet (S i) ltac:(cbn [length]; lia)).
      replace (S (learning_cycles (self c)) + i)%nat
        with (learning_cycles (self c) + S i)%nat by lia.
      exact Hquiet.
Qed.

(** A completed call whose counter value is a multiple of the
    frequency ends with the write of the knowledge base as it then
    is. *)
Lemma enrich_all_last_saves calls k (c c' : learner) :
  enrich_all (calls ++ [k]) c = (c', Ok tt) ->
  (Z.of_nat (learning_cycles (self c) + length calls + 1)
     mod RL_UPDATE_FREQUENCY = 0)%Z ->
  exists before,
    trace c'
    = before ++ [EvSaveKnowledgeBase (knowledge_base_path (self c'))
                                     (knowledge_base (self c'))].
Proof.
  rewrite enrich_all_app.
  destruct (enrich_all calls c) as [c1 [[]|e]] eqn:Hcalls;
    [|discriminate].
  destruct (enrich_all_counter _ _ _ Hcalls) as [Hn Hp].
  cbn [enrich_all]. unfold Eff.bind.
  destruct (enrich _ _ _ _ c1) as [c2 [out|e]] eqn:Hk; [|discriminate].
  intros [= <-] Hmult.
  rewrite (enrich_trace _ _ _ _ _ _ _ Hk). cbn [is_ok andb].
  rewrite Hn.
  replace (S (learning_cycles (self c) + length calls))
    with (learning_cycles (self c) + length calls + 1)%nat by lia.
  apply Z.eqb_eq in Hmult. rewrite Hmult.
  rewrite (enrich_path _ _ _ _ _ _ _ Hk).
  eexists. reflexivity.
Qed.

(** In a process whose learning cycles all complete, the cycles since
    the last write of the knowledge base number [k mod N], at most
    N - 1. *)
Lemma unsaved_cycles_bound calls (c c' : learner) :
  learning_cycles (self c) = 0%nat ->
  enrich_all calls c = (c', Ok tt) ->
  let unsaved := (length calls mod 10)%nat in
  let saved := (length calls - unsaved)%nat in
  (unsaved <= 9)%nat
  /\ exists c_saved : learner,
       enrich_all (take saved calls) c = (c_saved, Ok tt)
       /\ enrich_all (drop saved calls) c_saved = (c', Ok tt)
       /\ length (drop saved calls) = unsaved
       /\ trace c' = trace c_saved
       /\ ((0 < saved)%nat ->
           exists before,
             trace c_saved
             = before ++
                 [EvSaveKnowledgeBase (knowledge_base_path (self c_saved))
                                      (knowledge_base (self c_saved))]).
Proof.
  intros Hzero Hrun unsaved saved.
  assert (Hlt : (unsaved < 10)%nat) by (apply Nat.mod_upper_bound; lia).
  assert (Hk : length calls = (saved + unsaved)%nat).
  { unfold saved. pose proof (Nat.Div0.mod_le (length calls) 10).
    fold unsaved in H0. lia. }
  assert (Hdiv : (saved mod 10 = 0)%nat).
  { unfold saved, unsaved.
    rewrite (Nat.div_mod_eq (length calls) 10) at 1.
    rewrite Nat.add_sub, Nat.mul_comm. apply Nat.Div0.mod_mul. }
  split; [lia|].
  rewrite <- (take_drop saved calls), enrich_all_app in Hrun.
  destruct (enrich_all (take saved calls) c) as [c1 [[]|e]] eqn:Hsaved;
    [|discriminate].
  destruct (enrich_all_counter _ _ _ Hsaved) as [Hn _].
  rewrite Hzero, length_take, Nat.min_l in Hn by lia.
  cbn [Nat.add] in Hn.
  exists c1. split; [reflexivity|]. split; [exact Hrun|].
  split; [rewrite length_drop; lia|].
  split.
  - apply (enrich_all_quiet _ _ _ Hrun). intros i Hi.
    rewrite length_drop in Hi. rewrite Hn.
    apply Facts.past_multiple_of_ten; [exact Hdiv | lia].
  - intros Hpos.
    assert (Hne : take saved calls <> []).
    { intros Hnil. apply (f_equal length) in Hnil.
      rewrite length_take in Hnil. cbn in Hnil. lia. }
    destruct (exists_last Hne) as (front & k & Hsplit).
    rewrite Hsplit in Hsaved.
    apply (enrich_all_last_saves _ _ _ _ Hsaved).
    rewrite Hzero. cbn [Nat.add].
    assert (Hlen : (length front + 1 = saved)%nat).
    { apply (f_equal length) in Hsplit.
      rewrite length_take, length_app in Hsplit. cbn in Hsplit. lia. }
    rewrite Hlen. apply Facts.multiple_of_ten, Hdiv.
Qed.
End WithWorld.

(** A first successful cycle with health delta 15: the entry goes from 0
    to 0.1 x (1.5 + 10) = 1.15. *)
Lemma q_learning_update_witness :
  (numeric WeighSpec.scenario "http.error.rate"
   /\ numeric WeighSpec.scenario "http.latency"
   /\ numeric WeighSpec.scenario "http.throughput")
  /\ exists (c' : @ctx Sim.t EnrichAgent.t) out,
       enrich (c_reflection learning_call) (c_decision learning_call)
              (c_pre_state learning_call) (c_post_state learning_call)
              (Ctx fresh_agent idle_world [])
         = (c', Ok out)
       /\ value_of (q_table (self c')) "high_low_critical"
                   "horizontal_increase" == 115 # 100.
Proof.
  assert (He : numeric WeighSpec.scenario "http.error.rate")
    by (eexists; reflexivity).
  assert (Hl : numeric WeighSpec.scenario "http.latency")
    by (eexists; reflexivity).
  assert (Ht : numeric WeighSpec.scenario "http.throughput")
    by (eexists; reflexivity).
  split; [split; [exact He | split; [exact Hl | exact Ht]]|].
  destruct (q_learning_update (c_reflection learning_call)
              (c_decision learning_call) (c_pre_state learning_call)
              (c_post_state learning_call)
              (Ctx fresh_agent idle_world []) He Hl Ht He Hl)
    as (c' & out & s & s' & Hrun & _).
  exists c', out. split; [exact Hrun|].
  apply (f_equal fst) in Hrun. cbn [fst] in Hrun. rewrite <- Hrun.
  vm_compute. reflexivity.
Defined.
End EnrichFacts.

Module OrchestratorFacts.
Import Py Constants Eff AWAREOrchestrator EffFacts.

Section WithWorld.
Context {W : Type} `{World W}.

Local Abbreviation conductor := (@ctx W AWAREOrchestrator.t).

(** C1 (amended). When the Mutation Executor reports overall failure
    (and the assessment after the wait does not raise), the cycle
    still runs Reflect and Enrich: the Outcome Evaluator records a
    short reflection with success = false and reason "Execution
    failed", without comparing metrics, and the Learning Engine is
    called with it, its learning-cycle counter advancing by one. *)
Theorem failed_execution_still_reflected (c : conductor)
    (service : string) (snapshot : Snapshot.t) (decision : Decision.t)
    (weigher : WeighAgent.t) (w1 w3 : W) (c_act : @ctx W ActAgent.t)
    (execution : ExecutionResult.t) (reassessed : option Snapshot.t) :
  w_assess service (world c) = (w1, Ok (Some snapshot)) ->
  WeighAgent.weigh (weigh_agent_now (self c)) snapshot service
    = Ok (weigher, decision) ->
  Decision.actions decision <> [] ->
  ActAgent.act decision
    (Ctx (act_agent (self c)) w1 (trace c ++ [EvAssess service]))
    = (c_act, Ok execution) ->
  ExecutionResult.success execution = false ->
  w_assess service (w_sleep 30 (world c_act)) = (w3, Ok reassessed) ->
  exists (c' : conductor) result reflection,
    run_aware_cycle service c = (c', Ok result)
    /\ ReflectAgent.reflection_history (reflect_agent (self c'))
       = ReflectAgent.reflection_history (reflect_agent (self c))
           ++ [reflection]
    /\ Reflection.success reflection = false
    /\ Reflection.failure_reason reflection = Some "Execution failed"
    /\ Reflection.improvements reflection = None
    /\ Reflection.degradations reflection = None
    /\ EnrichAgent.learning_cycles (enrich_agent (self c'))
       = S (EnrichAgent.learning_cycles (enrich_agent (self c)))
    /\ CycleResult.reflect (CycleResult.phase result)
       = Some (false, 0, 0%nat, 0%nat).
Proof.
  intros Hassess Hweigh Hactions Hact Hfailed Hpost.
  unfold run_aware_cycle, try_except, cycle_body.
  unfold Eff.bind at 1. unfold assess at 1.
  erewrite bind_ok by (apply call_eq; exact Hassess).
  unfold lift at 1.
  unfold Eff.bind at 1. unfold update_phases at 1, update_result at 1,
    modify at 1. cbn [self world trace fst snd].
  unfold Eff.bind at 1. unfold on_agent at 1, zoom at 1.
  cbn [self world trace fst snd].
  unfold weigh at 1. unfold Eff.bind at 1, get_self at 1.
  cbn [self world trace].
  change (weigh_agent_now _) with (weigh_agent_now (self c)).
  rewrite Hweigh. unfold Eff.bind at 1, lift at 1.
  unfold Eff.bind at 1, put_self at 1, ret at 1.
  cbn [self world trace fst snd].
  unfold Eff.bind at 1. unfold update_phases at 1, update_result at 1,
    modify at 1. cbn [self world trace fst snd].
  destruct (Decision.actions decision) as [|a rest] eqn:Hacts;
    [contradiction|].
  unfold Eff.bind at 1. unfold on_agent at 1, zoom at 1.
  cbn [self world trace fst snd act_agent set_weigh_agent].
  rewrite Hact.
  unfold Eff.bind at 1. unfold update_phases at 1, update_result at 1,
    modify at 1. cbn [self world trace fst snd].
  unfold Eff.bind at 1. unfold call at 1. cbn [self world trace].
  unfold Eff.bind at 1. unfold assess at 1.
  erewrite bind_ok by (apply call_eq; exact Hpost).
  unfold lift at 1. cbn [self world trace fst snd].
  unfold Eff.bind at 1. unfold on_agent at 1, zoom at 1.
  cbn [self world trace fst snd].
  unfold reflect at 1. unfold Eff.bind at 1, get_self at 1.
  cbn [self world trace].
  unfold ReflectAgent.reflect at 1. rewrite Hfailed. cbn [negb].
  unfold Eff.bind at 1, lift at 1.
  unfold Eff.bind at 1, put_self at 1, ret at 1.
  cbn [self world trace fst snd].
  unfold Eff.bind at 1. unfold update_phases at 1, update_result at 1,
    modify at 1. cbn [self world trace fst snd].
  unfold Eff.bind at 1. unfold on_agent at 1, zoom at 1.
  cbn [self world trace fst snd].
  match goal with
  | |- context [EnrichAgent.enrich ?r ?d ?p ?q ?ce] =>
      destruct (EnrichAgent.enrich r d p q ce) as [c_e r_e] eqn:Henrich
  end.
  apply EnrichFacts.enrich_learning_cycles in Henrich.
  cbn [self enrich_agent set_reflect_agent set_act_agent set_weigh_agent]
    in Henrich.
  destruct r_e as [enrichment|e].
  - unfold Eff.bind at 1. unfold update_phases at 1, update_result at 1,
      modify at 1. cbn [self world trace fst snd].
    unfold Eff.bind at 1. unfold update_result at 1, modify at 1.
    cbn [self world trace fst snd].
    unfold Eff.bind at 1. unfold update_result at 1, modify at 1.
    cbn [self world trace fst snd].
    unfold Eff.bind at 1. unfold _log_to_csv at 1.
    unfold Eff.bind at 1. unfold current_result at 1.
    unfold Eff.bind at 1, get_self at 1, ret at 1.
    cbn [self world trace fst snd].
    unfold Eff.bind at 1, call at 1. cbn [self world trace fst snd].
    destruct (w_csv _) as [w_log ok].
    unfold ret at 1. unfold current_result.
    unfold Eff.bind at 1, get_self at 1, ret at 1.
    cbn [self world trace fst snd].
    eexists _, _, _. split; [reflexivity|].
    cbn [self enrich_agent reflect_agent set_enrich_agent
           set_reflect_agent set_act_agent set_weigh_agent
           ReflectAgent.record ReflectAgent.reflection_history].
    split; [reflexivity|].
    repeat (split; [reflexivity|]).
    split; [exact Henrich|]. reflexivity.
  - unfold Eff.bind at 1. unfold update_result at 1, modify at 1.
    cbn [self world trace fst snd].
    unfold current_result.
    unfold Eff.bind at 1, get_self at 1, ret at 1.
    cbn [self world trace fst snd].
    eexists _, _, _. split; [reflexivity|].
    cbn [self enrich_agent reflect_agent set_enrich_agent
           set_reflect_agent set_act_agent set_weigh_agent
           ReflectAgent.record ReflectAgent.reflection_history].
    split; [reflexivity|].
    repeat (split; [reflexivity|]).
    split; [exact Henrich|]. reflexivity.
Qed.

Lemma export_knowledge_eq (c : conductor) (file : export_file) :
  exists w' data,
    export_knowledge file c
    = (Ctx (self c) w' (trace c ++ [EvExportKnowledge file data]), Ok tt)
    /\ KnowledgeExport.statistics data
       = KnowledgeBase.statistics
           (EnrichAgent.knowledge_base (enrich_agent (self c))).
Proof.
  destruct c as [[wa aa ra ea n] w tr].
  unfold export_knowledge, zoom, EnrichAgent.export_knowledge.
  unfold Eff.bind at 1, get_self at 1. cbn [self world trace].
  unfold Eff.bind at 1, call at 1. cbn [self world trace].
  destruct (w_export _ _ _) as [w' ok]. unfold ret.
  cbn [self world trace]. eexists _, _. split; reflexivity.
Qed.
End WithWorld.

(** C1, as stated, fails: in a cycle whose scale command is refused the
    execution fails, yet a reflection is produced and recorded and the
    Learning Engine updates the knowledge store (counter, statistics
    and value table). *)
Lemma failed_cycle_reflects_and_learns :
  exists c' result reflection statistics,
    run_aware_cycle "svc" (OrchestratorSpec.boot EnrichSpec.failing_world)
      = (c', Ok result)
    /\ CycleResult.act (CycleResult.phase result) = Some (false, 1%nat)
    /\ CycleResult.status result = Some "completed"
    /\ ReflectAgent.reflection_history (reflect_agent (self c'))
       = [reflection]
    /\ Reflection.success reflection = false
    /\ EnrichAgent.learning_cycles (enrich_agent (self c')) = 1%nat
    /\ KnowledgeBase.statistics
         (EnrichAgent.knowledge_base (enrich_agent (self c')))
       = Some statistics
    /\ Statistics.total_adaptations statistics = 1%nat
    /\ EnrichSpec.value_of (EnrichAgent.q_table (enrich_agent (self c')))
         "high_low_critical" "horizontal_increase" == - (1 # 2).
Proof.
  eexists _, _, _, _. split; [vm_compute; reflexivity|].
  split; [reflexivity|]. split; [reflexivity|]. split; [reflexivity|].
  split; [reflexivity|]. split; [reflexivity|]. split; [reflexivity|].
  split; [reflexivity|]. vm_compute. reflexivity.
Qed.

(** The cycle of the failing world. *)
Lemma failed_execution_still_reflected_witness :
  exists c' result reflection,
    run_aware_cycle "svc" (OrchestratorSpec.boot EnrichSpec.failing_world)
      = (c', Ok result)
    /\ ReflectAgent.reflection_history (reflect_agent (self c'))
       = [reflection]
    /\ Reflection.success reflection = false
    /\ EnrichAgent.learning_cycles (enrich_agent (self c')) = 1%nat.
Proof.
  edestruct (failed_execution_still_reflected
               (OrchestratorSpec.boot EnrichSpec.failing_world) "svc")
    as (c' & result & reflection & Hrun & Hhist & Hfalse & _ & _ & _ & Hlc
        & _).
  - vm_compute. reflexivity.
  - vm_compute. reflexivity.
  - discriminate.
  - vm_compute. reflexivity.
  - reflexivity.
  - vm_compute. reflexivity.
  - exists c', result, reflection.
    split; [exact Hrun|]. split; [exact Hhist|]. split; [exact Hfalse|].
    exact Hlc.
Defined.
End OrchestratorFacts.

Module MonitoringFacts.
Import Py Constants Eff EffFacts EnrichSpec.

Section WithWorld.
Context {W : Type} `{World W}.

(** C9 (amended). The knowledge-base dictionary is written to its
    file by exactly those [enrich] calls that complete with the
    learning-cycle counter on a multiple of RL_UPDATE_FREQUENCY, and
    what is written is the dictionary as that call leaves it. On
    shutdown, by interrupt or by an unexpected error, the process
    writes an export of the knowledge and does not write the
    knowledge-base file. In a process whose learning cycles all
    complete, the cycles since the last write number [k mod N], at
    most N - 1 = 9. *)
Theorem knowledge_base_persistence :
  (forall reflection decision pre_state post_state
          (c c' : @ctx W EnrichAgent.t) r,
      EnrichAgent.enrich reflection decision pre_state post_state c
        = (c', r) ->
      trace c'
      = trace c ++
          (if is_ok r
              && (Z.of_nat (S (EnrichAgent.learning_cycles (self c)))
                    mod RL_UPDATE_FREQUENCY =? 0)%Z
           then [EvSaveKnowledgeBase
                   (EnrichAgent.knowledge_base_path (self c))
                   (EnrichAgent.knowledge_base (self c'))]
           else []))
  /\ (forall c : @ctx W AWAREOrchestrator.t,
        exists w' data,
          Monitoring.on_keyboard_interrupt c
          = (Ctx (self c) w'
                 (trace c ++ [EvExportKnowledge ExportFinal data]),
             Ok tt))
  /\ (forall c : @ctx W AWAREOrchestrator.t,
        exists w' data,
          Monitoring.on_unexpected_error c
          = (Ctx (self c) w'
                 (trace c ++ [EvExportKnowledge ExportOnError data]),
             Ok tt))
  /\ (forall calls (c c' : @ctx W EnrichAgent.t),
        EnrichAgent.learning_cycles (self c) = 0%nat ->
        enrich_all calls c = (c', Ok tt) ->
        let unsaved := (length calls mod 10)%nat in
        let saved := (length calls - unsaved)%nat in
        (unsaved <= 9)%nat
        /\ exists c_saved : @ctx W EnrichAgent.t,
             enrich_all (take saved calls) c = (c_saved, Ok tt)
             /\ enrich_all (drop saved calls) c_saved = (c', Ok tt)
             /\ length (drop saved calls) = unsaved
             /\ trace c' = trace c_saved
             /\ ((0 < saved)%nat ->
                 exists before,
                   trace c_saved
                   = before ++
                       [EvSaveKnowledgeBase
                          (EnrichAgent.knowledge_base_path (self c_saved))
                          (EnrichAgent.knowledge_base (self c_saved))])).
Proof.
  split; [|split; [|split]].
  - intros. eapply EnrichFacts.enrich_trace. eassumption.
  - intros c. unfold Monitoring.on_keyboard_interrupt.
    destruct (OrchestratorFacts.export_knowledge_eq c ExportFinal)
      as (w' & data & Heq & _).
    exists w', data. exact Heq.
  - intros c. unfold Monitoring.on_unexpected_error, try_except.
    destruct (OrchestratorFacts.export_knowledge_eq c ExportOnError)
      as (w' & data & Heq & _).
    exists w', data. rewrite Heq. reflexivity.
  - intros calls c c'. apply EnrichFacts.unsaved_cycles_bound.
Qed.
End WithWorld.

(** C9, as stated, fails on shutdown: after one adaptation cycle and an
    interrupt, the knowledge base in memory holds the statistics of the
    cycle, the knowledge-base file was never written, and the only file
    written is the final export. *)
Lemma shutdown_does_not_save :
  exists c statistics data,
    OrchestratorSpec.one_turn_then_interrupt = (c, Ok tt)
    /\ KnowledgeBase.statistics
         (EnrichAgent.knowledge_base
            (AWAREOrchestrator.enrich_agent (self c)))
       = Some statistics
    /\ Statistics.total_adaptations statistics = 1%nat
    /\ Sim.kb_file (world c) = None
    /\ filter (fun ev => is_save ev = true) (trace c) = []
    /\ Sim.exports (world c) = [(ExportFinal, data)].
Proof.
  eexists _, _, _. split; [vm_compute; reflexivity|].
  split; [reflexivity|]. split; [reflexivity|]. split; [reflexivity|].
  split; [vm_compute; reflexivity|]. reflexivity.
Qed.

(** Ten completed cycles of a fresh process end with the write of the
    knowledge base as it then is. *)
Lemma knowledge_base_persistence_witness :
  exists c',
    enrich_all ten_cycles (Ctx fresh_agent idle_world []) = (c', Ok tt)
    /\ exists before,
         trace c'
         = before ++
             [EvSaveKnowledgeBase
                (EnrichAgent.knowledge_base_path (self c'))
                (EnrichAgent.knowledge_base (self c'))].
Proof.
  destruct (enrich_all ten_cycles (Ctx fresh_agent idle_world []))
    as [c' r] eqn:Hrun.
  assert (Hr : r = Ok tt).
  { apply (f_equal snd) in Hrun. vm_compute in Hrun. symmetry. exact Hrun. }
  subst r. exists c'. split; [reflexivity|].
  destruct (proj2 (proj2 (proj2 knowledge_base_persistence))
              ten_cycles (Ctx fresh_agent idle_world [])
              c' eq_refl Hrun)
    as (_ & c_saved & Hsaved & Hrest & _ & Htrace & Hlast).
  change (drop _ _) with (@nil cycle_input) in Hrest.
  cbn [enrich_all] in Hrest. unfold ret in Hrest.
  injection Hrest as ->.
  destruct (Hlast ltac:(cbn; lia)) as [before Hbefore].
  exists before. exact Hbefore.
Defined.
End MonitoringFacts.

(** ** The figures in binary64 arithmetic

    The numbers of the concrete scenarios, computed as Python computes
    them. *)

Module Binary64Facts.
Import PrimFloat Binary64.
Local Open Scope float_scope.
Set Warnings "-inexact-float".

(** The scenario of C7: 0.08 exceeds the threshold 0.05, and at health 40
    the tier-1 and tier-0 scale-outs score exactly 48 and 60. *)
Lemma scenario_utilities :
  (0.05 <? 0.08) = true /\ rising 1 40 = 48 /\ rising 0 40 = 60.
Proof. repeat split; reflexivity. Qed.

(** At health 85 the emergency scale-out scores less than the scale-in. *)
Lemma emergency_below_scale_in : (rising 0 85 <? falling 3 85) = true.
Proof. reflexivity. Qed.

(** The changes of the reflected cycle: -50%, and two rises above the 5%
    noise floor whose mean stays below 50. *)
Lemma reflected_changes :
  pct_change 0.10 0.05 = -50
  /\ (5 <? abs (pct_change 100 110)) = true
  /\ (5 <? abs (pct_change 0.0010 0.0011)) = true
  /\ ((abs (pct_change 100 110) + abs (pct_change 0.0010 0.0011)) / 2
        <? abs (pct_change 0.10 0.05) / 1) = true.
Proof. repeat split; reflexivity. Qed.

(** The back-off pauses and the first penalised value. *)
Lemma pauses_and_penalty :
  pause 0 = 1 /\ pause 1 = 1.5
  /\ new_q 0 0.1 (0 / 10 - 5) 0.95 0 = -0.5.
Proof. repeat split; reflexivity. Qed.
End Binary64Facts.

(** * Further properties of the code *)

(** ** Slices, splitting and joining *)

Module PyLaws.
Import Py.

Lemma slice_from_last {A} (k : nat) (l : list A) :
  (0 < k)%nat -> slice_from (- Z.of_nat k) l = drop (length l - k) l.
Proof.
  intros Hk. unfold slice_from.
  destruct (Z.ltb_spec (- Z.of_nat k) 0) as [_|]; [|lia].
  f_equal. lia.
Qed.

Lemma slice_from_zero {A} (l : list A) : slice_from 0 l = l.
Proof. unfold slice_from. cbn. rewrite Z.min_l by lia. reflexivity. Qed.

Lemma slice_from_suffix {A} (k : Z) (l : list A) :
  exists front, l = front ++ slice_from k l.
Proof.
  unfold slice_from. eexists. symmetry. apply take_drop.
Qed.

Lemma slice_from_length {A} (k : nat) (l : list A) :
  (0 < k)%nat -> length (slice_from (- Z.of_nat k) l) = Nat.min k (length l).
Proof.
  intros Hk. rewrite slice_from_last by assumption.
  rewrite length_drop. lia.
Qed.

(** [(l + [x])[-1:] == [x]] *)
Lemma slice_from_snoc {A} (l : list A) (x : A) :
  slice_from (- (1)) (l ++ [x]) = [x].
Proof.
  rewrite (slice_from_last 1) by lia.
  rewrite length_app. cbn [length].
  replace (length l + 1 - 1)%nat with (length l) by lia.
  rewrite drop_app_length. reflexivity.
Qed.

Lemma slice_to_last {A} (k : nat) (l : list A) :
  (0 < k)%nat -> slice_to (- Z.of_nat k) l = take (length l - k) l.
Proof.
  intros Hk. unfold slice_to.
  destruct (Z.ltb_spec (- Z.of_nat k) 0) as [_|]; [|lia].
  f_equal. lia.
Qed.

Lemma str_split_cons sep s :
  exists part parts, str_split sep s = part :: parts.
Proof.
  destruct s as [|a s]; cbn; [eauto|].
  destruct (Ascii.eqb a sep); [eauto|].
  destruct (str_split sep s); eauto.
Qed.

(** ["-".join(s.split("-")) == s] *)
Lemma str_join_split sep s :
  str_join (String sep EmptyString) (str_split sep s) = s.
Proof.
  induction s as [|a s IH]; [reflexivity|].
  cbn [str_split]. destruct (Ascii.eqb_spec a sep) as [->|Hne].
  - destruct (str_split_cons sep s) as (p & ps & E).
    rewrite E in *. cbn. cbn in IH. rewrite IH. reflexivity.
  - destruct (str_split_cons sep s) as (p & ps & E).
    rewrite E in *. destruct ps as [|p' ps]; cbn [str_join] in *.
    + now rewrite IH.
    + rewrite <- IH. reflexivity.
Qed.

End PyLaws.

(** ** utils.py *)

Module UtilsLaws.
Import Py Utils UtilsSpec PyLaws.

Lemma append_cons a p x : String a p +:+ x = String a (p +:+ x).
Proof. reflexivity. Qed.

Lemma append_assoc (a b c : string) : (a +:+ b) +:+ c = a +:+ (b +:+ c).
Proof.
  induction a as [|x a IH]; [reflexivity|].
  rewrite !append_cons, IH. reflexivity.
Qed.

Lemma append_empty (p : string) : p +:+ "" = p.
Proof.
  induction p as [|a p IH]; [reflexivity|].
  rewrite append_cons, IH. reflexivity.
Qed.

Lemma split_segment s : segment s = true -> str_split "-" s = [s].
Proof.
  induction s as [|a s IH]; [reflexivity|].
  cbn [segment str_split]. intros [Ha Hs]%andb_prop.
  destruct (Ascii.eqb a "-"); [discriminate|].
  rewrite (IH Hs). reflexivity.
Qed.

Lemma split_append p rest :
  segment p = true ->
  str_split "-" (p +:+ String "-" rest) = p :: str_split "-" rest.
Proof.
  induction p as [|a p IH]; [reflexivity|].
  cbn [segment]. intros [Ha Hp]%andb_prop.
  rewrite append_cons. cbn [str_split].
  destruct (Ascii.eqb a "-"); [discriminate|].
  rewrite (IH Hp). reflexivity.
Qed.

Lemma split_join parts :
  parts <> [] -> Forall (fun p => segment p = true) parts ->
  str_split "-" (str_join "-" parts) = parts.
Proof.
  induction parts as [|p rest IH]; [congruence|].
  intros _ Hall. apply Forall_cons in Hall as [Hp Hrest].
  destruct rest as [|q rest].
  - apply split_segment, Hp.
  - change (str_join "-" (p :: q :: rest))
      with (p +:+ String "-" (str_join "-" (q :: rest))).
    rewrite split_append by assumption.
    rewrite IH by (congruence || assumption). reflexivity.
Qed.

Lemma join_take (k : nat) parts :
  exists rest, str_join "-" parts = str_join "-" (take k parts) +:+ rest.
Proof.
  revert k. induction parts as [|p ps IH]; intros k.
  - exists "". destruct k; reflexivity.
  - destruct k as [|k]; [eexists; reflexivity|].
    cbn [take]. destruct (IH k) as [rest E].
    destruct ps as [|q ps].
    + exists "". rewrite take_nil. cbn [str_join].
      symmetry. apply append_empty.
    + destruct k as [|k].
      * eexists. cbn [take str_join]. reflexivity.
      * exists rest. cbn [take] in *.
        change (str_join "-" (p :: q :: ps))
          with (p +:+ String "-" (str_join "-" (q :: ps))).
        change (str_join "-" (p :: q :: take k ps))
          with (p +:+ String "-" (str_join "-" (q :: take k ps))).
        rewrite E, !append_assoc, append_cons. reflexivity.
Qed.

(** X1. The service name of a pod is its name without its last two
    hyphen-separated segments: for segments without hyphen,
    [normalize_service_name] maps [p1-...-pn-a-b] to [p1-...-pn]. *)
Theorem normalize_drops_two_segments (parts : list string) (a b : string) :
  Forall (fun p => segment p = true) parts ->
  segment a = true -> segment b = true ->
  normalize_service_name (str_join "-" (parts ++ [a; b]))
  = str_join "-" parts.
Proof.
  intros Hparts Ha Hb. unfold normalize_service_name.
  rewrite split_join.
  - rewrite (slice_to_last 2) by lia.
    rewrite length_app. cbn [length].
    replace (length parts + 2 - 2)%nat with (length parts) by lia.
    rewrite take_app_length. reflexivity.
  - destruct parts; discriminate.
  - apply Forall_app. split; [assumption|].
    repeat constructor; assumption.
Qed.

Lemma normalize_drops_two_segments_witness :
  normalize_service_name "acmeair-flight-db-afdaljfarueo" = "acmeair-flight".
Proof.
  apply (normalize_drops_two_segments ["acmeair"; "flight"] "db" "afdaljfarueo");
    repeat constructor.
Defined.

(** X2. The service name is always an initial part of the pod name, and
    it is empty for a pod name of fewer than three segments (at most one
    hyphen). *)
Theorem normalize_prefix_and_short_names (pod_name a b : string) :
  (exists rest, pod_name = normalize_service_name pod_name +:+ rest)
  /\ (segment a = true -> normalize_service_name a = "")
  /\ (segment a = true -> segment b = true ->
      normalize_service_name (a +:+ "-" +:+ b) = "").
Proof.
  split; [|split].
  - unfold normalize_service_name, slice_to.
    destruct (join_take
                (Z.to_nat
                   (if (-2 <? 0)%Z
                    then Z.max (-2 + Z.of_nat (length (str_split "-" pod_name))) 0
                    else Z.min (-2) (Z.of_nat (length (str_split "-" pod_name)))))
                (str_split "-" pod_name)) as [rest E].
    exists rest. rewrite <- E. symmetry. apply str_join_split.
  - intros Ha. unfold normalize_service_name.
    rewrite split_segment by assumption. reflexivity.
  - intros Ha Hb. unfold normalize_service_name.
    change (a +:+ "-" +:+ b) with (a +:+ String "-" b).
    rewrite split_append, split_segment by assumption. reflexivity.
Qed.

Lemma normalize_prefix_and_short_names_witness :
  normalize_service_name "frontend" = ""
  /\ normalize_service_name "frontend-x2x4z" = "".
Proof.
  destruct (normalize_prefix_and_short_names "" "frontend" "x2x4z")
    as (_ & H1 & H2).
  split; [apply H1 | apply H2]; reflexivity.
Defined.

End UtilsLaws.

(** ** Dictionaries in insertion order *)

Module DictLaws.
Import Py.

Lemma lookup_dict_set {V} (m k : string) (v : V) d :
  lookup m (dict_set k v d) = if String.eqb m k then Some v else lookup m d.
Proof.
  induction d as [|[k' v'] d IH]; cbn [dict_set lookup].
  - destruct (String.eqb m k); reflexivity.
  - destruct (String.eqb_spec k k') as [<-|Hkk']; cbn [lookup].
    + destruct (String.eqb m k); reflexivity.
    + rewrite IH. destruct (String.eqb_spec m k) as [->|Hmk].
      * apply String.eqb_neq in Hkk'. rewrite Hkk'. reflexivity.
      * reflexivity.
Qed.

Lemma lookup_not_in {V} (m : string) (d : dict V) :
  ~ In m (map fst d) -> lookup m d = None.
Proof.
  induction d as [|[k v] d IH]; [reflexivity|].
  cbn [map fst In lookup]. intros Hnot.
  destruct (String.eqb_spec m k) as [->|_]; [tauto|].
  apply IH. tauto.
Qed.

Lemma lookup_in {V} (m : string) (v : V) (d : dict V) :
  List.NoDup (map fst d) -> In (m, v) d <-> lookup m d = Some v.
Proof.
  induction d as [|[k x] d IH]; cbn [map fst In lookup].
  - intros _. split; [tauto|discriminate].
  - intros Hnd. apply List.NoDup_cons_iff in Hnd as [Hk Hnd].
    destruct (String.eqb_spec m k) as [->|Hne].
    + split.
      * intros [E|Hin]; [congruence|].
        exfalso. apply Hk. apply (in_map fst) in Hin. exact Hin.
      * intros [= ->]. left. reflexivity.
    + rewrite <- (IH Hnd). split.
      * intros [E|Hin]; [congruence|exact Hin].
      * intros Hin. right. exact Hin.
Qed.

Lemma lookup_dict_update {V} (m : string) (a b : dict V) :
  List.NoDup (map fst b) ->
  lookup m (dict_update a b)
  = match lookup m b with
    | Some v => Some v
    | None => lookup m a
    end.
Proof.
  unfold dict_update. revert a.
  induction b as [|[k v] b IH]; intros a Hnd; [reflexivity|].
  cbn [map fst] in Hnd. apply List.NoDup_cons_iff in Hnd as [Hk Hnd].
  cbn [fold_left fst snd lookup]. rewrite (IH _ Hnd), lookup_dict_set.
  destruct (String.eqb_spec m k) as [->|Hne]; [|reflexivity].
  rewrite (lookup_not_in k b Hk). reflexivity.
Qed.

Lemma lookup_map_some (m : string) (d : dict Q) :
  lookup m (map (fun kv => (fst kv, Some (snd kv))) d)
  = option_map Some (lookup m d).
Proof.
  induction d as [|[k v] d IH]; [reflexivity|].
  cbn [map fst snd lookup]. destruct (String.eqb m k); [reflexivity|exact IH].
Qed.

End DictLaws.

(** ** assess_agent.py *)

Module AssessLaws.
Import Py Constants AssessAgent AssessSpec Facts DictLaws.

Lemma inject_Z_pos (z : Z) : (1 <= z)%Z -> 1 <= inject_Z z.
Proof. intros Hz. unfold Qle. cbn. lia. Qed.

Lemma penalty_pos (z : Z) : (1 <= z)%Z -> 0 < 10 / inject_Z z.
Proof.
  intros Hz. apply Qlt_shift_div_l.
  - apply Qlt_le_trans with 1; [reflexivity | apply inject_Z_pos, Hz].
  - reflexivity.
Qed.

Lemma penalise_ok violations base_score :
  Forall (fun v => (1 <= default 4%Z (Violation.severity v))%Z) violations ->
  exists b, penalise violations base_score = Ok b
            /\ b <= base_score
            /\ (violations <> [] -> b < base_score).
Proof.
  revert base_score.
  induction violations as [|v rest IH]; intros base_score Hall.
  - exists base_score. split; [reflexivity|]. split; [apply Qle_refl|].
    congruence.
  - apply Forall_cons in Hall as [Hv Hrest].
    cbn [penalise]. cbv zeta.
    destruct (Z.eqb_spec (default 4%Z (Violation.severity v)) 0) as [E|_];
      [lia|].
    destruct (IH (base_score - 10 / inject_Z (default 4%Z (Violation.severity v)))
                 Hrest) as (b & -> & Hle & _).
    pose proof (penalty_pos _ Hv) as Hpos.
    exists b. split; [reflexivity|]. split; [lra|]. intros _. lra.
Qed.

(** X3. With severities of 1 or more (as the severity table gives), the
    health score is a number between 0 and 100, and it is 100 exactly
    when there is no violation and no anomalous sample. *)
Theorem health_score_range (slo_violations : list Violation.t)
    (anomalies : gmap string (list nat)) :
  Forall (fun v => (1 <= default 4%Z (Violation.severity v))%Z)
         slo_violations ->
  exists h, _compute_health_score slo_violations anomalies = Ok h
    /\ 0 <= h /\ h <= 100
    /\ (h == 100 <-> slo_violations = [] /\ total_anomalies anomalies = O).
Proof.
  intros Hall. unfold _compute_health_score.
  destruct (penalise_ok slo_violations 100 Hall) as (b & Eb & Hle & Hlt).
  rewrite Eb. cbn [bind]. eexists. split; [reflexivity|].
  remember (total_anomalies anomalies) as n eqn:En. clear En.
  assert (Hn : 0 <= inject_Z (Z.of_nat n)) by (unfold Qle; cbn; lia).
  assert (Hn1 : n <> O -> 1 <= inject_Z (Z.of_nat n))
    by (intros; apply inject_Z_pos; lia).
  assert (Hclean : slo_violations = [] -> n = O -> b == 100
                   /\ inject_Z (Z.of_nat n) == 0).
  { intros -> ->. cbn [penalise] in Eb. injection Eb as <-.
    split; reflexivity. }
  assert (Hdirty : ~ (slo_violations = [] /\ n = O) ->
                   b - inject_Z (Z.of_nat n) * (5 # 10) < 100).
  { intros Hnot. destruct slo_violations as [|v rest].
    - destruct (Nat.eq_dec n O) as [E|Hne]; [tauto|].
      specialize (Hn1 Hne). lra.
    - assert (b < 100) by (apply Hlt; congruence). lra. }
  destruct (Q.max_spec (b - inject_Z (Z.of_nat n) * (5 # 10)) 0)
    as [[Hcmp ->]|[Hcmp ->]].
  - split; [lra|]. split; [lra|]. split.
    + intros Heq. exfalso. lra.
    + intros [Hv Ha]. destruct (Hclean Hv Ha). exfalso. lra.
  - split; [lra|]. split; [lra|]. split.
    + intros Heq.
      destruct slo_violations as [|v rest].
      * destruct (Nat.eq_dec n O) as [E|Hne]; [tauto|].
        exfalso. assert (b - inject_Z (Z.of_nat n) * (5 # 10) < 100)
          by (apply Hdirty; tauto). lra.
      * exfalso. assert (b - inject_Z (Z.of_nat n) * (5 # 10) < 100)
          by (apply Hdirty; intros [? _]; discriminate). lra.
    + intros [Hv Ha]. destruct (Hclean Hv Ha). lra.
Qed.

Lemma health_score_range_witness :
  exists h,
    _compute_health_score
      [Violation.mk "http.error.rate" 0 (5 # 100) "lt" (Some 1%Z);
       Violation.mk "cost.per.request" 0 (1 # 100) "lt" (Some 2%Z)] ∅
    = Ok h
    /\ 0 <= h /\ h <= 100
    /\ (h == 100 <->
        [Violation.mk "http.error.rate" 0 (5 # 100) "lt" (Some 1%Z);
         Violation.mk "cost.per.request" 0 (1 # 100) "lt" (Some 2%Z)] = []
        /\ total_anomalies ∅ = O).
Proof.
  apply (health_score_range
           [Violation.mk "http.error.rate" 0 (5 # 100) "lt" (Some 1%Z);
            Violation.mk "cost.per.request" 0 (1 # 100) "lt" (Some 2%Z)] ∅).
  repeat constructor; cbn; lia.
Defined.

(** *** The SLO check *)

Lemma check_entry_spec all_metrics metric_id direction threshold :
  (forall m v, lookup m all_metrics = Some v -> is_Some v) ->
  exists vs,
    check_entry all_metrics metric_id direction threshold = Ok vs
    /\ (forall v, In v vs <->
          exists x, lookup metric_id all_metrics = Some (Some x)
                    /\ breached direction x threshold
                    /\ v = Violation.mk metric_id x threshold direction
                             (Some (get METRIC_SEVERITY metric_id 4%Z)))
    /\ (length vs <= 1)%nat
    /\ Forall (fun v => Violation.metric v = metric_id) vs.
Proof.
  intros Hnum. unfold check_entry, breached.
  destruct (lookup metric_id all_metrics) as [value|] eqn:Hlook.
  2:{ exists []. split; [reflexivity|]. split; [|split; [cbn; lia|constructor]].
      intros v. split; [contradiction|]. intros (x & [=] & _). }
  destruct (Hnum _ _ Hlook) as [x ->]. cbn [num bind].
  destruct (String.eqb_spec direction "gt") as [->|Hgt].
  - destruct (Qgtb_spec x threshold) as [Hcmp|Hcmp].
    + eexists. split; [reflexivity|]. split; [|split; [cbn; lia|]].
      * intros v. cbn [In]. split.
        -- intros [<-|[]]. exists x. split; [reflexivity|].
           split; [left; split; [reflexivity|exact Hcmp]|reflexivity].
        -- intros (y & [= <-] & _ & ->). left. reflexivity.
      * repeat constructor.
    + exists []. split; [reflexivity|]. split; [|split; [cbn; lia|constructor]].
      intros v. split; [contradiction|].
      intros (y & [= <-] & [[_ Hlt]|[[=] _]] & _). lra.
  - destruct (String.eqb_spec direction "lt") as [->|Hlt].
    + destruct (Qltb_spec x threshold) as [Hcmp|Hcmp].
      * eexists. split; [reflexivity|]. split; [|split; [cbn; lia|]].
        -- intros v. cbn [In]. split.
           ++ intros [<-|[]]. exists x. split; [reflexivity|].
              split; [right; split; [reflexivity|exact Hcmp]|reflexivity].
           ++ intros (y & [= <-] & _ & ->). left. reflexivity.
        -- repeat constructor.
      * exists []. split; [reflexivity|].
        split; [|split; [cbn; lia|constructor]].
        intros v. split; [contradiction|].
        intros (y & [= <-] & [[[=] _]|[_ Hlt']] & _). lra.
    + exists []. split; [reflexivity|].
      split; [|split; [cbn; lia|constructor]].
      intros v. split; [contradiction|].
      intros (y & _ & [[E _]|[E _]] & _); congruence.
Qed.

Lemma check_entries_spec all_metrics thresholds :
  (forall m v, lookup m all_metrics = Some v -> is_Some v) ->
  exists vs,
    check_entries all_metrics thresholds = Ok vs
    /\ (forall v, In v vs <->
          exists m direction threshold x,
            In (m, (direction, threshold)) thresholds
            /\ lookup m all_metrics = Some (Some x)
            /\ breached direction x threshold
            /\ v = Violation.mk m x threshold direction
                     (Some (get METRIC_SEVERITY m 4%Z)))
    /\ sublist (map Violation.metric vs) (map fst thresholds).
Proof.
  intros Hnum.
  induction thresholds as [|[m [direction threshold]] rest IH].
  - exists []. split; [reflexivity|]. split; [|constructor].
    intros v. split; [contradiction|]. intros (? & ? & ? & ? & [] & _).
  - destruct IH as (later & Elater & Hlater & Hsub).
    destruct (check_entry_spec all_metrics m direction threshold Hnum)
      as (here & Ehere & Hhere & Hlen & Hmetric).
    exists (here ++ later). cbn [check_entries].
    rewrite Ehere, Elater. split; [reflexivity|]. split.
    + intros v. rewrite in_app_iff, Hhere, Hlater. split.
      * intros [(x & H1 & H2 & H3)|(m' & d' & t' & x & H0 & H1 & H2 & H3)].
        -- exists m, direction, threshold, x.
           split; [left; reflexivity|]. auto.
        -- exists m', d', t', x. split; [right; exact H0|]. auto.
      * intros (m' & d' & t' & x & [[= <- <- <-]|H0] & H1 & H2 & H3).
        -- left. exists x. auto.
        -- right. exists m', d', t', x. auto.
    + rewrite map_app. cbn [map fst].
      destruct here as [|v [|v' here]]; cbn [map app length] in *.
      * apply sublist_cons, Hsub.
      * apply Forall_cons in Hmetric as [-> _].
        apply sublist_skip, Hsub.
      * lia.
Qed.

Lemma derived_metrics_eq raw_metrics :
  _compute_derived_metrics raw_metrics
  = [ ("http.error.rate",
       Some (get raw_metrics "net.http.error.count" 0
             / Qmax (get raw_metrics "net.http.request.count" 1) 1));
      ("http.latency", Some (get raw_metrics "net.http.request.time" 0));
      ("http.throughput",
       Some (get raw_metrics "net.http.request.count" 0 / 60));
      ("cost.per.request",
       Some ((get raw_metrics
                  "sysdig.cost.sysdig_costs_workload_cpu_used_cost_total" 0
              + get raw_metrics
                    "sysdig.cost.sysdig_costs_workload_memory_used_cost_total" 0
              + get raw_metrics
                    "sysdig.cost.sysdig_costs_workload_storage_used_cost_total" 0)
             / Qmax (get raw_metrics "net.http.request.count" 1) 1)) ].
Proof. reflexivity. Qed.

Lemma derived_metrics_numeric raw_metrics m v :
  lookup m (_compute_derived_metrics raw_metrics) = Some v -> is_Some v.
Proof.
  rewrite derived_metrics_eq. cbn [lookup].
  repeat (destruct (String.eqb m _); [intros [= <-]; eexists; reflexivity|]).
  discriminate.
Qed.

Lemma derived_metrics_keys raw_metrics :
  List.NoDup (map fst (_compute_derived_metrics raw_metrics)).
Proof.
  rewrite derived_metrics_eq. cbn [map fst].
  repeat constructor; cbn [In]; intuition discriminate.
Qed.

Lemma all_metrics_lookup raw_metrics m :
  lookup m (dict_update (map (fun kv => (fst kv, Some (snd kv))) raw_metrics)
                        (_compute_derived_metrics raw_metrics))
  = match lookup m (_compute_derived_metrics raw_metrics) with
    | Some v => Some v
    | None => option_map Some (lookup m raw_metrics)
    end.
Proof.
  rewrite lookup_dict_update by apply derived_metrics_keys.
  rewrite lookup_map_some. reflexivity.
Qed.

Lemma all_metrics_reading raw_metrics m x :
  lookup m (dict_update (map (fun kv => (fst kv, Some (snd kv))) raw_metrics)
                        (_compute_derived_metrics raw_metrics))
  = Some (Some x)
  <-> reading raw_metrics m = Some x.
Proof.
  rewrite all_metrics_lookup. unfold reading.
  destruct (lookup m (_compute_derived_metrics raw_metrics)) as [v|] eqn:E.
  - split; [intros [= ->]; reflexivity | intros ->; reflexivity].
  - destruct (lookup m raw_metrics); cbn; split; congruence.
Qed.

Lemma slo_thresholds_keys : List.NoDup (map fst SLO_THRESHOLDS).
Proof.
  apply NoDup_ListNoDup.
  apply (bool_decide_unpack _). vm_compute. exact I.
Qed.

Lemma slo_severities :
  forall m dt, In (m, dt) SLO_THRESHOLDS ->
    (1 <= get METRIC_SEVERITY m 4 <= 6)%Z.
Proof.
  assert (H : forallb (fun kv => (1 <=? get METRIC_SEVERITY (fst kv) 4)%Z
                                 && (get METRIC_SEVERITY (fst kv) 4 <=? 6)%Z)
                      SLO_THRESHOLDS = true) by (vm_compute; reflexivity).
  intros m dt Hin. rewrite forallb_forall in H.
  specialize (H _ Hin). cbn [fst] in H. lia.
Qed.

(** X4. On numeric raw metrics the SLO check never raises; it reports a
    metric exactly when the metric has a threshold and its value (the
    derived metric of that name, else the raw one) is beyond it; no
    metric is reported twice and every severity is between 1 and 6. *)
Theorem slo_violations_exact (raw_metrics : dict Q) :
  exists vs,
    _check_slo_violations raw_metrics (_compute_derived_metrics raw_metrics)
    = Ok vs
    /\ (forall v, In v vs <->
          exists direction threshold,
            lookup (Violation.metric v) SLO_THRESHOLDS
            = Some (direction, threshold)
            /\ reading raw_metrics (Violation.metric v)
               = Some (Violation.value v)
            /\ breached direction (Violation.value v) threshold
            /\ Violation.threshold v = threshold
            /\ Violation.direction v = direction
            /\ Violation.severity v
               = Some (get METRIC_SEVERITY (Violation.metric v) 4%Z))
    /\ NoDup (map Violation.metric vs)
    /\ (forall v, In v vs ->
          exists s, Violation.severity v = Some s /\ (1 <= s <= 6)%Z).
Proof.
  unfold _check_slo_violations.
  destruct (check_entries_spec
              (dict_update
                 (map (fun kv => (fst kv, Some (snd kv))) raw_metrics)
                 (_compute_derived_metrics raw_metrics))
              SLO_THRESHOLDS) as (vs & E & Hin & Hsub).
  { intros m v. rewrite all_metrics_lookup.
    destruct (lookup m (_compute_derived_metrics raw_metrics)) as [d|] eqn:Ed.
    - intros [= <-]. apply (derived_metrics_numeric _ _ _ Ed).
    - destruct (lookup m raw_metrics); cbn; [|discriminate].
      intros [= <-]. eexists. reflexivity. }
  exists vs. split; [exact E|]. split; [|split].
  - intros v. rewrite Hin. split.
    + intros (m & d & t & x & H0 & H1 & H2 & ->).
      cbn [Violation.metric Violation.value Violation.threshold
           Violation.direction Violation.severity].
      exists d, t. apply lookup_in in H0; [|apply slo_thresholds_keys].
      apply all_metrics_reading in H1. auto 10.
    + intros (d & t & H0 & H1 & H2 & H3 & H4 & H5).
      exists (Violation.metric v), d, t, (Violation.value v).
      apply lookup_in in H0; [|apply slo_thresholds_keys].
      apply all_metrics_reading in H1.
      split; [exact H0|]. split; [exact H1|]. split; [exact H2|].
      destruct v as [m x t' d' s]. cbn in *. congruence.
  - eapply sublist_NoDup; [|exact Hsub].
    apply NoDup_ListNoDup, slo_thresholds_keys.
  - intros v Hv. apply Hin in Hv as (m & d & t & x & H0 & _ & _ & ->).
    eexists. split; [reflexivity|]. apply (slo_severities _ _ H0).
Qed.

Lemma slo_violation_reported raw_metrics m direction threshold x vs :
  _check_slo_violations raw_metrics (_compute_derived_metrics raw_metrics)
  = Ok vs ->
  lookup m SLO_THRESHOLDS = Some (direction, threshold) ->
  reading raw_metrics m = Some x ->
  breached direction x threshold ->
  In (Violation.mk m x threshold direction
                   (Some (get METRIC_SEVERITY m 4%Z))) vs.
Proof.
  unfold _check_slo_violations. intros E Hth Hread Hbreach.
  destruct (check_entries_spec
              (dict_update
                 (map (fun kv => (fst kv, Some (snd kv))) raw_metrics)
                 (_compute_derived_metrics raw_metrics))
              SLO_THRESHOLDS) as (vs' & E' & Hin & _).
  { intros k v. rewrite all_metrics_lookup.
    destruct (lookup k (_compute_derived_metrics raw_metrics)) as [d|] eqn:Ed.
    - intros [= <-]. apply (derived_metrics_numeric _ _ _ Ed).
    - destruct (lookup k raw_metrics); cbn; [|discriminate].
      intros [= <-]. eexists. reflexivity. }
  rewrite E in E'. injection E' as <-. apply Hin.
  exists m, direction, threshold, x.
  split; [apply lookup_in; [apply slo_thresholds_keys|exact Hth]|].
  split; [apply all_metrics_reading, Hread|]. split; [exact Hbreach|].
  reflexivity.
Qed.

(** *** Reading the telemetry response *)

Lemma series_of_column idx data series :
  series_of idx data = Ok series -> series = column idx data.
Proof.
  revert series. induction data as [|row rest IH]; intros series.
  - intros [= <-]. reflexivity.
  - cbn [series_of]. unfold column. cbn [omap list_omap].
    destruct (row !! idx) as [sample|]; [|discriminate].
    destruct (series_of idx rest) as [later|]; [|discriminate].
    cbn [bind default]. intros [= <-]. rewrite (IH later eq_refl).
    destruct sample; reflexivity.
Qed.

Lemma series_of_ok idx data :
  Forall (fun row : list value => (idx < length row)%nat) data ->
  series_of idx data = Ok (column idx data).
Proof.
  induction 1 as [|row rest Hrow _ IH]; [reflexivity|].
  cbn [series_of]. unfold column. cbn [omap list_omap].
  destruct (lookup_lt_is_Some_2 row idx Hrow) as [sample ->].
  fold (column idx rest). rewrite IH. cbn [bind default].
  destruct sample; reflexivity.
Qed.

Lemma series_of_short idx data :
  Exists (fun row : list value => (length row <= idx)%nat) data ->
  series_of idx data = Raise (OtherError "IndexError").
Proof.
  induction data as [|row rest IH]; intros Hex.
  - apply Exists_nil in Hex. contradiction.
  - cbn [series_of]. destruct (row !! idx) as [sample|] eqn:E; [|reflexivity].
    apply Exists_cons in Hex as [Hshort|Hex].
    + apply lookup_lt_Some in E. lia.
    + rewrite (IH Hex). reflexivity.
Qed.

Lemma extract_from_spec idx ids data latest :
  NoDup ids ->
  Forall (fun row : list value => (idx + length ids <= length row)%nat) data ->
  exists raw,
    extract_from idx ids data latest = Ok raw
    /\ (forall i mid, ids !! i = Some mid ->
          lookup mid raw
          = match last (column (idx + i) data) with
            | Some x => Some x
            | None => lookup mid latest
            end)
    /\ (forall m, m ∉ ids -> lookup m raw = lookup m latest).
Proof.
  revert idx latest. induction ids as [|mid rest IH]; intros idx latest Hnd Hrows.
  - exists latest. split; [reflexivity|]. split; [|reflexivity].
    intros i m. rewrite lookup_nil. discriminate.
  - apply NoDup_cons in Hnd as [Hfresh Hnd]. cbn [extract_from length] in *.
    rewrite series_of_ok by (eapply Forall_impl; [exact Hrows|]; cbn; lia).
    cbn [bind].
    destruct (IH (S idx)
                 (match last (column idx data) with
                  | Some x => dict_set mid x latest
                  | None => latest
                  end) Hnd) as (raw & E & Hin & Hout).
    { eapply Forall_impl; [exact Hrows|]. cbn. lia. }
    exists raw. split; [exact E|]. split.
    + intros [|i] m; cbn [lookup list_lookup].
      * intros [= <-]. rewrite (Hout _ Hfresh), Nat.add_0_r.
        destruct (last (column idx data)); [|reflexivity].
        rewrite lookup_dict_set, String.eqb_refl. reflexivity.
      * intros Hm. rewrite (Hin _ _ Hm).
        replace (S idx + i)%nat with (idx + S i)%nat by lia.
        destruct (last (column (idx + S i) data)); [reflexivity|].
        destruct (last (column idx data)); [|reflexivity].
        rewrite lookup_dict_set.
        destruct (String.eqb_spec m mid) as [->|_]; [|reflexivity].
        exfalso. apply Hfresh. eapply list_elem_of_lookup_2, Hm.
    + intros m Hm. apply not_elem_of_cons in Hm as [Hne Hm].
      rewrite (Hout _ Hm).
      destruct (last (column idx data)); [|reflexivity].
      rewrite lookup_dict_set.
      destruct (String.eqb_spec m mid); [congruence|reflexivity].
Qed.

Lemma extract_from_short idx ids data latest :
  Forall (fun row : list value => (idx <= length row)%nat) data ->
  Exists (fun row : list value => (length row < idx + length ids)%nat) data ->
  extract_from idx ids data latest = Raise (OtherError "IndexError").
Proof.
  revert idx latest.
  induction ids as [|mid rest IH]; intros idx latest Hlong Hshort.
  - exfalso. cbn [length] in Hshort.
    apply Exists_exists in Hshort as (row & Hrow & Hlen).
    rewrite Forall_forall in Hlong. specialize (Hlong _ Hrow). lia.
  - cbn [extract_from].
    destruct (decide (Exists (fun row : list value => (length row <= idx)%nat)
                             data)) as [Hex|Hall].
    + rewrite (series_of_short _ _ Hex). reflexivity.
    + apply not_Exists_Forall in Hall; [|intros ?; apply _].
      rewrite series_of_ok
        by (eapply Forall_impl; [exact Hall|]; cbn; intros; lia).
      cbn [bind]. apply IH.
      * eapply Forall_impl; [exact Hall|]. cbn. intros. lia.
      * eapply Exists_impl; [exact Hshort|]. cbn [length]. intros. lia.
Qed.

(** X5. When every row of the response has a sample slot for each
    requested metric (and no metric is requested twice), the latest value
    of a metric is its last non-missing sample; a metric without any
    sample, and any metric not requested, is absent from the result. *)
Theorem latest_values_are_last_samples (data : list (list value))
    (metric_defs : list string) :
  NoDup metric_defs ->
  Forall (fun row : list value => (length metric_defs <= length row)%nat)
         data ->
  exists raw_metrics,
    _extract_latest_values data metric_defs = Ok raw_metrics
    /\ (forall i mid, metric_defs !! i = Some mid ->
          lookup mid raw_metrics = last (column i data))
    /\ (forall m, m ∉ metric_defs -> lookup m raw_metrics = None).
Proof.
  intros Hnd Hrows. unfold _extract_latest_values.
  destruct (extract_from_spec 0 metric_defs data [] Hnd Hrows)
    as (raw & E & Hin & Hout).
  exists raw. split; [exact E|]. split.
  - intros i mid Hi. rewrite (Hin _ _ Hi). cbn [Nat.add lookup].
    destruct (last (column i data)); reflexivity.
  - intros m Hm. rewrite (Hout _ Hm). reflexivity.
Qed.

Lemma latest_values_are_last_samples_witness :
  exists raw_metrics,
    _extract_latest_values
      [[Some 3; None]; [Some 4; None]; [None; None]] ["a"; "b"]
    = Ok raw_metrics
    /\ (forall i mid, ["a"; "b"] !! i = Some mid ->
          lookup mid raw_metrics
          = last (column i [[Some 3; None]; [Some 4; None]; [None; None]]))
    /\ (forall m, m ∉ ["a"; "b"] -> lookup m raw_metrics = None).
Proof.
  apply (latest_values_are_last_samples
           [[Some 3; None]; [Some 4; None]; [None; None]] ["a"; "b"]).
  - apply (bool_decide_unpack _). vm_compute. exact I.
  - repeat constructor.
Defined.

(** *** Anomaly detection *)

Lemma flagged_bounds i preds j :
  In j (flagged i preds) -> (i <= j < i + length preds)%nat.
Proof.
  revert i. induction preds as [|p rest IH]; intros i; [contradiction|].
  cbn [flagged length]. destruct (p =? -1)%Z; cbn [In].
  - intros [<-|Hin]; [lia|]. apply IH in Hin. lia.
  - intros Hin. apply IH in Hin. lia.
Qed.

Section Detection.
Variable fit_predict : list Q -> list Z.

Lemma detect_from_spec idx ids data anomalies result :
  detect_from fit_predict idx ids data anomalies = Ok result ->
  forall mid indices, result !! mid = Some indices ->
    anomalies !! mid = Some indices
    \/ (indices <> []
        /\ exists i, ids !! i = Some mid
             /\ (10 <= length (column (idx + i) data))%nat
             /\ indices = flagged 0 (fit_predict (column (idx + i) data))).
Proof.
  revert idx anomalies.
  induction ids as [|m rest IH]; intros idx anomalies.
  - intros [= <-] mid indices Hm. left. exact Hm.
  - cbn [detect_from].
    destruct (series_of idx data) as [series|] eqn:Es; [|discriminate].
    apply series_of_column in Es. subst series. cbn [bind].
    assert (Hshift : forall mid indices,
      (indices <> []
       /\ exists i, rest !! i = Some mid
            /\ (10 <= length (column (S idx + i) data))%nat
            /\ indices = flagged 0 (fit_predict (column (S idx + i) data))) ->
      (indices <> []
       /\ exists i, (m :: rest) !! i = Some mid
            /\ (10 <= length (column (idx + i) data))%nat
            /\ indices = flagged 0 (fit_predict (column (idx + i) data)))).
    { intros mid indices (Hne & i & H1 & H2 & H3). split; [exact Hne|].
      exists (S i). replace (idx + S i)%nat with (S idx + i)%nat by lia.
      auto. }
    destruct (Nat.ltb_spec (length (column idx data)) 10) as [Hfew|Hmany].
    + intros Hres mid indices Hm.
      destruct (IH _ _ Hres _ _ Hm) as [Hold|Hnew]; [left; exact Hold|].
      right. apply Hshift, Hnew.
    + destruct (flagged 0 (fit_predict (column idx data)))
        as [|j js] eqn:Eflag.
      * intros Hres mid indices Hm.
        destruct (IH _ _ Hres _ _ Hm) as [Hold|Hnew]; [left; exact Hold|].
        right. apply Hshift, Hnew.
      * intros Hres mid indices Hm.
        destruct (IH _ _ Hres _ _ Hm) as [Hold|Hnew];
          [|right; apply Hshift, Hnew].
        destruct (decide (mid = m)) as [->|Hne].
        -- rewrite lookup_insert_eq in Hold. injection Hold as <-.
           right. split; [discriminate|]. exists O.
           rewrite Nat.add_0_r. split; [reflexivity|].
           split; [exact Hmany|]. symmetry. exact Eflag.
        -- rewrite lookup_insert_ne in Hold by congruence.
           left. exact Hold.
Qed.

(** X6. Whatever the detector predicts, a metric is reported anomalous
    only if it was requested and has at least 10 samples in the window;
    its index list is never empty, is the detector's verdict on exactly
    those samples, and points inside the series. *)
Theorem anomalies_need_ten_samples (data : list (list value))
    (metric_defs : list string) (anomalies : gmap string (list nat))
    (mid : string) (indices : list nat) :
  _detect_anomalies fit_predict data metric_defs = Ok anomalies ->
  anomalies !! mid = Some indices ->
  indices <> []
  /\ exists i, metric_defs !! i = Some mid
       /\ (10 <= length (column i data))%nat
       /\ indices = flagged 0 (fit_predict (column i data))
       /\ Forall (fun j => (j < length (fit_predict (column i data)))%nat)
                 indices.
Proof.
  intros Hdetect Hmid. unfold _detect_anomalies in Hdetect.
  destruct (detect_from_spec _ _ _ _ _ Hdetect _ _ Hmid)
    as [Hempty|(Hne & i & H1 & H2 & H3)].
  - rewrite lookup_empty in Hempty. discriminate.
  - split; [exact Hne|]. exists i. cbn [Nat.add] in *.
    split; [exact H1|]. split; [exact H2|]. split; [exact H3|].
    apply Forall_forall. intros j Hj. rewrite H3 in Hj.
    apply list_elem_of_In, flagged_bounds in Hj. lia.
Qed.

(** X7. A row of the response with fewer sample slots than requested
    metrics makes [assess] raise [IndexError], whatever else the
    response holds. *)
Theorem short_row_raises (self : AssessAgent.t) (metrics : list string)
    (service : string) (data : list (list value)) :
  Exists (fun row : list value => (length row < length metrics)%nat) data ->
  assess fit_predict self metrics service (Some data)
  = Raise (OtherError "IndexError").
Proof.
  intros Hshort. unfold assess, _extract_latest_values.
  rewrite extract_from_short; [reflexivity| |exact Hshort].
  apply Forall_forall. intros. lia.
Qed.

End Detection.

Lemma anomalies_need_ten_samples_witness :
  [0%nat] <> []
  /\ exists i, ["cpu.used.percent"] !! i = Some "cpu.used.percent"
       /\ (10 <= length (column i (replicate 12 [Some 1%Q])))%nat
       /\ [0%nat]
          = flagged 0 ((fun series => (-1)%Z :: map (fun _ => 1%Z) (tail series))
                         (column i (replicate 12 [Some 1%Q])))
       /\ Forall (fun j =>
                    (j < length ((fun series =>
                                    (-1)%Z :: map (fun _ => 1%Z) (tail series))
                                   (column i (replicate 12 [Some 1%Q]))))%nat)
                 [0%nat].
Proof.
  apply (anomalies_need_ten_samples
           (fun series => (-1)%Z :: map (fun _ => 1%Z) (tail series))
           (replicate 12 [Some 1%Q]) ["cpu.used.percent"]
           {[ "cpu.used.percent" := [0%nat] ]} "cpu.used.percent" [0%nat]);
    vm_compute; reflexivity.
Defined.

Lemma short_row_raises_witness :
  assess (fun _ => []) (AssessAgent.mk ∅) ["cpu.used.percent"; "proc.count"]
         "svc" (Some [[Some 1; Some 2]; [Some 1]])
  = Raise (OtherError "IndexError").
Proof.
  apply (short_row_raises (fun _ => []) (AssessAgent.mk ∅)
           ["cpu.used.percent"; "proc.count"] "svc"
           [[Some 1; Some 2]; [Some 1]]).
  apply Exists_cons_tl, Exists_cons_hd. cbn. lia.
Defined.

(** *** The assessment history *)

Lemma lastn_all {A} (n : nat) (l : list A) :
  (length l <= n)%nat -> lastn n l = l.
Proof.
  intros Hlen. unfold lastn.
  replace (length l - n)%nat with O by lia. reflexivity.
Qed.

Lemma lastn_length {A} (n : nat) (l : list A) :
  length (lastn n l) = Nat.min n (length l).
Proof. unfold lastn. rewrite length_drop. lia. Qed.

Lemma lastn_snoc {A} (n : nat) (l : list A) (x : A) :
  (1 <= n)%nat -> lastn n (lastn n l ++ [x]) = lastn n (l ++ [x]).
Proof.
  intros Hn. destruct (Nat.le_gt_cases (length l) n) as [Hle|Hgt].
  - rewrite (lastn_all n l Hle). reflexivity.
  - unfold lastn at 1 3. rewrite !length_app, lastn_length. cbn [length].
    replace (Nat.min n (length l) + 1 - n)%nat with 1%nat by lia.
    unfold lastn. rewrite !drop_app_le by (rewrite ?length_drop; lia).
    rewrite drop_drop. f_equal. f_equal. lia.
Qed.

Lemma lastn_lastn {A} (k n : nat) (l : list A) :
  (k <= n)%nat -> lastn k (lastn n l) = lastn k l.
Proof.
  intros Hkn. unfold lastn at 1. rewrite lastn_length.
  unfold lastn. rewrite drop_drop. f_equal. lia.
Qed.

Lemma slice_from_lastn {A} (k : nat) (l : list A) :
  (0 < k)%nat -> slice_from (- Z.of_nat k) l = lastn k l.
Proof. apply PyLaws.slice_from_last. Qed.

Lemma update_history_same service snapshot self :
  metric_history (_update_history service snapshot self) !! service
  = Some (lastn 100 (default [] (metric_history self !! service)
                     ++ [snapshot])).
Proof.
  unfold _update_history. cbn [metric_history]. rewrite lookup_insert_eq.
  f_equal. cbv zeta.
  destruct (Nat.ltb_spec 100
              (length (default [] (metric_history self !! service)
                       ++ [snapshot]))) as [Hlong|Hshort].
  - apply (slice_from_lastn 100). lia.
  - symmetry. apply lastn_all. exact Hshort.
Qed.

Lemma update_history_other service snapshot self other :
  other <> service ->
  metric_history (_update_history service snapshot self) !! other
  = metric_history self !! other.
Proof.
  intros Hne. unfold _update_history. cbn [metric_history].
  apply lookup_insert_ne. congruence.
Qed.

Lemma update_history_fold service snapshots self :
  snapshots <> [] ->
  metric_history
    (fold_left (fun a s => _update_history service s a) snapshots self)
  !! service
  = Some (lastn 100 (default [] (metric_history self !! service)
                     ++ snapshots)).
Proof.
  induction snapshots as [|x xs IH] using rev_ind; [congruence|].
  intros _. rewrite fold_left_app. cbn [fold_left].
  rewrite update_history_same.
  destruct xs as [|x' xs]; [reflexivity|].
  rewrite IH by discriminate. cbn [default from_option]. unfold id.
  rewrite lastn_snoc by lia. rewrite app_assoc. reflexivity.
Qed.

Lemma update_history_fold_other service snapshots self other :
  other <> service ->
  metric_history
    (fold_left (fun a s => _update_history service s a) snapshots self)
  !! other
  = metric_history self !! other.
Proof.
  intros Hne. revert self.
  induction snapshots as [|s rest IH]; intros self; [reflexivity|].
  cbn [fold_left]. rewrite IH. apply update_history_other, Hne.
Qed.

(** X8. The history of a service keeps its 100 most recent snapshots:
    after any number of assessments of a service without earlier history,
    [get_history] with a lookback [k] between 1 and 100 returns the last
    [k] snapshots in order; with a lookback of 0 it returns everything
    kept (the last 100); the histories of other services are untouched. *)
Theorem history_keeps_last_hundred (self : AssessAgent.t)
    (service other : string) (snapshots : list Snapshot.t) (k : nat) :
  metric_history self !! service = None ->
  snapshots <> [] ->
  (1 <= k <= 100)%nat ->
  other <> service ->
  let self' :=
    fold_left (fun a s => _update_history service s a) snapshots self in
  get_history self' service (Z.of_nat k) = lastn k snapshots
  /\ get_history self' service 0 = lastn 100 snapshots
  /\ get_history self' other (Z.of_nat k)
     = get_history self other (Z.of_nat k).
Proof.
  intros Hnew Hne Hk Hother self'. unfold get_history, self'.
  rewrite update_history_fold by assumption.
  rewrite update_history_fold_other by assumption.
  rewrite Hnew. cbn [default from_option app]. unfold id.
  split; [|split; [|reflexivity]].
  - rewrite slice_from_lastn by lia. apply lastn_lastn. lia.
  - apply PyLaws.slice_from_zero.
Qed.

Lemma history_keeps_last_hundred_witness :
  get_history
    (fold_left (fun a s => _update_history "svc" s a)
               [WeighSpec.quiet_snapshot; WeighSpec.scenario]
               (AssessAgent.mk ∅))
    "svc" 1
  = [WeighSpec.scenario].
Proof.
  apply (history_keeps_last_hundred (AssessAgent.mk ∅) "svc" "other"
           [WeighSpec.quiet_snapshot; WeighSpec.scenario] 1).
  - reflexivity.
  - discriminate.
  - lia.
  - discriminate.
Defined.

End AssessLaws.

(** ** weigh_agent.py *)

Module WeighLaws.
Import Py Constants WeighAgent WeighSpec Facts WeighFacts.

(** The candidates the six rules produce on numeric metrics. *)
Local Abbreviation rules service e l t c violations anomalies :=
  (horizontal_rule service e l t ++ vertical_rule service c
     ++ emergency_rule service violations
     ++ restart_rule service anomalies).

Lemma rules_length service e l t c violations anomalies :
  (length (rules service e l t c violations anomalies) <= 4)%nat.
Proof.
  rewrite !length_app.
  unfold horizontal_rule, vertical_rule, emergency_rule, restart_rule.
  destruct (Qgtb e _ || Qgtb l _);
    [|destruct (Qltb e _ && (Qltb l _ && Qltb t _))];
    (destruct (Qgtb c _); [|destruct (Qltb c _)]);
    destruct (critical violations); destruct (5 <? size anomalies)%nat;
    cbn [length]; lia.
Qed.

Lemma rule_candidate_utility dm h service e l t c violations anomalies a :
  get dm "cost.per.request" (Some 0) = Some c ->
  In a (rules service e l t c violations anomalies) ->
  exists u, utility_of dm h a = Ok u
            /\ (0 <= h -> h <= 100 -> 0 <= c -> 0 <= u /\ u <= 120).
Proof.
  intros Hc Hin.
  apply in_app_or in Hin as [Hin|Hin];
    [|apply in_app_or in Hin as [Hin|Hin];
      [|apply in_app_or in Hin as [Hin|Hin]]].
  - unfold horizontal_rule in Hin.
    destruct (Qgtb e _ || Qgtb l _);
      [|destruct (Qltb e _ && (Qltb l _ && Qltb t _))];
      cbn [In] in Hin; try contradiction; destruct Hin as [<-|[]].
    + rewrite utility_scale_out. eexists. split; [reflexivity|].
      intros. unfold rising. qconst. split; lra.
    + rewrite utility_scale_in. eexists. split; [reflexivity|].
      intros. qconst. split; lra.
  - unfold vertical_rule in Hin.
    destruct (Qgtb c _); [|destruct (Qltb c _)];
      cbn [In] in Hin; try contradiction; destruct Hin as [<-|[]].
    + rewrite (utility_resize_up _ _ _ _ Hc). eexists.
      split; [reflexivity|]. intros _ _ Hpos.
      destruct (Q.min_spec (c / (1 # 1000)) 2) as [[Hm ->]|[Hm ->]];
        qconst; split; lra.
    + rewrite (utility_resize_down _ _ _ _ Hc). eexists.
      split; [reflexivity|]. intros _ _ Hpos.
      destruct (Q.max_spec (1 - c / (1 # 1000)) (5 # 10)) as [[Hm ->]|[Hm ->]];
        qconst; split; lra.
  - unfold emergency_rule in Hin.
    destruct (critical violations); cbn [In] in Hin; try contradiction.
    destruct Hin as [<-|[]]. rewrite utility_emergency. eexists.
    split; [reflexivity|]. intros. unfold rising. qconst. split; lra.
  - unfold restart_rule in Hin.
    destruct (5 <? size anomalies)%nat; cbn [In] in Hin; try contradiction.
    destruct Hin as [<-|[]]. rewrite utility_restart. eexists.
    split; [reflexivity|]. intros. unfold rising. qconst. split; lra.
Qed.

(** Scoring a list of candidates that all have a utility. *)
Lemma evaluate_utilities_ok candidates dm h (P : Q -> Prop) :
  (forall a, In a candidates ->
     exists u, utility_of dm h a = Ok u /\ P u) ->
  exists evaluated,
    _evaluate_utilities candidates dm h = Ok evaluated
    /\ length evaluated = length candidates
    /\ (forall b, In b evaluated -> P (Action.get_utility b))
    /\ (candidates <> [] -> evaluated <> []).
Proof.
  induction candidates as [|a rest IH]; intros Hall.
  - exists []. split; [reflexivity|]. split; [reflexivity|].
    split; [contradiction|congruence].
  - destruct (Hall a (or_introl eq_refl)) as (u & Eu & Hu).
    destruct IH as (ev & Eev & Hlen & Hev & _).
    { intros b Hb. apply Hall. right. exact Hb. }
    cbn [_evaluate_utilities]. rewrite Eu, Eev. cbn [bind].
    eexists. split; [reflexivity|]. split; [cbn [length]; lia|].
    split; [|discriminate].
    intros b [<-|Hb]; [exact Hu | apply Hev, Hb].
Qed.

(** The values of [utility_scores] are utilities of scored candidates. *)
Lemma utility_scores_from evaluated name u :
  utility_scores_of evaluated !! name = Some u ->
  exists b, In b evaluated /\ Action.get_utility b = u.
Proof.
  unfold utility_scores_of.
  assert (Hgen : forall m : gmap string Q,
    fold_left (fun m a => <[Action.name a := Action.get_utility a]> m)
              evaluated m !! name = Some u ->
    m !! name = Some u
    \/ exists b, In b evaluated /\ Action.get_utility b = u).
  { induction evaluated as [|a rest IH]; intros m; cbn [fold_left].
    - intros Hm. left. exact Hm.
    - intros Hm. destruct (IH _ Hm) as [Hhere|(b & Hb & Eb)].
      + destruct (decide (Action.name a = name)) as [E|Hne].
        * rewrite E, lookup_insert_eq in Hhere. injection Hhere as <-.
          right. exists a. split; [left; reflexivity|reflexivity].
        * rewrite lookup_insert_ne in Hhere by exact Hne. left. exact Hhere.
      + right. exists b. split; [right; exact Hb|exact Eb]. }
  intros Hm. destruct (Hgen ∅ Hm) as [Hempty|Hfound]; [|exact Hfound].
  rewrite lookup_empty in Hempty. discriminate.
Qed.

Lemma first_max_some {A} (key : A -> Q) (l : list A) :
  l <> [] -> exists b, first_max key l = Some b.
Proof.
  destruct l as [|a l]; [congruence|]. intros _. cbn [first_max].
  destruct (first_max key l) as [y|]; [destruct (Qgtb _ _)|]; eauto.
Qed.

(** The decision of [weigh] on a snapshot whose four metrics are
    numbers. *)
Lemma weigh_numeric self snapshot service e l t c (P : Q -> Prop) :
  get (Snapshot.derived_metrics snapshot) "http.error.rate" (Some 0) = Some e ->
  get (Snapshot.derived_metrics snapshot) "http.latency" (Some 0) = Some l ->
  get (Snapshot.derived_metrics snapshot) "http.throughput" (Some 0) = Some t ->
  get (Snapshot.derived_metrics snapshot) "cost.per.request" (Some 0) = Some c ->
  (forall a,
     In a (rules service e l t c (Snapshot.slo_violations snapshot)
                 (Snapshot.anomalies snapshot)) ->
     forall u, utility_of (Snapshot.derived_metrics snapshot)
                          (Snapshot.health_score snapshot) a = Ok u -> P u) ->
  exists evaluated,
    length evaluated
    = length (rules service e l t c (Snapshot.slo_violations snapshot)
                    (Snapshot.anomalies snapshot))
    /\ (forall b, In b evaluated -> P (Action.get_utility b))
    /\ weigh self snapshot service
       = Ok (WeighAgent.mk (knowledge_base self)
               (decision_history self
                ++ [Decision.mk service (_select_actions self evaluated)
                      (_build_rationale (_select_actions self evaluated)
                                        snapshot)
                      (length evaluated)
                      (_compute_confidence (_select_actions self evaluated)
                         (Snapshot.health_score snapshot))
                      (utility_scores_of evaluated)]),
             Decision.mk service (_select_actions self evaluated)
               (_build_rationale (_select_actions self evaluated) snapshot)
               (length evaluated)
               (_compute_confidence (_select_actions self evaluated)
                  (Snapshot.health_score snapshot))
               (utility_scores_of evaluated)).
Proof.
  intros He Hl Ht Hc HP. unfold weigh. cbv zeta.
  rewrite (generate_candidates_numeric _ _ _ service e l t c He Hl Ht Hc).
  cbn [bind].
  destruct (evaluate_utilities_ok
              (rules service e l t c (Snapshot.slo_violations snapshot)
                     (Snapshot.anomalies snapshot))
              (Snapshot.derived_metrics snapshot)
              (Snapshot.health_score snapshot) P)
    as (ev & Eev & Hlen & Hev & _).
  { intros a Ha.
    destruct (rule_candidate_utility _ (Snapshot.health_score snapshot)
                _ _ _ _ _ _ _ _ Hc Ha) as (u & Eu & _).
    exists u. split; [exact Eu | apply (HP a Ha u Eu)]. }
  exists ev. split; [exact Hlen|]. split; [exact Hev|].
  rewrite Eev. cbn [bind]. rewrite Hlen. reflexivity.
Qed.

(** X9. On a snapshot whose four derived metrics are numbers, [weigh]
    returns a decision and records it as the latest entry of the history
    (the one [get_decision_history] returns for a lookback of 1); it
    evaluates at most four candidates and selects at most one action,
    none only when no candidate was generated; no entry of
    [utility_scores] exceeds the utility of the selected action. *)
Theorem weigh_selects_one_best (self : WeighAgent.t) (snapshot : Snapshot.t)
    (service : string) :
  EnrichSpec.numeric snapshot "http.error.rate" ->
  EnrichSpec.numeric snapshot "http.latency" ->
  EnrichSpec.numeric snapshot "http.throughput" ->
  EnrichSpec.numeric snapshot "cost.per.request" ->
  exists self' decision,
    weigh self snapshot service = Ok (self', decision)
    /\ decision_history self' = decision_history self ++ [decision]
    /\ get_decision_history self' 1 = [decision]
    /\ (Decision.candidates_evaluated decision <= 4)%nat
    /\ (length (Decision.actions decision) <= 1)%nat
    /\ (Decision.actions decision = []
        <-> Decision.candidates_evaluated decision = O)
    /\ (forall best name u,
          In best (Decision.actions decision) ->
          Decision.utility_scores decision !! name = Some u ->
          u <= Action.get_utility best).
Proof.
  intros [e He] [l Hl] [t Ht] [c Hc].
  destruct (weigh_numeric self snapshot service e l t c (fun _ => True)
              He Hl Ht Hc) as (ev & Hlen & _ & ->); [auto|].
  eexists _, _. split; [reflexivity|].
  unfold get_decision_history.
  cbn [decision_history Decision.candidates_evaluated Decision.actions
       Decision.utility_scores].
  split; [reflexivity|].
  split; [apply PyLaws.slice_from_snoc|].
  split; [rewrite Hlen; apply rules_length|].
  rewrite select_actions_first_max.
  destruct (first_max Action.get_utility ev) as [best|] eqn:Ebest.
  - split; [cbn; lia|]. split.
    + split; [discriminate|]. intros Hzero. exfalso.
      apply first_max_in in Ebest. destruct ev; [contradiction|discriminate].
    + intros b name u [<-|[]] Hscore.
      apply utility_scores_from in Hscore as (a & Ha & <-).
      apply (first_max_upper _ _ _ Ebest _ Ha).
  - split; [cbn; lia|]. split.
    + split; [|reflexivity]. intros _.
      destruct ev as [|a ev]; [reflexivity|].
      destruct (first_max_some Action.get_utility (a :: ev)) as [b Eb];
        [discriminate|congruence].
    + intros b name u [].
Qed.

Lemma weigh_selects_one_best_witness :
  exists self' decision,
    weigh (WeighAgent.mk None []) scenario "svc" = Ok (self', decision)
    /\ decision_history self' = [] ++ [decision]
    /\ get_decision_history self' 1 = [decision]
    /\ (Decision.candidates_evaluated decision <= 4)%nat
    /\ (length (Decision.actions decision) <= 1)%nat
    /\ (Decision.actions decision = []
        <-> Decision.candidates_evaluated decision = O)
    /\ (forall best name u,
          In best (Decision.actions decision) ->
          Decision.utility_scores decision !! name = Some u ->
          u <= Action.get_utility best).
Proof.
  apply (weigh_selects_one_best (WeighAgent.mk None []) scenario "svc");
    eexists; reflexivity.
Defined.

(** X10. With a health score between 0 and 100 and a cost per request
    that is not negative, every utility [weigh] assigns is between 0 and
    120 and the confidence of its decision is between 0 and 1. *)
Theorem utilities_and_confidence_bounded (self : WeighAgent.t)
    (snapshot : Snapshot.t) (service : string) (c : Q) :
  EnrichSpec.numeric snapshot "http.error.rate" ->
  EnrichSpec.numeric snapshot "http.latency" ->
  EnrichSpec.numeric snapshot "http.throughput" ->
  get (Snapshot.derived_metrics snapshot) "cost.per.request" (Some 0)
  = Some c ->
  0 <= c ->
  0 <= Snapshot.health_score snapshot ->
  Snapshot.health_score snapshot <= 100 ->
  exists self' decision,
    weigh self snapshot service = Ok (self', decision)
    /\ 0 <= Decision.confidence decision
    /\ Decision.confidence decision <= 1
    /\ (forall name u,
          Decision.utility_scores decision !! name = Some u ->
          0 <= u /\ u <= 120).
Proof.
  intros [e He] [l Hl] [t Ht] Hc Hpos Hh0 Hh100.
  destruct (weigh_numeric self snapshot service e l t c
              (fun u => 0 <= u /\ u <= 120) He Hl Ht Hc)
    as (ev & Hlen & Hev & ->).
  { intros a Ha u Eu.
    destruct (rule_candidate_utility _ (Snapshot.health_score snapshot)
                _ _ _ _ _ _ _ _ Hc Ha) as (u' & Eu' & Hb).
    rewrite Eu in Eu'. injection Eu' as <-. apply Hb; assumption. }
  eexists _, _. split; [reflexivity|].
  cbn [Decision.confidence Decision.utility_scores].
  split; [|split].
  - rewrite select_actions_first_max.
    destruct (first_max Action.get_utility ev) as [best|] eqn:Ebest.
    + cbn [_compute_confidence map fold_left].
      destruct (Hev best (first_max_in _ _ _ Ebest)) as [H0 _].
      apply Q.min_glb; [qconst; lra|discriminate].
    + cbn [_compute_confidence]. destruct (Qgtb _ _); discriminate.
  - rewrite select_actions_first_max.
    destruct (first_max Action.get_utility ev) as [best|];
      cbn [_compute_confidence map fold_left].
    + apply Q.le_min_r.
    + destruct (Qgtb _ _); discriminate.
  - intros name u Hscore.
    apply utility_scores_from in Hscore as (b & Hb & <-). apply Hev, Hb.
Qed.

Lemma utilities_and_confidence_bounded_witness :
  exists self' decision,
    weigh (WeighAgent.mk None []) healthy_with_errors "svc"
    = Ok (self', decision)
    /\ 0 <= Decision.confidence decision
    /\ Decision.confidence decision <= 1
    /\ (forall name u,
          Decision.utility_scores decision !! name = Some u ->
          0 <= u /\ u <= 120).
Proof.
  apply (utilities_and_confidence_bounded (WeighAgent.mk None [])
           healthy_with_errors "svc" (8 # 10000));
    try (eexists; reflexivity); try reflexivity; discriminate.
Defined.

(** X11. A derived metric that is [None] makes [weigh] raise
    [TypeError]: this holds for the error rate, the latency and the cost
    per request (no decision is made or recorded). *)
Theorem weigh_rejects_missing_metric (self : WeighAgent.t)
    (snapshot : Snapshot.t) (service : string) :
  get (Snapshot.derived_metrics snapshot) "http.error.rate" (Some 0) = None
  \/ get (Snapshot.derived_metrics snapshot) "http.latency" (Some 0) = None
  \/ get (Snapshot.derived_metrics snapshot) "cost.per.request" (Some 0) = None ->
  weigh self snapshot service = Raise TypeError.
Proof.
  intros Hnone. unfold weigh, _generate_candidates. cbv zeta.
  change (get THRESHOLDS "http.error.rate" (5 # 100)) with (5 # 100).
  change (get THRESHOLDS "http.latency" (1000 # 1)) with (1000 # 1).
  change (get THRESHOLDS "http.throughput" (10 # 1)) with (10 # 1).
  change (get THRESHOLDS "cost.per.request" (1 # 1000)) with (1 # 1000).
  unfold or_else, and_then, gt, lt.
  destruct (get (Snapshot.derived_metrics snapshot) "http.error.rate" (Some 0))
    as [e|]; [|reflexivity].
  destruct (get (Snapshot.derived_metrics snapshot) "http.latency" (Some 0))
    as [l|].
  - destruct (get (Snapshot.derived_metrics snapshot) "cost.per.request"
                  (Some 0)) as [c|];
      [exfalso; destruct Hnone as [H|[H|H]]; discriminate|].
    cbn [num bind].
    destruct (Qgtb e (5 # 100)), (Qgtb l (1000 # 1)); cbn [bind orb];
      try reflexivity.
    destruct (Qltb e _); cbn [bind]; [|reflexivity].
    destruct (Qltb l _); cbn [bind]; [|reflexivity].
    destruct (get (Snapshot.derived_metrics snapshot) "http.throughput"
                  (Some 0)); cbn [num bind]; [|reflexivity].
    destruct (Qltb _ _); reflexivity.
  - cbn [num bind]. destruct (Qgtb e (5 # 100)); reflexivity.
Qed.

Lemma weigh_rejects_missing_metric_witness :
  weigh (WeighAgent.mk None [])
        (Snapshot.mk "svc" [("http.latency", None)] ∅ [] 100) "svc"
  = Raise TypeError.
Proof.
  apply (weigh_rejects_missing_metric (WeighAgent.mk None [])
           (Snapshot.mk "svc" [("http.latency", None)] ∅ [] 100) "svc").
  right. left. reflexivity.
Defined.

End WeighLaws.

(** ** From assessment to decision *)

Module PipelineLaws.
Import Py Constants WeighSpec Facts WeighFacts AssessSpec AssessLaws WeighLaws.

Lemma assess_inv fit_predict self metrics service data self' snapshot :
  AssessAgent.assess fit_predict self metrics service (Some data)
  = Ok (self', Some snapshot) ->
  exists raw_metrics,
    Snapshot.derived_metrics snapshot
    = AssessAgent._compute_derived_metrics raw_metrics
    /\ AssessAgent._check_slo_violations raw_metrics
         (AssessAgent._compute_derived_metrics raw_metrics)
       = Ok (Snapshot.slo_violations snapshot)
    /\ AssessAgent._compute_health_score (Snapshot.slo_violations snapshot)
         (Snapshot.anomalies snapshot)
       = Ok (Snapshot.health_score snapshot).
Proof.
  unfold AssessAgent.assess.
  destruct (AssessAgent._extract_latest_values data metrics) as [raw|];
    [|discriminate].
  cbn [bind].
  destruct (AssessAgent._detect_anomalies fit_predict data metrics)
    as [anomalies|]; [|discriminate].
  cbn [bind].
  destruct (AssessAgent._check_slo_violations raw
              (AssessAgent._compute_derived_metrics raw)) as [vs|] eqn:Evs;
    [|discriminate].
  cbn [bind].
  destruct (AssessAgent._compute_health_score vs anomalies) as [h|] eqn:Eh;
    [|discriminate].
  cbn [bind]. intros [= _ <-]. exists raw. cbn. auto.
Qed.

Lemma emergency_rule_nonempty service violations v :
  In v violations -> (default 4%Z (Violation.severity v) <= 2)%Z ->
  emergency_rule service violations <> [].
Proof.
  intros Hin Hsev. unfold emergency_rule.
  assert (Hc : v ∈ critical violations).
  { unfold critical. apply list_elem_of_filter.
    split; [exact Hsev | apply list_elem_of_In, Hin]. }
  destruct (critical violations); [|discriminate].
  apply not_elem_of_nil in Hc. contradiction.
Qed.

(** X12. A snapshot built by [assess] is never found stable: whatever
    the telemetry, [weigh] returns a decision with exactly one action.
    An error rate under 5% or a cost per request under 0.01 is itself
    reported as a critical violation (the "lt" entries of the threshold
    table) and triggers the emergency scale-out; otherwise the error
    rate or the cost per request is above its planning threshold. *)
Theorem assessed_snapshot_never_stable (fit_predict : list Q -> list Z)
    (assess_agent assess_agent' : AssessAgent.t) (weigh_agent : WeighAgent.t)
    (metrics : list string) (service : string) (data : list (list value))
    (snapshot : Snapshot.t) :
  AssessAgent.assess fit_predict assess_agent metrics service (Some data)
  = Ok (assess_agent', Some snapshot) ->
  exists weigh_agent' decision action,
    WeighAgent.weigh weigh_agent snapshot service
    = Ok (weigh_agent', decision)
    /\ Decision.actions decision = [action].
Proof.
  intros Hassess.
  destruct (assess_inv _ _ _ _ _ _ _ Hassess) as (raw & Hdm & Hvs & _).
  pose proof (derived_metrics_eq raw) as Hshape.
  set (e := get raw "net.http.error.count" 0
            / Qmax (get raw "net.http.request.count" 1) 1) in *.
  set (l := get raw "net.http.request.time" 0) in *.
  set (t := get raw "net.http.request.count" 0 / 60) in *.
  set (c := (get raw "sysdig.cost.sysdig_costs_workload_cpu_used_cost_total" 0
             + get raw
                   "sysdig.cost.sysdig_costs_workload_memory_used_cost_total" 0
             + get raw
                   "sysdig.cost.sysdig_costs_workload_storage_used_cost_total" 0)
            / Qmax (get raw "net.http.request.count" 1) 1) in *.
  assert (He : get (Snapshot.derived_metrics snapshot) "http.error.rate"
                   (Some 0) = Some e) by (rewrite Hdm, Hshape; reflexivity).
  assert (Hl : get (Snapshot.derived_metrics snapshot) "http.latency"
                   (Some 0) = Some l) by (rewrite Hdm, Hshape; reflexivity).
  assert (Ht : get (Snapshot.derived_metrics snapshot) "http.throughput"
                   (Some 0) = Some t) by (rewrite Hdm, Hshape; reflexivity).
  assert (Hc : get (Snapshot.derived_metrics snapshot) "cost.per.request"
                   (Some 0) = Some c) by (rewrite Hdm, Hshape; reflexivity).
  assert (Hre : reading raw "http.error.rate" = Some e)
    by (unfold reading; rewrite Hshape; reflexivity).
  assert (Hrc : reading raw "cost.per.request" = Some c)
    by (unfold reading; rewrite Hshape; reflexivity).
  destruct (weigh_numeric weigh_agent snapshot service e l t c
              (fun _ => True) He Hl Ht Hc) as (ev & Hlen & _ & ->); [auto|].
  assert (Hrules :
    horizontal_rule service e l t ++ vertical_rule service c
      ++ emergency_rule service (Snapshot.slo_violations snapshot)
      ++ restart_rule service (Snapshot.anomalies snapshot) <> []).
  { destruct (Qgtb_spec e (5 # 100)) as [Hhigh|Hlow].
    { unfold horizontal_rule. apply Qgtb_true in Hhigh. rewrite Hhigh.
      discriminate. }
    destruct (Qlt_le_dec e (5 # 100)) as [Hlt|Hge].
    { pose proof (slo_violation_reported raw "http.error.rate" "lt" (5 # 100)
                    e _ Hvs eq_refl Hre (or_intror (conj eq_refl Hlt)))
        as Hin.
      pose proof (emergency_rule_nonempty service _ _ Hin) as Hem.
      intros Hnil. apply app_eq_nil in Hnil as [_ Hnil].
      apply app_eq_nil in Hnil as [_ Hnil].
      apply app_eq_nil in Hnil as [Hnil _].
      apply Hem; [|exact Hnil]. vm_compute. discriminate. }
    destruct (Qlt_le_dec c (1 # 100)) as [Hclt|Hcge].
    { pose proof (slo_violation_reported raw "cost.per.request" "lt" (1 # 100)
                    c _ Hvs eq_refl Hrc (or_intror (conj eq_refl Hclt)))
        as Hin.
      pose proof (emergency_rule_nonempty service _ _ Hin) as Hem.
      intros Hnil. apply app_eq_nil in Hnil as [_ Hnil].
      apply app_eq_nil in Hnil as [_ Hnil].
      apply app_eq_nil in Hnil as [Hnil _].
      apply Hem; [|exact Hnil]. vm_compute. discriminate. }
    assert (Hup : Qgtb c ((1 # 1000) * (105 # 100)) = true)
      by (apply Qgtb_true; lra).
    unfold vertical_rule. rewrite Hup.
    destruct (horizontal_rule service e l t); discriminate. }
  assert (Hev : ev <> []).
  { intros ->. apply Hrules. apply length_zero_iff_nil. rewrite <- Hlen.
    reflexivity. }
  destruct (first_max_some Action.get_utility ev Hev) as [best Ebest].
  eexists _, _, best. split; [reflexivity|].
  cbn [Decision.actions]. rewrite select_actions_first_max, Ebest.
  reflexivity.
Qed.

Lemma assessed_snapshot_never_stable_witness :
  exists assess_agent' snapshot,
    AssessAgent.assess (fun _ => []) (AssessAgent.mk ∅) METRICS "svc"
                       (Some [])
    = Ok (assess_agent', Some snapshot)
    /\ exists weigh_agent' decision action,
         WeighAgent.weigh (WeighAgent.mk None []) snapshot "svc"
         = Ok (weigh_agent', decision)
         /\ Decision.actions decision = [action].
Proof.
  eexists _, _. split; [vm_compute; reflexivity|].
  eapply (assessed_snapshot_never_stable (fun _ => []) (AssessAgent.mk ∅) _
            (WeighAgent.mk None []) METRICS "svc" []).
  vm_compute. reflexivity.
Defined.

End PipelineLaws.

(** ** act_agent.py *)

Module ActLaws.
Import Py Constants Eff EffSpec ActAgent ActSpec EffFacts.

(** *** Truncation *)

Lemma trunc_floor (x : Q) : 0 <= x -> trunc x = Qfloor x.
Proof.
  intros Hx. unfold trunc. destruct x as [n d]. cbn [Qnum Qden Qfloor].
  apply Z.quot_div_nonneg; [|lia].
  unfold Qle in Hx. cbn in Hx. lia.
Qed.

Lemma trunc_bounds (x : Q) :
  0 <= x ->
  0 <= inject_Z (trunc x) /\ inject_Z (trunc x) <= x
  /\ x < inject_Z (trunc x) + 1.
Proof.
  intros Hx. rewrite trunc_floor by exact Hx.
  split; [|split].
  - change 0 with (inject_Z 0). rewrite <- Zle_Qle.
    change 0%Z with (Qfloor 0). apply Qfloor_resp_le, Hx.
  - apply Qfloor_le.
  - pose proof (Qlt_floor x) as Hlt.
    rewrite inject_Z_plus in Hlt. exact Hlt.
Qed.

(** X13. Scaling a whole-unit quantity (millicores, mebibytes,
    gibibytes) truncates towards zero and keeps the unit; hence scaling
    a non-negative quantity down by a factor and up again by the same
    factor never gives back more than the original. *)
Theorem resize_round_trip_never_gains (unit : Q -> quantity)
    (base factor : Q) :
  unit = Millicores \/ unit = Mebibytes \/ unit = Gibibytes ->
  0 <= base -> 0 < factor ->
  exists down up : Z,
    _adjust_resource_value (unit base) (1 / factor) = unit (inject_Z down)
    /\ _adjust_resource_value (unit (inject_Z down)) factor
       = unit (inject_Z up)
    /\ inject_Z down <= base / factor
    /\ base / factor < inject_Z down + 1
    /\ (0 <= up)%Z
    /\ inject_Z up <= base.
Proof.
  intros Hunit Hbase Hfactor.
  assert (Hinv : 0 < / factor) by (apply Qinv_lt_0_compat, Hfactor).
  assert (Hq : 0 <= base * (1 / factor)).
  { unfold Qdiv. rewrite Qmult_1_l. apply Qmult_le_0_compat; lra. }
  destruct (trunc_bounds _ Hq) as (Hd0 & Hd1 & Hd2).
  assert (Hup : 0 <= inject_Z (trunc (base * (1 / factor))) * factor)
    by (apply Qmult_le_0_compat; lra).
  destruct (trunc_bounds _ Hup) as (Hu0 & Hu1 & _).
  exists (trunc (base * (1 / factor))),
         (trunc (inject_Z (trunc (base * (1 / factor))) * factor)).
  assert (Heq : base * (1 / factor) == base / factor)
    by (unfold Qdiv; ring).
  split; [destruct Hunit as [-> | [-> | ->]]; reflexivity|].
  split; [destruct Hunit as [-> | [-> | ->]]; reflexivity|].
  split; [rewrite <- Heq; exact Hd1|].
  split; [rewrite <- Heq; exact Hd2|].
  split.
  - change 0 with (inject_Z 0) in Hu0. rewrite <- Zle_Qle in Hu0. exact Hu0.
  - apply Qle_trans with (inject_Z (trunc (base * (1 / factor))) * factor);
      [exact Hu1|].
    apply Qle_trans with (base * (1 / factor) * factor).
    + apply Qmult_le_compat_r; lra.
    + assert (E : base * (1 / factor) * factor == base)
        by (field; lra).
      rewrite E. apply Qle_refl.
Qed.

Lemma resize_round_trip_never_gains_witness :
  exists down up : Z,
    _adjust_resource_value (Millicores 100) (1 / (15 # 10))
    = Millicores (inject_Z down)
    /\ _adjust_resource_value (Millicores (inject_Z down)) (15 # 10)
       = Millicores (inject_Z up)
    /\ inject_Z down <= 100 / (15 # 10)
    /\ 100 / (15 # 10) < inject_Z down + 1
    /\ (0 <= up)%Z
    /\ inject_Z up <= 100.
Proof.
  apply (resize_round_trip_never_gains Millicores 100 (15 # 10)).
  - left. reflexivity.
  - discriminate.
  - reflexivity.
Defined.

(** *** The transform of a vertical scaling *)

Lemma dict_set_keys {V} (k : string) (v v0 : V) (d : dict V) :
  lookup k d = Some v0 -> map fst (dict_set k v d) = map fst d.
Proof.
  induction d as [|[k' v'] d IH]; [discriminate|].
  cbn [lookup dict_set]. destruct (String.eqb_spec k k') as [->|Hne].
  - reflexivity.
  - intros Hd. cbn [map fst]. rewrite (IH Hd). reflexivity.
Qed.

Lemma adjust_entry_keys operation factor resource_type spec spec' :
  adjust_entry operation factor resource_type spec = Ok spec' ->
  map fst spec' = map fst spec.
Proof.
  unfold adjust_entry.
  destruct (lookup resource_type spec) as [old|] eqn:E.
  - destruct (scale_factor operation factor); [|cbn [Py.bind]; discriminate].
    cbn [Py.bind]. intros [= <-]. apply (dict_set_keys _ _ _ _ E).
  - intros [= <-]. reflexivity.
Qed.

Lemma modify_container_keys operation factor c c' :
  modify_container operation factor c = Ok c' ->
  Container.name c' = Container.name c
  /\ map fst (Container.requests c') = map fst (Container.requests c)
  /\ map fst (Container.limits c') = map fst (Container.limits c).
Proof.
  unfold modify_container.
  destruct (adjust_entry operation factor "cpu" (Container.requests c))
    as [r1|] eqn:E1; [|cbn [Py.bind]; discriminate]. cbn [Py.bind].
  destruct (adjust_entry operation factor "cpu" (Container.limits c))
    as [l1|] eqn:E2; [|cbn [Py.bind]; discriminate]. cbn [Py.bind].
  destruct (adjust_entry operation factor "memory" r1)
    as [r2|] eqn:E3; [|cbn [Py.bind]; discriminate]. cbn [Py.bind].
  destruct (adjust_entry operation factor "memory" l1)
    as [l2|] eqn:E4; [|cbn [Py.bind]; discriminate]. cbn [Py.bind].
  intros [= <-]. cbn.
  apply adjust_entry_keys in E1, E2, E3, E4.
  split; [reflexivity|]. split; congruence.
Qed.

(** X14. The transform applied before a vertical patch changes values
    only: it keeps the name and the version token of the fetched
    deployment, the containers and their names, and the resource keys of
    every container (no request or limit is added or removed). *)
Theorem vertical_transform_keeps_shape (operation : option string)
    (factor : Q) (deployment body : Deployment.t) :
  modify_resources operation factor deployment = Ok body ->
  Deployment.name body = Deployment.name deployment
  /\ Deployment.resource_version body
     = Deployment.resource_version deployment
  /\ Forall2
       (fun c c' =>
          Container.name c' = Container.name c
          /\ map fst (Container.requests c') = map fst (Container.requests c)
          /\ map fst (Container.limits c') = map fst (Container.limits c))
       (Deployment.containers deployment) (Deployment.containers body).
Proof.
  unfold modify_resources.
  destruct (modify_containers operation factor
              (Deployment.containers deployment)) as [cs|] eqn:E;
    [|cbn [Py.bind]; discriminate].
  cbn [Py.bind]. intros [= <-]. cbn.
  split; [reflexivity|]. split; [reflexivity|].
  revert cs E. induction (Deployment.containers deployment) as [|c rest IH];
    intros cs.
  - intros [= <-]. constructor.
  - cbn [modify_containers].
    destruct (modify_container operation factor c) as [c'|] eqn:Ec;
      [|cbn [Py.bind]; discriminate]. cbn [Py.bind].
    destruct (modify_containers operation factor rest) as [cs'|];
      [|cbn [Py.bind]; discriminate]. cbn [Py.bind].
    intros [= <-]. constructor.
    + apply (modify_container_keys _ _ _ _ Ec).
    + apply IH. reflexivity.
Qed.

Lemma vertical_transform_keeps_shape_witness :
  Deployment.name
    (Deployment.mk "svc" 7 [app_container 750 384])
  = Deployment.name (Deployment.mk "svc" 7 [app_container 500 256])
  /\ Deployment.resource_version
       (Deployment.mk "svc" 7 [app_container 750 384])
     = Deployment.resource_version
         (Deployment.mk "svc" 7 [app_container 500 256])
  /\ Forall2
       (fun c c' =>
          Container.name c' = Container.name c
          /\ map fst (Container.requests c') = map fst (Container.requests c)
          /\ map fst (Container.limits c') = map fst (Container.limits c))
       (Deployment.containers (Deployment.mk "svc" 7 [app_container 500 256]))
       (Deployment.containers (Deployment.mk "svc" 7 [app_container 750 384])).
Proof.
  apply (vertical_transform_keeps_shape (Some "increase") (15 # 10)
           (Deployment.mk "svc" 7 [app_container 500 256])
           (Deployment.mk "svc" 7 [app_container 750 384])).
  vm_compute. reflexivity.
Defined.

(** *** Executing the actions of a decision *)

Section WithWorld.
Context {W : Type} `{World W}.

Local Abbreviation actor := (@ctx W ActAgent.t).

Lemma exports_of_app (evs1 evs2 : list event) :
  exports_of (evs1 ++ evs2) = exports_of evs1 ++ exports_of evs2.
Proof. unfold exports_of. apply omap_app. Qed.

Lemma follows_refl (c : actor) : follows c c.
Proof.
  split; [reflexivity|]. exists []. rewrite app_nil_r.
  split; reflexivity.
Qed.

Lemma follows_trans (c1 c2 c3 : actor) :
  follows c1 c2 -> follows c2 c3 -> follows c1 c3.
Proof.
  intros [S1 (e1 & T1 & Q1)] [S2 (e2 & T2 & Q2)]. split; [congruence|].
  exists (e1 ++ e2). rewrite T2, T1, app_assoc, exports_of_app, Q1, Q2.
  split; reflexivity.
Qed.

Ltac follow :=
  first
    [ apply follows_refl
    | split;
      [ reflexivity
      | eexists; cbn [self world trace]; rewrite <- ?app_assoc;
        split; reflexivity ] ].

Lemma retry_attempts_ok name modify_fn remaining attempt (c : actor) :
  exists c' b,
    retry_attempts name modify_fn remaining attempt c = (c', Ok b)
    /\ follows c c'.
Proof.
  revert attempt c. induction remaining as [|remaining IH]; intros attempt c.
  - eexists _, _. split; [reflexivity|follow].
  - cbn [retry_attempts]. unfold Eff.bind at 1, call at 1.
    destruct (w_get_deployment name (world c)) as [w1 [d|e]].
    2:{ eexists _, _. split; [reflexivity|follow]. }
    destruct (modify_fn d) as [body|e].
    2:{ eexists _, _. split; [reflexivity|follow]. }
    unfold Eff.bind at 1, call at 1. cbn [world self trace].
    destruct (w_patch_deployment body w1) as [w2 [| |msg]].
    + eexists _, _. split; [reflexivity|].
      follow.
    + unfold Eff.bind at 1, call at 1. cbn [world self trace].
      match goal with
      | |- context [retry_attempts _ _ _ _ ?c1] =>
          destruct (IH (S attempt) c1) as (c' & b & -> & Hf)
      end.
      eexists _, _. split; [reflexivity|].
      eapply follows_trans; [|exact Hf]. follow.
    + eexists _, _. split; [reflexivity|].
      follow.
Qed.

Lemma execute_action_ok (action : Action.t) (c : actor) :
  exists c' r,
    _execute_action action c = (c', Ok r)
    /\ follows c c'
    /\ ActionResult.action r = Action.name action
    /\ (ActionResult.success r = false -> is_Some (ActionResult.error r)).
Proof.
  unfold _execute_action.
  destruct (String.eqb_spec (Action.name action) "horizontal") as [E|_].
  { rewrite E. unfold _horizontal_scale, Eff.bind, call, ret.
    destruct (w_run _ _ (world c)) as [w1 reply].
    destruct reply as [rc out err| |msg];
      try (eexists _, _; split; [reflexivity|];
           split; [follow|]; split; [reflexivity|];
           intros _; eexists; reflexivity).
    destruct (negb (rc =? 0)%Z);
      try (eexists _, _; split; [reflexivity|];
           split; [follow|]; split; [reflexivity|];
           intros _; eexists; reflexivity).
    destruct (int out) as [curr|e];
      try (eexists _, _; split; [reflexivity|];
           split; [follow|]; split; [reflexivity|];
           intros _; eexists; reflexivity).
    cbn [world self trace].
    destruct (w_run _ _ w1) as [w2 reply].
    destruct reply as [rc2 out2 err2| |msg];
      try (eexists _, _; split; [reflexivity|];
           split; [follow|];
           split; [reflexivity|]; intros _; eexists; reflexivity).
    destruct (negb (rc2 =? 0)%Z);
      eexists _, _; (split; [reflexivity|]);
      (split; [follow|]);
      (split; [reflexivity|]); cbn; intros; try discriminate;
      eexists; reflexivity. }
  destruct (String.eqb_spec (Action.name action) "vertical") as [E|_].
  { rewrite E. unfold _vertical_scale, Eff.bind at 1, get_self.
    destruct (negb (v1_deployments (self c))).
    - eexists _, _. split; [reflexivity|]. split; [follow|].
      split; [reflexivity|]. intros _. eexists. reflexivity.
    - unfold Eff.bind, _retry_deployment_patch.
      destruct (retry_attempts_ok (Action.service action)
                  (modify_resources (Action.operation action)
                     (default 1 (Action.factor action))) 3 0 c)
        as (c' & b & -> & Hf).
      destruct b; eexists _, _; (split; [reflexivity|]);
        (split; [exact Hf|]); (split; [reflexivity|]); cbn; intros;
        try discriminate; eexists; reflexivity. }
  destruct (String.eqb_spec (Action.name action) "restart") as [E|_].
  { rewrite E. unfold _restart_service, Eff.bind, call, ret.
    destruct (w_run _ _ (world c)) as [w1 reply].
    destruct reply as [rc out err| |msg];
      try (eexists _, _; split; [reflexivity|];
           split; [follow|]; split; [reflexivity|];
           intros _; eexists; reflexivity).
    destruct (negb (rc =? 0)%Z);
      eexists _, _; (split; [reflexivity|]);
      (split; [follow|]);
      (split; [reflexivity|]); cbn; intros; try discriminate;
      eexists; reflexivity. }
  eexists _, _. split; [reflexivity|]. split; [follow|].
  split; [reflexivity|]. intros _. eexists. reflexivity.
Qed.

Lemma execute_all_ok actions results errors all_success (c : actor) :
  exists c' rs,
    execute_all actions results errors all_success c
    = (c', Ok (results ++ rs, errors ++ errors_of rs,
               all_success && forallb ActionResult.success rs))
    /\ follows c c'
    /\ map ActionResult.action rs = map Action.name actions.
Proof.
  revert results errors all_success c.
  induction actions as [|action rest IH]; intros results errors all_success c.
  - exists c, []. cbn [execute_all forallb]. unfold ret, errors_of.
    cbn [omap list_omap]. rewrite !app_nil_r, andb_true_r.
    split; [reflexivity|]. split; [apply follows_refl|reflexivity].
  - cbn [execute_all].
    destruct (execute_action_ok action c) as (c1 & r & E & Hf & Hname & _).
    unfold Eff.bind at 1. rewrite E.
    destruct (ActionResult.success r) eqn:Hs.
    + destruct (IH (results ++ [r]) errors all_success c1)
        as (c' & rs & -> & Hf' & Hnames).
      exists c', (r :: rs). split.
      * unfold errors_of. cbn [omap list_omap forallb]. rewrite Hs.
        rewrite <- app_assoc. reflexivity.
      * split; [eapply follows_trans; eassumption|].
        cbn [map]. congruence.
    + destruct (IH (results ++ [r])
                   (errors ++ [default (ExceptionText "Unknown error")
                                       (ActionResult.error r)])
                   false c1)
        as (c' & rs & -> & Hf' & Hnames).
      exists c', (r :: rs). split.
      * unfold errors_of. cbn [omap list_omap forallb]. rewrite Hs.
        rewrite <- !app_assoc, andb_false_r. reflexivity.
      * split; [eapply follows_trans; eassumption|].
        cbn [map]. congruence.
Qed.

Lemma act_ok (decision : Decision.t) (c : actor) :
  exists c' r,
    ActAgent.act decision c = (c', Ok r)
    /\ execution_history (self c') = execution_history (self c) ++ [r]
    /\ extends c c'.
Proof.
  unfold ActAgent.act.
  destruct (execute_all_ok (Decision.actions decision) [] [] true c)
    as (c1 & rs & E & [Hself Htrace] & _).
  unfold Eff.bind at 1. rewrite E. cbn [app andb].
  unfold Eff.bind, modify, ret. cbn [self world trace].
  eexists _, _. split; [reflexivity|].
  cbn [self trace execution_history]. rewrite Hself.
  split; [reflexivity|exact Htrace].
Qed.

(** X15. [act] never raises and never stops at a failure: it attempts
    every action of the decision in order and returns one result per
    action; the execution is successful exactly when every result is;
    [errors] is [None] exactly in that case and otherwise holds one
    error per failed action; [actions_executed] counts the actions
    attempted, failed ones included; the result is appended to the
    history, where [get_execution_history] finds it with a lookback
    of 1. *)
Theorem act_attempts_every_action (decision : Decision.t) (c : actor) :
  exists c' r,
    ActAgent.act decision c = (c', Ok r)
    /\ map ActionResult.action (ExecutionResult.results r)
       = map Action.name (Decision.actions decision)
    /\ ExecutionResult.actions_executed r
       = length (Decision.actions decision)
    /\ ExecutionResult.success r
       = forallb ActionResult.success (ExecutionResult.results r)
    /\ (ExecutionResult.errors r = None
        <-> ExecutionResult.success r = true)
    /\ (forall errs, ExecutionResult.errors r = Some errs ->
          length errs
          = length (filter (fun x => ActionResult.success x = false)
                           (ExecutionResult.results r)))
    /\ execution_history (self c')
       = execution_history (self c) ++ [r]
    /\ get_execution_history (self c') 1 = [r]
    /\ v1_deployments (self c') = v1_deployments (self c).
Proof.
  unfold ActAgent.act.
  destruct (execute_all_ok (Decision.actions decision) [] [] true c)
    as (c1 & rs & E & [Hself _] & Hnames).
  unfold Eff.bind at 1. rewrite E. cbn [app andb].
  unfold Eff.bind, modify, ret. cbn [self world trace].
  eexists _, _. split; [reflexivity|].
  unfold get_execution_history.
  cbn [ExecutionResult.results ExecutionResult.actions_executed
       ExecutionResult.success ExecutionResult.errors self
       execution_history v1_deployments].
  split; [exact Hnames|]. split; [reflexivity|]. split; [reflexivity|].
  assert (Herr : forall l : list ActionResult.t,
            length (errors_of l)
            = length (filter (fun x => ActionResult.success x = false) l)
            /\ (errors_of l = [] <-> forallb ActionResult.success l = true)).
  { induction l as [|x l [IH1 IH2]]; [split; [reflexivity|tauto]|].
    unfold errors_of in *. cbn [omap list_omap forallb].
    rewrite filter_cons. destruct (ActionResult.success x) eqn:Hx.
    - rewrite decide_False by discriminate. cbn [andb]. tauto.
    - rewrite decide_True by reflexivity. cbn [length andb].
      split; [congruence|]. split; discriminate. }
  destruct (Herr rs) as [Hlen Hnil].
  split; [|split; [|split; [rewrite Hself; reflexivity|
                     split; [apply PyLaws.slice_from_snoc|
                             rewrite Hself; reflexivity]]]].
  - destruct (errors_of rs) as [|e es] eqn:Ee.
    + split; [intros _; apply Hnil; reflexivity|reflexivity].
    + split; [discriminate|]. intros Hs. apply Hnil in Hs. discriminate.
  - intros errs. destruct (errors_of rs) as [|e es] eqn:Ee; [discriminate|].
    intros [= <-]. exact Hlen.
Qed.

(** X16. A horizontal scaling whose read of the current replica count
    fails (time-out, failure to run, non-zero return code or a text that
    is not an integer) issues no scale command: the read is the only
    command run, and the action is reported failed. *)
Theorem failed_read_never_scales (action : Action.t) (c : actor)
    (w1 : W) (reply : run_reply) :
  Action.name action = "horizontal" ->
  w_run (OcGetReplicas (Action.service action)) 10 (world c) = (w1, reply) ->
  (forall stdout stderr n,
     reply = Completed 0 stdout stderr -> int stdout <> Ok n) ->
  exists r,
    _execute_action action c
    = (Ctx (self c) w1
           (trace c ++ [EvRun (OcGetReplicas (Action.service action)) 10]),
       Ok r)
    /\ ActionResult.success r = false
    /\ ActionResult.new_replicas r = None.
Proof.
  intros Hname Hrun Hbad. unfold _execute_action. rewrite Hname.
  cbn [String.eqb Ascii.eqb Bool.eqb]. unfold _horizontal_scale.
  erewrite bind_ok by (apply call_eq; exact Hrun).
  destruct reply as [rc out err| |msg];
    try (eexists; split; [reflexivity|]; split; reflexivity).
  destruct (Z.eqb_spec rc 0) as [->|Hrc]; cbn [negb];
    [|eexists; split; [reflexivity|]; split; reflexivity].
  destruct (int out) as [n|e] eqn:Eint.
  - exfalso. apply (Hbad out err n eq_refl Eint).
  - eexists. split; [reflexivity|]. split; reflexivity.
Qed.

(** X17. An action of unknown type, and a vertical scaling when the
    cluster client could not be initialised, fail without any call to
    the environment: the world and the trace are unchanged. *)
Theorem unexecutable_actions_touch_nothing (action : Action.t) (c : actor) :
  (Action.name action <> "horizontal"
   /\ Action.name action <> "vertical"
   /\ Action.name action <> "restart")
  \/ (Action.name action = "vertical" /\ v1_deployments (self c) = false) ->
  exists e,
    _execute_action action c
    = (c, Ok (ActionResult.failed (Action.name action) e))
    /\ (e = UnknownActionType (Action.name action)
        \/ e = ClientNotInitialized).
Proof.
  unfold _execute_action. intros [(Hh & Hv & Hr)|[Hv Hclient]].
  - apply String.eqb_neq in Hh, Hv, Hr. rewrite Hh, Hv, Hr.
    eexists. split; [reflexivity|]. left. reflexivity.
  - rewrite Hv. cbn [String.eqb Ascii.eqb Bool.eqb].
    unfold _vertical_scale, Eff.bind, get_self. rewrite Hclient.
    cbn [negb]. destruct c. eexists. split; [reflexivity|]. right.
    reflexivity.
Qed.

End WithWorld.

Lemma failed_read_never_scales_witness :
  exists r,
    _execute_action scale_out_by_one
      (Ctx act_agent (Sim.make [] [Completed 1 "" "forbidden"]
                               (Deployment.mk "svc" 1 []) []) [])
    = (Ctx act_agent (Sim.make [] [] (Deployment.mk "svc" 1 []) [])
           ([] ++ [EvRun (OcGetReplicas "svc") 10]),
       Ok r)
    /\ ActionResult.success r = false
    /\ ActionResult.new_replicas r = None.
Proof.
  apply (failed_read_never_scales scale_out_by_one
           (Ctx act_agent (Sim.make [] [Completed 1 "" "forbidden"]
                                    (Deployment.mk "svc" 1 []) []) [])
           (Sim.make [] [] (Deployment.mk "svc" 1 []) [])
           (Completed 1 "" "forbidden")).
  - reflexivity.
  - reflexivity.
  - intros stdout stderr n [=].
Defined.

Lemma unexecutable_actions_touch_nothing_witness :
  exists e,
    _execute_action resize_up_action
      (Ctx (ActAgent.mk false []) contended [])
    = (Ctx (ActAgent.mk false []) contended [],
       Ok (ActionResult.failed "vertical" e))
    /\ (e = UnknownActionType "vertical" \/ e = ClientNotInitialized).
Proof.
  apply (unexecutable_actions_touch_nothing resize_up_action
           (Ctx (ActAgent.mk false []) contended [])).
  right. split; reflexivity.
Defined.

End ActLaws.

(** ** reflect_agent.py *)

Module ReflectLaws.
Import Py Constants ReflectAgent ReflectSpec Facts DictLaws.

Lemma changes_spec selected pre_metrics post_items c :
  In c (changes selected pre_metrics post_items) ->
  lookup (Change.metric c) pre_metrics = Some (Some (Change.pre_value c))
  /\ In (Change.metric c, Some (Change.post_value c)) post_items
  /\ selected (Change.metric c) (Change.pre_value c) (Change.post_value c)
     = true
  /\ 5 < Qabs (Change.change_pct c)
  /\ Change.change_pct c
     = pct_change (Change.pre_value c) (Change.post_value c).
Proof.
  induction post_items as [|[metric post_value] rest IH]; [contradiction|].
  cbn [changes]. cbv zeta.
  assert (Hrest : In c (changes selected pre_metrics rest) ->
    lookup (Change.metric c) pre_metrics = Some (Some (Change.pre_value c))
    /\ In (Change.metric c, Some (Change.post_value c))
          ((metric, post_value) :: rest)
    /\ selected (Change.metric c) (Change.pre_value c) (Change.post_value c)
       = true
    /\ 5 < Qabs (Change.change_pct c)
    /\ Change.change_pct c
       = pct_change (Change.pre_value c) (Change.post_value c)).
  { intros Hin. destruct (IH Hin) as (H1 & H2 & H3).
    split; [exact H1|]. split; [right; exact H2|exact H3]. }
  destruct (lookup metric pre_metrics) as [[pre|]|] eqn:Hpre;
    [|exact Hrest|exact Hrest].
  destruct post_value as [post|]; [|exact Hrest].
  destruct (selected metric pre post) eqn:Hsel; cbn [andb]; [|exact Hrest].
  destruct (Qgtb_spec (Qabs (pct_change pre post)) 5) as [Hbig|_];
    [|exact Hrest].
  intros [<-|Hin]; [|exact (Hrest Hin)].
  cbn [Change.metric Change.pre_value Change.post_value Change.change_pct].
  split; [exact Hpre|]. split; [left; reflexivity|].
  split; [exact Hsel|]. split; [exact Hbig|reflexivity].
Qed.

Lemma pct_change_zero_baseline pre post :
  pre == 0 -> pct_change pre post = 0.
Proof.
  intros Hz. unfold pct_change.
  apply Qeq_bool_iff in Hz. rewrite Hz. reflexivity.
Qed.

Lemma significant_change_baseline pre post :
  5 < Qabs (pct_change pre post) -> ~ pre == 0.
Proof.
  intros Hbig Hz. rewrite (pct_change_zero_baseline _ _ Hz) in Hbig.
  discriminate.
Qed.

(** X18. Every reported improvement or degradation concerns one of the
    four planning metrics, present as a number in both snapshots, with a
    non-zero value before (a metric that was 0 is never reported,
    whatever it became) and a relative change above 5%; improvements go
    in the good direction of their metric, degradations in the bad one,
    and no entry is in both lists. *)
Theorem reported_changes_sound (pre_state post_state : Snapshot.t)
    (c : Change.t) :
  let improvements := _identify_improvements pre_state post_state in
  let degradations := _identify_degradations pre_state post_state in
  (In c improvements \/ In c degradations ->
     In (Change.metric c)
        ["http.error.rate"; "http.latency"; "cost.per.request";
         "http.throughput"]
     /\ lookup (Change.metric c) (Snapshot.derived_metrics pre_state)
        = Some (Some (Change.pre_value c))
     /\ In (Change.metric c, Some (Change.post_value c))
           (Snapshot.derived_metrics post_state)
     /\ ~ Change.pre_value c == 0
     /\ 5 < Qabs (Change.change_pct c)
     /\ Change.change_pct c
        == (Change.post_value c - Change.pre_value c)
           / Qabs (Change.pre_value c) * 100)
  /\ (In c improvements ->
        if String.eqb (Change.metric c) "http.throughput"
        then Change.pre_value c < Change.post_value c
        else Change.post_value c < Change.pre_value c)
  /\ (In c degradations ->
        if String.eqb (Change.metric c) "http.throughput"
        then Change.post_value c < Change.pre_value c
        else Change.pre_value c < Change.post_value c)
  /\ ~ (In c improvements /\ In c degradations).
Proof.
  intros improvements degradations.
  assert (Hmetric : forall m x y,
    is_improvement m x y = true \/ is_degradation m x y = true ->
    In m ["http.error.rate"; "http.latency"; "cost.per.request";
          "http.throughput"]).
  { intros m x y. unfold is_improvement, is_degradation, mem,
      lower_is_better, higher_is_better. cbn [existsb In].
    destruct (String.eqb_spec m "http.error.rate"); [auto|].
    destruct (String.eqb_spec m "http.latency"); [auto|].
    destruct (String.eqb_spec m "cost.per.request"); [auto|].
    destruct (String.eqb_spec m "http.throughput"); [auto 6|].
    cbn. intros [|]; discriminate. }
  assert (Himp : forall m x y, is_improvement m x y = true ->
    if String.eqb m "http.throughput" then x < y else y < x).
  { intros m x y. unfold is_improvement, mem, lower_is_better,
      higher_is_better. cbn [existsb].
    destruct (String.eqb_spec m "http.error.rate") as [->|];
      [cbn; apply Qltb_true|].
    destruct (String.eqb_spec m "http.latency") as [->|];
      [cbn; apply Qltb_true|].
    destruct (String.eqb_spec m "cost.per.request") as [->|];
      [cbn; apply Qltb_true|].
    destruct (String.eqb_spec m "http.throughput") as [->|];
      [cbn; apply Qgtb_true|].
    cbn. discriminate. }
  assert (Hdeg : forall m x y, is_degradation m x y = true ->
    if String.eqb m "http.throughput" then y < x else x < y).
  { intros m x y. unfold is_degradation, mem, lower_is_better,
      higher_is_better. cbn [existsb].
    destruct (String.eqb_spec m "http.error.rate") as [->|];
      [cbn; apply Qgtb_true|].
    destruct (String.eqb_spec m "http.latency") as [->|];
      [cbn; apply Qgtb_true|].
    destruct (String.eqb_spec m "cost.per.request") as [->|];
      [cbn; apply Qgtb_true|].
    destruct (String.eqb_spec m "http.throughput") as [->|];
      [cbn; apply Qltb_true|].
    cbn. discriminate. }
  split; [|split; [|split]].
  - intros Hin.
    assert (Hc : exists selected,
      (selected = is_improvement \/ selected = is_degradation)
      /\ In c (changes selected (Snapshot.derived_metrics pre_state)
                       (Snapshot.derived_metrics post_state))).
    { destruct Hin as [Hin|Hin]; eexists; (split; [|exact Hin]); auto. }
    destruct Hc as (selected & Hsel & Hc).
    apply changes_spec in Hc as (H1 & H2 & H3 & H4 & H5).
    split.
    { apply (Hmetric _ (Change.pre_value c) (Change.post_value c)).
      destruct Hsel as [->| ->]; auto. }
    split; [exact H1|]. split; [exact H2|].
    pose proof H4 as Hbase. rewrite H5 in Hbase.
    apply significant_change_baseline in Hbase.
    split; [exact Hbase|]. split; [exact H4|].
    rewrite H5. unfold pct_change.
    destruct (Qeq_bool (Change.pre_value c) 0) eqn:Ez.
    + apply Qeq_bool_iff in Ez. contradiction.
    + reflexivity.
  - intros Hin. apply changes_spec in Hin as (_ & _ & H3 & _).
    apply Himp, H3.
  - intros Hin. apply changes_spec in Hin as (_ & _ & H3 & _).
    apply Hdeg, H3.
  - intros [Hi Hd].
    apply changes_spec in Hi as (_ & _ & Hi & _).
    apply changes_spec in Hd as (_ & _ & Hd & _).
    apply Himp in Hi. apply Hdeg in Hd.
    destruct (String.eqb (Change.metric c) "http.throughput"); lra.
Qed.

Lemma reported_changes_sound_witness :
  exists c,
    In c (_identify_improvements before after)
    /\ Change.metric c = "http.error.rate"
    /\ ~ Change.pre_value c == 0
    /\ Change.post_value c < Change.pre_value c.
Proof.
  exists (Change.mk "http.error.rate" (10 # 100) (5 # 100)
                    (pct_change (10 # 100) (5 # 100))).
  assert (Hin : In (Change.mk "http.error.rate" (10 # 100) (5 # 100)
                              (pct_change (10 # 100) (5 # 100)))
                   (_identify_improvements before after))
    by (left; reflexivity).
  destruct (reported_changes_sound before after
              (Change.mk "http.error.rate" (10 # 100) (5 # 100)
                         (pct_change (10 # 100) (5 # 100))))
    as (Hsound & Himp & _).
  destruct (Hsound (or_introl Hin)) as (_ & _ & _ & Hbase & _).
  split; [exact Hin|]. split; [reflexivity|]. split; [exact Hbase|].
  apply (Himp Hin).
Defined.

Lemma changes_same_state selected metrics :
  (forall m x, selected m x x = false) ->
  List.NoDup (map fst metrics) ->
  forall items, incl items metrics -> changes selected metrics items = [].
Proof.
  intros Hsel Hnd items. induction items as [|[m v] rest IH]; [reflexivity|].
  intros Hincl. cbn [changes]. cbv zeta.
  rewrite IH by (intros x Hx; apply Hincl; right; exact Hx).
  assert (Hm : lookup m metrics = Some v).
  { apply lookup_in; [exact Hnd|]. apply Hincl. left. reflexivity. }
  rewrite Hm. destruct v as [x|]; [|reflexivity].
  rewrite Hsel. reflexivity.
Qed.

(** X19. Reflecting on a successful execution with the same snapshot
    before and after (what the orchestrator does when the re-assessment
    fails) finds no improvement, no degradation and a health change of
    0, and declares the adaptation unsuccessful. *)
Theorem unchanged_state_is_failure (self : ReflectAgent.t)
    (state : Snapshot.t) (decision : Decision.t)
    (execution_result : ExecutionResult.t) :
  ExecutionResult.success execution_result = true ->
  NoDup (map fst (Snapshot.derived_metrics state)) ->
  EnrichSpec.numeric state "cost.per.request" ->
  exists self' reflection health_delta,
    reflect self state state decision execution_result
    = Ok (self', reflection)
    /\ Reflection.success reflection = false
    /\ Reflection.improvements reflection = Some []
    /\ Reflection.degradations reflection = Some []
    /\ Reflection.health_delta reflection = Some health_delta
    /\ health_delta == 0
    /\ In NoSignificantChanges (Reflection.recommendations reflection)
    /\ reflection_history self' = reflection_history self ++ [reflection].
Proof.
  intros Hexec Hnd [cost Hcost]. apply NoDup_ListNoDup in Hnd.
  unfold reflect. rewrite Hexec. cbn [negb]. cbv zeta.
  assert (Himp : _identify_improvements state state = []).
  { unfold _identify_improvements. apply changes_same_state.
    - intros m x. unfold is_improvement.
      assert (Hlt : Qltb x x = false) by (apply Qltb_false, Qle_refl).
      assert (Hgt : Qgtb x x = false) by (apply Qgtb_false, Qle_refl).
      rewrite Hlt, Hgt.
      destruct (mem m lower_is_better), (mem m higher_is_better);
        reflexivity.
    - exact Hnd.
    - apply incl_refl. }
  assert (Hdeg : _identify_degradations state state = []).
  { unfold _identify_degradations. apply changes_same_state.
    - intros m x. unfold is_degradation.
      assert (Hlt : Qltb x x = false) by (apply Qltb_false, Qle_refl).
      assert (Hgt : Qgtb x x = false) by (apply Qgtb_false, Qle_refl).
      rewrite Hlt, Hgt.
      destruct (mem m lower_is_better), (mem m higher_is_better);
        reflexivity.
    - exact Hnd.
    - apply incl_refl. }
  rewrite Himp, Hdeg.
  assert (Hside : exists effects,
            _detect_side_effects state state (Decision.actions decision)
            = Ok effects).
  { unfold _detect_side_effects.
    assert (Hcosts : exists costs,
              cost_side_effects state state (Decision.actions decision)
              = Ok costs).
    { induction (Decision.actions decision) as [|a rest [costs IH]].
      - exists []. reflexivity.
      - cbn [cost_side_effects]. rewrite IH, Hcost. unfold gt.
        cbn [num Py.bind].
        destruct (String.eqb _ _ && bool_decide _); cbn [Py.bind];
          eexists; reflexivity. }
    destruct Hcosts as [costs ->]. cbn [Py.bind]. eexists. reflexivity. }
  destruct Hside as [effects ->]. cbn [Py.bind].
  assert (Hzero : Snapshot.health_score state - Snapshot.health_score state
                  == 0) by ring.
  assert (Hfail : _evaluate_success
                    (Snapshot.health_score state - Snapshot.health_score state)
                    [] [] = false).
  { unfold _evaluate_success.
    assert (H1 : Qgtb (Snapshot.health_score state
                       - Snapshot.health_score state)
                      (SUCCESS_THRESHOLD * 100) = false)
      by (apply Qgtb_false; rewrite Hzero; discriminate).
    assert (H2 : Qltb (Snapshot.health_score state
                       - Snapshot.health_score state)
                      (DEGRADATION_THRESHOLD * 100) = false)
      by (apply Qltb_false; rewrite Hzero; discriminate).
    rewrite H1, H2. reflexivity. }
  rewrite Hfail.
  eexists _, _, _. split; [reflexivity|].
  cbn [Reflection.success Reflection.improvements Reflection.degradations
       Reflection.health_delta Reflection.recommendations record
       reflection_history].
  split; [reflexivity|]. split; [reflexivity|]. split; [reflexivity|].
  split; [reflexivity|]. split; [exact Hzero|]. split; [|reflexivity].
  unfold _generate_recommendations. rewrite !in_app_iff. right. right.
  left. reflexivity.
Qed.

Lemma unchanged_state_is_failure_witness :
  exists self' reflection health_delta,
    reflect (ReflectAgent.mk []) before before scaled_out executed
    = Ok (self', reflection)
    /\ Reflection.success reflection = false
    /\ Reflection.improvements reflection = Some []
    /\ Reflection.degradations reflection = Some []
    /\ Reflection.health_delta reflection = Some health_delta
    /\ health_delta == 0
    /\ In NoSignificantChanges (Reflection.recommendations reflection)
    /\ reflection_history self' = [] ++ [reflection].
Proof.
  apply (unchanged_state_is_failure (ReflectAgent.mk []) before scaled_out
           executed).
  - reflexivity.
  - apply (bool_decide_unpack _). vm_compute. exact I.
  - eexists. reflexivity.
Defined.

Lemma slice_from_nil_iff {A} (n : Z) (l : list A) :
  (0 <= n)%Z -> slice_from (- n) l = [] <-> l = [].
Proof.
  intros Hn. split; [|intros ->; unfold slice_from; apply drop_nil].
  destruct (Z.eq_dec n 0%Z) as [->|Hpos].
  - rewrite PyLaws.slice_from_zero. auto.
  - replace n with (Z.of_nat (Z.to_nat n)) by lia.
    rewrite PyLaws.slice_from_last by lia.
    intros Hdrop. apply (f_equal length) in Hdrop.
    rewrite length_drop in Hdrop. cbn in Hdrop.
    destruct l; [reflexivity|]. cbn [length] in Hdrop. lia.
Qed.

Lemma filter_length_le {A} (P : A -> Prop) `{forall x, Decision (P x)}
    (l : list A) :
  (length (filter P l) <= length l)%nat.
Proof. apply length_filter. Qed.

Lemma summary_total_le (self : ReflectAgent.t) (lookback : option Z) :
  match get_reflection_summary self lookback with
  | ReflectionSummary.NoReflections => True
  | ReflectionSummary.Summary total _ _ _ _ =>
      (total <= length (reflection_history self))%nat
  end.
Proof.
  unfold get_reflection_summary.
  set (history := match lookback with
                  | Some n => slice_from (- n) (reflection_history self)
                  | None => reflection_history self
                  end).
  assert (Hsuffix : exists front, reflection_history self = front ++ history).
  { unfold history. destruct lookback as [n|].
    - apply PyLaws.slice_from_suffix.
    - exists []. reflexivity. }
  destruct history as [|r rest]; [exact I|].
  destruct Hsuffix as [front ->]. rewrite length_app. lia.
Qed.

(** X20. The reflection summary is the empty summary exactly when no
    reflection was recorded (for any lookback that is not negative);
    otherwise successes and failures add up to the number of reflections
    summarised, which is at most the lookback when the lookback is
    positive and the whole history when it is 0 or absent, and the
    success rate is between 0 and 1. *)
Theorem reflection_summary_counts (self : ReflectAgent.t)
    (lookback : option Z) :
  (forall n, lookback = Some n -> (0 <= n)%Z) ->
  match get_reflection_summary self lookback with
  | ReflectionSummary.NoReflections => reflection_history self = []
  | ReflectionSummary.Summary total successful failed rate _ =>
      (0 < total)%nat
      /\ (successful + failed = total)%nat
      /\ 0 <= rate /\ rate <= 1
      /\ (total <= length (reflection_history self))%nat
      /\ (forall n, lookback = Some n -> (0 < n)%Z -> (Z.of_nat total <= n)%Z)
      /\ (lookback = None \/ lookback = Some 0%Z ->
          total = length (reflection_history self))
  end.
Proof.
  intros Hlook. unfold get_reflection_summary.
  set (history := match lookback with
                  | Some n => slice_from (- n) (reflection_history self)
                  | None => reflection_history self
                  end).
  assert (Hsuffix : exists front, reflection_history self = front ++ history).
  { unfold history. destruct lookback as [n|].
    - apply PyLaws.slice_from_suffix.
    - exists []. reflexivity. }
  assert (Hnil : history = [] -> reflection_history self = []).
  { unfold history. destruct lookback as [n|]; [|auto].
    apply slice_from_nil_iff, Hlook. reflexivity. }
  destruct history as [|r rest] eqn:Eh; [apply Hnil; reflexivity|].
  set (successful :=
         length (filter (fun r0 => Reflection.success r0 = true) (r :: rest))).
  assert (Hs : (successful <= length (r :: rest))%nat)
    by apply length_filter.
  assert (Hpos : 0 < inject_Z (Z.of_nat (length (r :: rest))))
    by (unfold Qlt; cbn; lia).
  split; [cbn; lia|]. split; [lia|].
  split; [|split; [|split; [|split]]].
  - apply Qle_shift_div_l; [exact Hpos|].
    rewrite Qmult_0_l. unfold Qle. cbn. lia.
  - apply Qle_shift_div_r; [exact Hpos|].
    rewrite Qmult_1_l. rewrite <- Zle_Qle. lia.
  - destruct Hsuffix as [front ->]. rewrite length_app. lia.
  - intros n -> Hn. subst history.
    assert (Hlen : length (r :: rest)
                   = length (slice_from (- n) (reflection_history self)))
      by (rewrite Eh; reflexivity).
    rewrite Hlen.
    replace n with (Z.of_nat (Z.to_nat n)) by lia.
    rewrite PyLaws.slice_from_length by lia. lia.
  - intros [-> | ->]; subst history.
    + rewrite <- Eh. reflexivity.
    + rewrite <- Eh. change (- 0)%Z with 0%Z.
      rewrite PyLaws.slice_from_zero. reflexivity.
Qed.

Lemma reflection_summary_counts_witness :
  match get_reflection_summary
          (ReflectAgent.mk [EnrichSpec.good_reflection;
                            EnrichSpec.good_reflection])
          (Some 0%Z) with
  | ReflectionSummary.NoReflections => False
  | ReflectionSummary.Summary total successful failed rate _ =>
      total = 2%nat /\ (successful + failed = total)%nat
  end.
Proof.
  pose proof (reflection_summary_counts
                (ReflectAgent.mk [EnrichSpec.good_reflection;
                                  EnrichSpec.good_reflection])
                (Some 0%Z)) as Hsum.
  destruct (get_reflection_summary _ _) as [|total s f rate avg].
  - discriminate Hsum. intros n [= <-]. lia.
  - destruct Hsum as (_ & Hadd & _ & _ & _ & _ & Hall);
      [intros n [= <-]; lia|].
    split; [apply Hall; right; reflexivity|exact Hadd].
Defined.

End ReflectLaws.

(** ** enrich_agent.py *)

Module EnrichLaws.
Import Py Constants Eff EffSpec EnrichAgent EnrichSpec EffFacts Facts
       EnrichFacts.

(** *** The greedy action *)

Lemma best_item_spec (first : string * Q) (rest : list (string * Q)) :
  In (best_item first rest) (first :: rest)
  /\ (forall x, In x (first :: rest) -> snd x <= snd (best_item first rest))
  /\ ((forall x, In x rest -> snd x <= snd first) ->
      best_item first rest = first).
Proof.
  unfold best_item. revert first.
  induction rest as [|y rest IH]; intros first; cbn [fold_left].
  - split; [left; reflexivity|]. split; [|reflexivity].
    intros x [<-|[]]. apply Qle_refl.
  - destruct (Qgtb_spec (snd y) (snd first)) as [Hgt|Hle].
    + destruct (IH y) as (Hin & Hmax & _). split; [|split].
      * destruct Hin as [<-|Hin]; [right; left; reflexivity|].
        right. right. exact Hin.
      * intros x [<-|Hx]; [|apply Hmax, Hx].
        apply Qle_trans with (snd y); [lra|]. apply Hmax. left. reflexivity.
      * intros Hall. exfalso.
        assert (snd y <= snd first) by (apply Hall; left; reflexivity). lra.
    + destruct (IH first) as (Hin & Hmax & Hfirst). split; [|split].
      * destruct Hin as [<-|Hin]; [left; reflexivity|].
        right. right. exact Hin.
      * intros x [<-|[<-|Hx]].
        -- apply Hmax. left. reflexivity.
        -- apply Qle_trans with (snd first); [exact Hle|].
           apply Hmax. left. reflexivity.
        -- apply Hmax. right. exact Hx.
      * intros Hall. apply Hfirst. intros x Hx. apply Hall. right. exact Hx.
Qed.

(** X21. With an empty value table [get_best_action] returns [None]
    without reading the state. Otherwise, on a state whose error rate and
    latency are numbers, it returns one of the five action keys whose
    learned value in that state (0 where none was learned) is not
    exceeded by that of any other key; in particular a state for which
    no value was learned gets "horizontal_increase", the first key. *)
Theorem best_action_is_greedy (self : EnrichAgent.t) (state : Snapshot.t) :
  (q_table self = ∅ -> get_best_action self state = Ok None)
  /\ (q_table self <> ∅ ->
      numeric state "http.error.rate" -> numeric state "http.latency" ->
      exists state_key best,
        _get_state_key state = Ok state_key
        /\ get_best_action self state = Ok (Some best)
        /\ In best _get_possible_actions
        /\ (forall a, In a _get_possible_actions ->
              q_get (q_table self) (state_key, a)
              <= q_get (q_table self) (state_key, best))
        /\ ((forall a, In a _get_possible_actions ->
               q_table self !! (state_key, a) = None) ->
            best = "horizontal_increase")).
Proof.
  unfold get_best_action. change RL_ENABLED with true. cbn [negb orb].
  split.
  - intros ->. rewrite bool_decide_eq_true_2 by reflexivity. reflexivity.
  - intros Hne He Hl. rewrite bool_decide_eq_false_2 by exact Hne.
    destruct (get_state_key_ok state He Hl) as [key Hkey].
    rewrite Hkey. cbn [Py.bind].
    exists key. cbn [_get_possible_actions fold_left dict_set String.eqb
                     Ascii.eqb Bool.eqb].
    set (v1 := q_get (q_table self) (key, "horizontal_increase")).
    set (v2 := q_get (q_table self) (key, "horizontal_decrease")).
    set (v3 := q_get (q_table self) (key, "vertical_increase")).
    set (v4 := q_get (q_table self) (key, "vertical_decrease")).
    set (v5 := q_get (q_table self) (key, "restart_")).
    destruct (best_item_spec ("horizontal_increase", v1)
                [("horizontal_decrease", v2); ("vertical_increase", v3);
                 ("vertical_decrease", v4); ("restart_", v5)])
      as (Hin & Hmax & Hfirst).
    eexists. split; [reflexivity|]. split; [reflexivity|].
    split; [|split].
    + cbn [In] in Hin. cbn [In _get_possible_actions].
      destruct Hin as [<-|[<-|[<-|[<-|[<-|[]]]]]]; cbn [fst]; auto 8.
    + assert (Hval : forall a, In a _get_possible_actions ->
                q_get (q_table self) (key, a)
                <= snd (best_item ("horizontal_increase", v1)
                          [("horizontal_decrease", v2);
                           ("vertical_increase", v3);
                           ("vertical_decrease", v4); ("restart_", v5)])).
      { intros a Ha. cbn [_get_possible_actions In] in Ha.
        destruct Ha as [<-|[<-|[<-|[<-|[<-|[]]]]]];
          [apply (Hmax ("horizontal_increase", v1))
          |apply (Hmax ("horizontal_decrease", v2))
          |apply (Hmax ("vertical_increase", v3))
          |apply (Hmax ("vertical_decrease", v4))
          |apply (Hmax ("restart_", v5))]; cbn [In]; auto 6. }
      intros a Ha. eapply Qle_trans; [apply (Hval a Ha)|].
      cbn [In] in Hin.
      destruct Hin as [<-|[<-|[<-|[<-|[<-|[]]]]]]; cbn [fst snd];
        apply Qle_refl.
    + intros Hnone.
      assert (Hlow : forall a, In a _get_possible_actions ->
                q_get (q_table self) (key, a) <= 0).
      { intros a Ha. unfold q_get. rewrite (Hnone a Ha). apply Qle_refl. }
      rewrite Hfirst; [reflexivity|].
      assert (Hv1 : v1 = 0).
      { unfold v1, q_get. rewrite Hnone; [reflexivity|].
        cbn [_get_possible_actions In]. auto. }
      rewrite Hv1. cbn [In snd].
      intros x [<-|[<-|[<-|[<-|[]]]]]; cbn [snd]; apply Hlow;
        cbn [_get_possible_actions In]; auto 6.
Qed.

Lemma best_action_is_greedy_witness :
  exists state_key best,
    _get_state_key WeighSpec.scenario = Ok state_key
    /\ get_best_action
         (set_q_table {[ ("low_low_healthy", "restart_") := 1 ]} fresh_agent)
         WeighSpec.scenario = Ok (Some best)
    /\ best = "horizontal_increase".
Proof.
  destruct (best_action_is_greedy
              (set_q_table {[ ("low_low_healthy", "restart_") := 1 ]}
                           fresh_agent)
              WeighSpec.scenario) as [_ Hsome].
  destruct Hsome as (key & best & Hkey & Hbest & _ & _ & Hfirst).
  - intros Hempty. apply (f_equal (fun m => m !! ("low_low_healthy", "restart_")))
      in Hempty. cbn in Hempty. vm_compute in Hempty. discriminate.
  - eexists. reflexivity.
  - eexists. reflexivity.
  - exists key, best. split; [exact Hkey|]. split; [exact Hbest|].
    assert (Ek : key = "high_low_critical")
      by (vm_compute in Hkey; congruence).
    subst key. apply Hfirst.
    intros a Ha. cbn [_get_possible_actions In] in Ha.
    destruct Ha as [<-|[<-|[<-|[<-|[<-|[]]]]]]; vm_compute; reflexivity.
Defined.

(** *** Counting *)

Lemma increment_lookup (k k' : string) (m : gmap string nat) :
  default O (increment k m !! k')
  = if decide (k = k') then S (default O (m !! k)) else default O (m !! k').
Proof.
  unfold increment. destruct (decide (k = k')) as [<-|Hne].
  - rewrite lookup_insert_eq. reflexivity.
  - rewrite lookup_insert_ne by exact Hne. reflexivity.
Qed.

Lemma touch_lookup (k k' : string) (m : gmap string nat) :
  default O (touch k m !! k') = default O (m !! k').
Proof.
  unfold touch. destruct (decide (k = k')) as [<-|Hne].
  - rewrite lookup_insert_eq. reflexivity.
  - rewrite lookup_insert_ne by exact Hne. reflexivity.
Qed.

Lemma fold_increment_pointwise (actions : list Action.t)
    (lower upper : gmap string nat) :
  (forall k, (default O (lower !! k) <= default O (upper !! k))%nat) ->
  forall k,
    (default O (fold_left (fun m a => increment (Action.name a) m)
                          actions lower !! k)
     <= default O (fold_left (fun m a => increment (Action.name a) m)
                             actions upper !! k))%nat.
Proof.
  revert lower upper. induction actions as [|a rest IH];
    intros lower upper Hle; [exact Hle|].
  cbn [fold_left]. apply IH. intros k. rewrite !increment_lookup.
  destruct (decide (Action.name a = k)); [apply le_n_S|]; apply Hle.
Qed.

Lemma fold_increment_grows (actions : list Action.t) (m : gmap string nat) k :
  (default O (m !! k)
   <= default O (fold_left (fun m a => increment (Action.name a) m)
                           actions m !! k))%nat.
Proof.
  revert m. induction actions as [|a rest IH]; intros m; [reflexivity|].
  cbn [fold_left]. etransitivity; [|apply IH].
  rewrite increment_lookup. destruct (decide (Action.name a = k)) as [->|];
    lia.
Qed.

(** X22. The statistics stay consistent: if no more successes than
    adaptations are recorded, overall and per action type, the same
    holds after [_update_statistics], which counts one more adaptation
    (and one more success exactly when the cycle succeeded); the success
    rate of the knowledge summary is then between 0 and 1. *)
Theorem statistics_stay_consistent (self : EnrichAgent.t)
    (actions : list Action.t) (success : bool) :
  statistics_consistent (knowledge_base self) ->
  let self' :=
    set_knowledge_base
      (_update_statistics_pure actions success (knowledge_base self)) self in
  let before := get_knowledge_summary self in
  let after := get_knowledge_summary self' in
  statistics_consistent (knowledge_base self')
  /\ KnowledgeSummary.total_adaptations after
     = S (KnowledgeSummary.total_adaptations before)
  /\ KnowledgeSummary.successful_adaptations after
     = ((if success then 1 else 0)
        + KnowledgeSummary.successful_adaptations before)%nat
  /\ 0 <= KnowledgeSummary.success_rate after
  /\ KnowledgeSummary.success_rate after <= 1.
Proof.
  intros Hcons. cbv zeta.
  unfold statistics_consistent, get_knowledge_summary,
    _update_statistics_pure in *.
  cbn [knowledge_base set_knowledge_base KnowledgeBase.statistics
       KnowledgeSummary.total_adaptations
       KnowledgeSummary.successful_adaptations
       KnowledgeSummary.success_rate from_option
       Statistics.total_adaptations Statistics.successful_adaptations
       Statistics.action_counts Statistics.action_successes].
  cbv zeta.
  set (stats := default (Statistics.mk 0 0 ∅ ∅)
                        (KnowledgeBase.statistics (knowledge_base self))).
  assert (Hstats : (Statistics.successful_adaptations stats
                    <= Statistics.total_adaptations stats)%nat
                   /\ forall k,
                        (default O (Statistics.action_successes stats !! k)
                         <= default O (Statistics.action_counts stats !! k))%nat).
  { unfold stats.
    destruct (KnowledgeBase.statistics (knowledge_base self)) as [st|];
      [exact Hcons|].
    cbn. split; [lia|]. intros k. rewrite lookup_empty. cbn. lia. }
  destruct Hstats as [Htot Hper].
  assert (Hbefore :
    from_option Statistics.total_adaptations O
                (KnowledgeBase.statistics (knowledge_base self))
    = Statistics.total_adaptations stats
    /\ from_option Statistics.successful_adaptations O
                   (KnowledgeBase.statistics (knowledge_base self))
       = Statistics.successful_adaptations stats).
  { unfold stats.
    destruct (KnowledgeBase.statistics (knowledge_base self));
      split; reflexivity. }
  destruct Hbefore as [-> ->].
  set (successful := if success
                     then S (Statistics.successful_adaptations stats)
                     else Statistics.successful_adaptations stats).
  assert (Hs : (successful <= S (Statistics.total_adaptations stats))%nat)
    by (unfold successful; destruct success; lia).
  split; [split; [exact Hs|]|].
  { intros k. destruct success.
    - apply fold_increment_pointwise, Hper.
    - etransitivity; [apply Hper|]. apply fold_increment_grows. }
  split; [reflexivity|].
  split; [unfold successful; destruct success; reflexivity|].
  cbn [Nat.ltb Nat.leb].
  assert (Hpos : 0 < nat_to_Q (S (Statistics.total_adaptations stats)))
    by (unfold nat_to_Q, Qlt; cbn; lia).
  split.
  - apply Qle_shift_div_l; [exact Hpos|].
    rewrite Qmult_0_l. unfold nat_to_Q, Qle. cbn. lia.
  - apply Qle_shift_div_r; [exact Hpos|].
    rewrite Qmult_1_l. unfold nat_to_Q. rewrite <- Zle_Qle. lia.
Qed.

Lemma statistics_stay_consistent_witness :
  statistics_consistent
    (knowledge_base
       (set_knowledge_base
          (_update_statistics_pure [WeighSpec.scale_out "svc" (8 # 100) 0]
                                   true (knowledge_base fresh_agent))
          fresh_agent))
  /\ KnowledgeSummary.total_adaptations
       (get_knowledge_summary
          (set_knowledge_base
             (_update_statistics_pure [WeighSpec.scale_out "svc" (8 # 100) 0]
                                      true (knowledge_base fresh_agent))
             fresh_agent))
     = 1%nat.
Proof.
  destruct (statistics_stay_consistent fresh_agent
              [WeighSpec.scale_out "svc" (8 # 100) 0] true)
    as (Hcons & Htotal & _).
  - exact I.
  - split; [exact Hcons|exact Htotal].
Defined.

(** *** The value table *)

Lemma q_get_bounded q key :
  values_bounded q -> - (300) <= q_get q key /\ q_get q key <= 400.
Proof.
  intros Hb. unfold q_get. destruct (q !! key) as [v|] eqn:E.
  - apply (Hb _ _ E).
  - cbn. split; discriminate.
Qed.

Lemma q_update_bounded reward s s' q action :
  - (15) <= reward -> reward <= 20 ->
  values_bounded q ->
  values_bounded (q_update (1 # 10) (95 # 100) reward s s' q action).
Proof.
  intros Hr1 Hr2 Hb. unfold q_update. cbv zeta.
  intros key v. destruct (decide ((s, action_key action) = key)) as [<-|Hne].
  2:{ rewrite lookup_insert_ne by exact Hne. apply Hb. }
  rewrite lookup_insert_eq. intros [= <-].
  pose proof (q_get_bounded q (s, action_key action) Hb) as [Hc1 Hc2].
  set (current := q_get q (s, action_key action)) in *.
  cbn [_get_possible_actions map max_default fold_left].
  pose proof (q_get_bounded q (s', "horizontal_increase") Hb) as [A1 A2].
  pose proof (q_get_bounded q (s', "horizontal_decrease") Hb) as [B1 B2].
  pose proof (q_get_bounded q (s', "vertical_increase") Hb) as [C1 C2].
  pose proof (q_get_bounded q (s', "vertical_decrease") Hb) as [D1 D2].
  pose proof (q_get_bounded q (s', "restart_") Hb) as [E1 E2].
  set (m := Qmax (Qmax (Qmax (Qmax _ _) _) _) _).
  assert (Hm : - (300) <= m /\ m <= 400).
  { unfold m. split.
    - eapply Qle_trans; [exact E1|]. apply Q.le_max_r.
    - repeat apply Q.max_lub; assumption. }
  destruct Hm as [Hm1 Hm2]. split; lra.
Qed.

Lemma reward_range health_delta success :
  - (100) <= health_delta -> health_delta <= 100 ->
  - (15) <= _calculate_reward health_delta success
  /\ _calculate_reward health_delta success <= 20.
Proof.
  intros H1 H2. unfold _calculate_reward. destruct success; qconst; split; lra.
Qed.

Section Values.
Context {W : Type} `{World W}.

(** X23. The learned values cannot diverge: with the learning rate 0.1
    and the discount 0.95 the agent is created with, and a health change
    between -100 and 100, a value table whose entries lie between -300
    and 400 has all its entries in that range after [enrich], whether it
    completes or raises. *)
Theorem q_values_stay_bounded (reflection : Reflection.t)
    (decision : Decision.t) (pre_state post_state : Snapshot.t)
    (c c' : @ctx W EnrichAgent.t) (r : result Enrichment.t) :
  learning_rate (self c) = 1 # 10 ->
  discount_factor (self c) = 95 # 100 ->
  (forall health_delta,
     Reflection.health_delta reflection = Some health_delta ->
     - (100) <= health_delta /\ health_delta <= 100) ->
  values_bounded (q_table (self c)) ->
  enrich reflection decision pre_state post_state c = (c', r) ->
  values_bounded (q_table (self c')).
Proof.
  intros Hrate Hdisc Hdelta Hb.
  rewrite enrich_eq. cbv zeta. unfold _mine_patterns.
  destruct (mine _ _ _ _ _ _) as [c2 r2] eqn:Hmine.
  apply mine_frame in Hmine. cbn [self world trace] in Hmine.
  destruct Hmine as ((_ & _ & Hrate2 & Hdisc2) & Hq & _ & _).
  cbn [learning_rate discount_factor q_table set_learning_cycles]
    in Hrate2, Hdisc2, Hq.
  destruct r2 as [learned|e]; [|intros [= <- <-]; rewrite Hq; exact Hb].
  assert (Hd : - (100) <= default 0 (Reflection.health_delta reflection)
               /\ default 0 (Reflection.health_delta reflection) <= 100).
  { destruct (Reflection.health_delta reflection) as [hd|];
      [apply Hdelta; reflexivity|]. cbn. split; discriminate. }
  destruct Hd as [Hd1 Hd2].
  destruct (_update_rl_policies _ _ _ _ _ c2) as [c3 [pol|e]] eqn:Hrl.
  - unfold _update_rl_policies in Hrl. cbv zeta in Hrl.
    destruct (_get_state_key pre_state) as [s|]; [|discriminate Hrl].
    destruct (_get_state_key post_state) as [s'|]; [|discriminate Hrl].
    injection Hrl as <- _. intros [= <- <-].
    cbn [self q_table set_knowledge_base set_q_table].
    rewrite <- Hrate2, <- Hdisc2, Hrate, Hdisc, Hq.
    destruct (reward_range _ (Reflection.success reflection) Hd1 Hd2)
      as [Hr1 Hr2].
    revert Hb. generalize (q_table (self c)).
    induction (Decision.actions decision) as [|a rest IH]; intros q Hq0;
      cbn [fold_left]; [exact Hq0|].
    apply IH. apply q_update_bounded; assumption.
  - intros [= <- <-]. apply update_rl_policies_raise in Hrl. subst c3.
    rewrite Hq. exact Hb.
Qed.

End Values.

Lemma q_values_stay_bounded_witness :
  values_bounded
    (q_table (self (fst (enrich (c_reflection learning_call)
                                (c_decision learning_call)
                                (c_pre_state learning_call)
                                (c_post_state learning_call)
                                (Ctx fresh_agent idle_world []))))).
Proof.
  eapply (q_values_stay_bounded (c_reflection learning_call)
            (c_decision learning_call) (c_pre_state learning_call)
            (c_post_state learning_call) (Ctx fresh_agent idle_world [])).
  - reflexivity.
  - reflexivity.
  - intros hd [= <-]. split; discriminate.
  - intros key v. cbn. rewrite lookup_empty. discriminate.
  - apply surjective_pairing.
Defined.

(** *** Pattern mining *)

Section WithWorld.
Context {W : Type} `{World W}.

Local Abbreviation learner := (@ctx W EnrichAgent.t).

Lemma mine_patterns_spec dm actions success health_delta patterns
    (c c' : learner) learned :
  tables_consistent (self c) ->
  mine dm actions success health_delta patterns c = (c', Ok learned) ->
  tables_consistent (self c')
  /\ exists fresh,
       learned = patterns ++ fresh
       /\ Forall (fun p =>
                    (3 <= Pattern.support p)%nat
                    /\ 7 # 10 <= Pattern.confidence p
                    /\ Pattern.confidence p <= 1
                    /\ Pattern.avg_health_delta p = health_delta
                    /\ exists a, In a actions
                         /\ Pattern.action_type p = Action.name a
                         /\ Pattern.operation p = Action.operation a
                         /\ _create_pattern_key dm a
                            = Ok (Pattern.pattern_key p))
                 fresh.
Proof.
  revert patterns c. induction actions as [|action rest IH];
    intros patterns c Hcons; cbn [mine].
  - intros [= <- <-]. split; [exact Hcons|]. exists [].
    rewrite app_nil_r. split; [reflexivity|constructor].
  - unfold Eff.bind at 1. unfold lift at 1.
    destruct (_create_pattern_key dm action) as [key|e] eqn:Hkey;
      [|discriminate].
    unfold Eff.bind at 1. unfold modify at 1.
    unfold Eff.bind at 1. unfold get_self at 1.
    cbn [self world trace pattern_counts pattern_successes
         set_pattern_tables].
    set (counts := increment key (pattern_counts (self c))).
    set (successes :=
           touch key (if success
                      then increment key (pattern_successes (self c))
                      else pattern_successes (self c))).
    assert (Hcons1 : forall k,
              (default O (successes !! k) <= default O (counts !! k))%nat).
    { intros k. unfold successes, counts.
      rewrite touch_lookup, increment_lookup.
      pose proof (Hcons key) as Hkey'. specialize (Hcons k).
      destruct success; [rewrite increment_lookup|];
        destruct (decide (key = k)) as [<-|]; lia. }
    assert (Hsupport : (1 <= default O (counts !! key))%nat).
    { unfold counts. rewrite increment_lookup, decide_True by reflexivity.
      lia. }
    assert (Hshift : forall fresh : list Pattern.t,
      Forall (fun p =>
                (3 <= Pattern.support p)%nat
                /\ 7 # 10 <= Pattern.confidence p
                /\ Pattern.confidence p <= 1
                /\ Pattern.avg_health_delta p = health_delta
                /\ exists a, In a rest
                     /\ Pattern.action_type p = Action.name a
                     /\ Pattern.operation p = Action.operation a
                     /\ _create_pattern_key dm a
                        = Ok (Pattern.pattern_key p)) fresh ->
      Forall (fun p =>
                (3 <= Pattern.support p)%nat
                /\ 7 # 10 <= Pattern.confidence p
                /\ Pattern.confidence p <= 1
                /\ Pattern.avg_health_delta p = health_delta
                /\ exists a, In a (action :: rest)
                     /\ Pattern.action_type p = Action.name a
                     /\ Pattern.operation p = Action.operation a
                     /\ _create_pattern_key dm a
                        = Ok (Pattern.pattern_key p)) fresh).
    { intros fresh Hall. eapply Forall_impl; [exact Hall|].
      intros p (H1 & H2 & H3 & H4 & a & Ha & H5).
      repeat (split; [assumption|]). exists a.
      split; [right; exact Ha|exact H5]. }
    destruct (Nat.ltb_spec 0 (default O (counts !! key))) as [_|Hzero];
      [|lia].
    destruct (Qle_bool (PATTERN_MINING_MIN_SUPPORT * 10)
                       (nat_to_Q (default O (counts !! key)))) eqn:Hsup;
      cbn [andb].
    2:{ intros Hrest. apply IH in Hrest; [|exact Hcons1].
        destruct Hrest as (Hc' & fresh & -> & Hall).
        split; [exact Hc'|]. exists fresh. split; [reflexivity|].
        apply (Hshift fresh Hall). }
    destruct (Qle_bool PATTERN_MINING_MIN_CONFIDENCE
                       (nat_to_Q (default O (successes !! key))
                        / nat_to_Q (default O (counts !! key)))) eqn:Hconf.
    2:{ intros Hrest. apply IH in Hrest; [|exact Hcons1].
        destruct Hrest as (Hc' & fresh & -> & Hall).
        split; [exact Hc'|]. exists fresh. split; [reflexivity|].
        apply (Hshift fresh Hall). }
    unfold Eff.bind at 1. unfold modify at 1.
    cbn [self world trace].
    intros Hrest. apply IH in Hrest; [|exact Hcons1].
    destruct Hrest as (Hc' & fresh & -> & Hall).
    split; [exact Hc'|]. eexists (_ :: fresh).
    split; [rewrite <- app_assoc; reflexivity|].
    constructor; [|apply (Hshift fresh Hall)].
    cbn [Pattern.support Pattern.confidence Pattern.avg_health_delta
         Pattern.action_type Pattern.operation Pattern.pattern_key].
    apply Qle_bool_iff in Hsup, Hconf.
    assert (Hpos : 0 < nat_to_Q (default O (counts !! key)))
      by (unfold nat_to_Q, Qlt; cbn; lia).
    split.
    { unfold PATTERN_MINING_MIN_SUPPORT, nat_to_Q in Hsup.
      assert (H3 : inject_Z 3 <= inject_Z (Z.of_nat (default O (counts !! key)))).
      { eapply Qle_trans; [|exact Hsup]. discriminate. }
      rewrite <- Zle_Qle in H3. lia. }
    split; [exact Hconf|]. split.
    { apply Qle_shift_div_r; [exact Hpos|]. rewrite Qmult_1_l.
      unfold nat_to_Q. rewrite <- Zle_Qle.
      specialize (Hcons1 key). lia. }
    split; [reflexivity|]. exists action.
    split; [left; reflexivity|]. repeat split. exact Hkey.
Qed.

(** X24. Starting from pattern tables that count no more successes than
    occurrences (as the empty tables of a new agent do), every pattern
    [_mine_patterns] learns has been seen at least three times, has a
    confidence between 0.7 and 1, and records the health change of the
    current cycle and the type and operation of one of its actions; the
    tables stay consistent. *)
Theorem patterns_need_three_occurrences (pre_state : Snapshot.t)
    (actions : list Action.t) (success : bool) (health_delta : Q)
    (c c' : learner) (learned : list Pattern.t) :
  tables_consistent (self c) ->
  _mine_patterns pre_state actions success health_delta c
  = (c', Ok learned) ->
  tables_consistent (self c')
  /\ Forall (fun p =>
               (3 <= Pattern.support p)%nat
               /\ 7 # 10 <= Pattern.confidence p
               /\ Pattern.confidence p <= 1
               /\ Pattern.avg_health_delta p = health_delta
               /\ exists a, In a actions
                    /\ Pattern.action_type p = Action.name a
                    /\ Pattern.operation p = Action.operation a)
            learned.
Proof.
  intros Hcons Hmine. unfold _mine_patterns in Hmine.
  destruct (mine_patterns_spec _ _ _ _ _ _ _ _ Hcons Hmine)
    as (Hc' & fresh & -> & Hall).
  split; [exact Hc'|]. cbn [app].
  eapply Forall_impl; [exact Hall|].
  intros p (H1 & H2 & H3 & H4 & a & Ha & H5 & H6 & _).
  repeat (split; [assumption|]). exists a. auto.
Qed.

End WithWorld.

Lemma patterns_need_three_occurrences_witness :
  exists c' learned,
    _mine_patterns WeighSpec.scenario
      [WeighSpec.scale_out "svc" (8 # 100) 0;
       WeighSpec.scale_out "svc" (8 # 100) 0;
       WeighSpec.scale_out "svc" (8 # 100) 0] true 15
      (Ctx fresh_agent idle_world [])
    = (c', Ok learned)
    /\ length learned = 1%nat
    /\ tables_consistent (self c')
    /\ Forall (fun p =>
                 (3 <= Pattern.support p)%nat
                 /\ 7 # 10 <= Pattern.confidence p
                 /\ Pattern.confidence p <= 1
                 /\ Pattern.avg_health_delta p = 15
                 /\ exists a,
                      In a [WeighSpec.scale_out "svc" (8 # 100) 0;
                            WeighSpec.scale_out "svc" (8 # 100) 0;
                            WeighSpec.scale_out "svc" (8 # 100) 0]
                      /\ Pattern.action_type p = Action.name a
                      /\ Pattern.operation p = Action.operation a)
              learned.
Proof.
  eexists _, _. split; [vm_compute; reflexivity|].
  split; [reflexivity|].
  eapply (patterns_need_three_occurrences WeighSpec.scenario
            [WeighSpec.scale_out "svc" (8 # 100) 0;
             WeighSpec.scale_out "svc" (8 # 100) 0;
             WeighSpec.scale_out "svc" (8 # 100) 0] true 15
            (Ctx fresh_agent idle_world [])).
  - intros key. cbn. rewrite lookup_empty. cbn. lia.
  - vm_compute. reflexivity.
Defined.

End EnrichLaws.

(** ** aware_orchestrator.py *)

Module OrchestratorLaws.
Import Py Constants Eff EffSpec AWAREOrchestrator OrchestratorSpec EffFacts.

Lemma weigh_history self snapshot service self' decision :
  WeighAgent.weigh self snapshot service = Ok (self', decision) ->
  WeighAgent.decision_history self'
  = WeighAgent.decision_history self ++ [decision].
Proof.
  unfold WeighAgent.weigh. cbv zeta.
  destruct (WeighAgent._generate_candidates _ _ _ _) as [cs|];
    cbn [Py.bind]; [|discriminate].
  destruct (WeighAgent._evaluate_utilities _ _ _) as [ev|];
    cbn [Py.bind]; [|discriminate].
  intros [= <- <-]. reflexivity.
Qed.

Lemma reflect_history self pre_state post_state decision execution self'
    reflection :
  ReflectAgent.reflect self pre_state post_state decision execution
  = Ok (self', reflection) ->
  ReflectAgent.reflection_history self'
  = ReflectAgent.reflection_history self ++ [reflection].
Proof.
  unfold ReflectAgent.reflect.
  destruct (negb (ExecutionResult.success execution)).
  - intros [= <- <-]. reflexivity.
  - cbv zeta. destruct (ReflectAgent._detect_side_effects _ _ _);
      cbn [Py.bind]; [|discriminate].
    intros [= <- <-]. reflexivity.
Qed.

Section WithWorld.
Context {W : Type} `{World W}.

Local Abbreviation conductor := (@ctx W AWAREOrchestrator.t).
Local Abbreviation runner := (@ctx W running).

(** *** The phases, as steps of a running cycle *)

Lemma phase_weigh snapshot service (c c' : runner) r :
  on_agent weigh_agent_now set_weigh_agent (weigh snapshot service) c
  = (c', r) ->
  world c' = world c /\ trace c' = trace c
  /\ snd (self c') = snd (self c)
  /\ exists agent,
       fst (self c') = set_weigh_agent agent (fst (self c))
       /\ length (WeighAgent.decision_history agent)
          = (decisions (fst (self c)) + (if is_ok r then 1 else 0))%nat.
Proof.
  unfold on_agent, zoom, weigh. cbn [self world trace].
  unfold Eff.bind at 1, get_self at 1. cbn [self world trace].
  unfold Eff.bind at 1, lift at 1.
  destruct (WeighAgent.weigh (weigh_agent_now (fst (self c))) snapshot
                             service) as [[agent decision]|e] eqn:E.
  - unfold Eff.bind, put_self, ret. cbn [self world trace fst snd].
    intros [= <- <-]. cbn [self world trace fst snd is_ok].
    repeat (split; [reflexivity|]). exists agent. split; [reflexivity|].
    rewrite (weigh_history _ _ _ _ _ E), length_app. reflexivity.
  - intros [= <- <-]. cbn [self world trace fst snd is_ok].
    repeat (split; [reflexivity|]). eexists. split; [reflexivity|].
    unfold decisions. cbn. lia.
Qed.

Lemma phase_act decision (c : runner) :
  exists c' result agent,
    on_agent act_agent set_act_agent (ActAgent.act decision) c
    = (c', Ok result)
    /\ extends c c'
    /\ snd (self c') = snd (self c)
    /\ fst (self c') = set_act_agent agent (fst (self c))
    /\ length (ActAgent.execution_history agent)
       = S (executions (fst (self c))).
Proof.
  unfold on_agent, zoom. cbn [self world trace].
  destruct (ActLaws.act_ok decision
              (Ctx (act_agent (fst (self c))) (world c) (trace c)))
    as (ca & result & -> & Hhist & Htrace).
  eexists _, result, (self ca). split; [reflexivity|].
  cbn [self world trace fst snd] in *.
  split; [exact Htrace|]. split; [reflexivity|]. split; [reflexivity|].
  rewrite Hhist, length_app. unfold executions. cbn. lia.
Qed.

Lemma phase_reflect pre_state post_state decision execution
    (c c' : runner) r :
  on_agent reflect_agent set_reflect_agent
           (reflect pre_state post_state decision execution) c
  = (c', r) ->
  world c' = world c /\ trace c' = trace c
  /\ snd (self c') = snd (self c)
  /\ exists agent,
       fst (self c') = set_reflect_agent agent (fst (self c))
       /\ length (ReflectAgent.reflection_history agent)
          = (reflections (fst (self c)) + (if is_ok r then 1 else 0))%nat.
Proof.
  unfold on_agent, zoom, reflect. cbn [self world trace].
  unfold Eff.bind at 1, get_self at 1. cbn [self world trace].
  unfold Eff.bind at 1, lift at 1.
  destruct (ReflectAgent.reflect (reflect_agent (fst (self c))) pre_state
              post_state decision execution) as [[agent reflection]|e] eqn:E.
  - unfold Eff.bind, put_self, ret. cbn [self world trace fst snd].
    intros [= <- <-]. cbn [self world trace fst snd is_ok].
    repeat (split; [reflexivity|]). exists agent. split; [reflexivity|].
    rewrite (reflect_history _ _ _ _ _ _ _ E), length_app. reflexivity.
  - intros [= <- <-]. cbn [self world trace fst snd is_ok].
    repeat (split; [reflexivity|]). eexists. split; [reflexivity|].
    unfold reflections. cbn. lia.
Qed.

Lemma phase_enrich reflection decision pre_state post_state
    (c c' : runner) r :
  on_agent enrich_agent set_enrich_agent
           (EnrichAgent.enrich reflection decision pre_state post_state) c
  = (c', r) ->
  extends c c'
  /\ snd (self c') = snd (self c)
  /\ exists agent,
       fst (self c') = set_enrich_agent agent (fst (self c))
       /\ EnrichAgent.learning_cycles agent = S (learning (fst (self c))).
Proof.
  unfold on_agent, zoom. cbn [self world trace].
  destruct (EnrichAgent.enrich reflection decision pre_state post_state
              (Ctx (enrich_agent (fst (self c))) (world c) (trace c)))
    as [ce re] eqn:E.
  intros [= <- <-]. cbn [self world trace fst snd].
  pose proof (EnrichFacts.enrich_learning_cycles _ _ _ _ _ _ _ E) as Hlc.
  pose proof (EnrichFacts.enrich_trace _ _ _ _ _ _ _ E) as Htr.
  cbn [self world trace] in Hlc, Htr.
  split; [eexists; split; [exact Htr|destruct (_ && _); reflexivity]|].
  split; [reflexivity|].
  exists (self ce). split; [reflexivity|exact Hlc].
Qed.

(** *** One cycle *)

Ltac modify_step :=
  unfold Eff.bind at 1;
  try unfold update_phases at 1; unfold update_result at 1, modify at 1;
  cbn [self world trace fst snd].

Ltac explicit c :=
  destruct c as [[? ?] ? ?]; cbn [self world trace fst snd] in *; subst.

Ltac counts :=
  unfold decisions, executions, reflections, learning, set_weigh_agent,
    set_act_agent, set_reflect_agent, set_enrich_agent in *;
  cbn [self world trace fst snd weigh_agent act_agent reflect_agent
       enrich_agent cycle_count is_ok CycleResult.cycle_number
       CycleResult.service CycleResult.error CycleResult.status
       CycleResult.set_phase CycleResult.set_status
       CycleResult.set_adaptation_success] in *.

Ltac facts :=
  counts;
  repeat match goal with
         | |- _ /\ _ => split
         end;
  try reflexivity; try lia;
  try (eexists; split;
       [ rewrite <- ?app_assoc; reflexivity
       | rewrite ?ActLaws.exports_of_app;
         repeat match goal with
                | Hq : exports_of _ = [] |- _ => rewrite Hq
                end;
         reflexivity ]).

Lemma cycle_body_spec service (c : runner) :
  exists (c' : runner) res (a b k l : nat),
    cycle_body service c = (c', res)
    /\ cycle_count (fst (self c')) = cycle_count (fst (self c))
    /\ decisions (fst (self c')) = (decisions (fst (self c)) + a)%nat
    /\ executions (fst (self c')) = (executions (fst (self c)) + b)%nat
    /\ reflections (fst (self c')) = (reflections (fst (self c)) + k)%nat
    /\ learning (fst (self c')) = (learning (fst (self c)) + l)%nat
    /\ (l <= k)%nat /\ (k <= b)%nat /\ (b <= a)%nat /\ (a <= 1)%nat
    /\ CycleResult.cycle_number (snd (self c'))
       = CycleResult.cycle_number (snd (self c))
    /\ CycleResult.service (snd (self c'))
       = CycleResult.service (snd (self c))
    /\ CycleResult.error (snd (self c')) = CycleResult.error (snd (self c))
    /\ extends c c'
    /\ match res with
       | Ok r =>
           r = snd (self c')
           /\ ((CycleResult.status r = Some "aborted" /\ a = O)
               \/ (CycleResult.status r = Some "stable" /\ a = 1%nat /\ b = O)
               \/ (CycleResult.status r = Some "completed" /\ l = 1%nat))
       | Raise _ => True
       end.
Proof.
  unfold cycle_body, extends.
  unfold Eff.bind at 1. unfold assess at 1.
  unfold Eff.bind at 1, call at 1, lift at 1.
  destruct (w_assess service (world c)) as [w1 [[snapshot|]|e]];
    cbn [self world trace].
  3:{ exists (Ctx (self c) w1 (trace c ++ [EvAssess service])), (Raise e),
        O, O, O, O.
      split; [reflexivity|]. facts. }
  2:{ modify_step. unfold current_result, Eff.bind, get_self, ret.
      cbn [self world trace fst snd].
      eexists _, _, O, O, O, O. split; [reflexivity|]. facts.
      left. facts. }
  modify_step.
  unfold Eff.bind at 1.
  match goal with
  | |- context [on_agent weigh_agent_now set_weigh_agent ?m ?c0] =>
      destruct (on_agent weigh_agent_now set_weigh_agent m c0)
        as [c3 r3] eqn:E3
  end.
  apply phase_weigh in E3 as (Hw3 & Ht3 & Hs3 & wa & Ho3 & Hd3).
  explicit c3.
  destruct r3 as [decision|e].
  2:{ eexists _, (Raise e), O, O, O, O. split; [reflexivity|]. facts. }
  modify_step.
  destruct (Decision.actions decision) as [|action rest] eqn:Hactions.
  { modify_step. unfold Eff.bind at 1. unfold _log_to_csv at 1.
    unfold Eff.bind at 1. unfold current_result at 1.
    unfold Eff.bind at 1, get_self at 1, ret at 1.
    cbn [self world trace fst snd].
    unfold Eff.bind at 1, call at 1. cbn [self world trace fst snd].
    destruct (w_csv w1) as [w_log ok]. unfold ret at 1.
    unfold current_result, Eff.bind, get_self, ret.
    cbn [self world trace fst snd].
    eexists _, _, 1%nat, O, O, O. split; [reflexivity|]. facts.
    right. left. facts. }
  unfold Eff.bind at 1.
  match goal with
  | |- context [on_agent act_agent set_act_agent ?m ?c0] =>
      destruct (phase_act decision c0)
        as (c5 & execution & aa & E5 & (evs5 & Ht5 & Hq5) & Hs5 & Ho5 & He5)
  end.
  rewrite E5. explicit c5.
  modify_step.
  unfold Eff.bind at 1, call at 1. cbn [self world trace fst snd].
  unfold Eff.bind at 1. unfold assess at 1.
  unfold Eff.bind at 1, call at 1, lift at 1. cbn [self world trace].
  match goal with
  | |- context [w_assess service ?w0] =>
      destruct (w_assess service w0) as [w6 [reassessed|e]]
  end; cbn [self world trace].
  2:{ eexists _, (Raise e), 1%nat, 1%nat, O, O.
      split; [reflexivity|]. facts. }
  unfold Eff.bind at 1.
  match goal with
  | |- context [on_agent reflect_agent set_reflect_agent ?m ?c0] =>
      destruct (on_agent reflect_agent set_reflect_agent m c0)
        as [c7 r7] eqn:E7
  end.
  apply phase_reflect in E7 as (Hw7 & Ht7 & Hs7 & ra & Ho7 & Hr7).
  explicit c7.
  destruct r7 as [reflection|e].
  2:{ eexists _, (Raise e), 1%nat, 1%nat, O, O.
      split; [reflexivity|]. facts. }
  modify_step.
  unfold Eff.bind at 1.
  match goal with
  | |- context [on_agent enrich_agent set_enrich_agent ?m ?c0] =>
      destruct (on_agent enrich_agent set_enrich_agent m c0)
        as [c8 r8] eqn:E8
  end.
  apply phase_enrich in E8 as ((evs8 & Ht8 & Hq8) & Hs8 & ea & Ho8 & Hl8).
  explicit c8.
  destruct r8 as [enrichment|e].
  2:{ eexists _, (Raise e), 1%nat, 1%nat, 1%nat, 1%nat.
      split; [reflexivity|]. facts. }
  modify_step. modify_step. modify_step.
  unfold Eff.bind at 1. unfold _log_to_csv at 1.
  unfold Eff.bind at 1. unfold current_result at 1.
  unfold Eff.bind at 1, get_self at 1, ret at 1.
  cbn [self world trace fst snd].
  unfold Eff.bind at 1, call at 1. cbn [self world trace fst snd].
  match goal with
  | |- context [w_csv ?w0] => destruct (w_csv w0) as [w_log ok]
  end.
  unfold ret at 1.
  unfold current_result, Eff.bind, get_self, ret.
  cbn [self world trace fst snd].
  eexists _, _, 1%nat, 1%nat, 1%nat, 1%nat. split; [reflexivity|]. facts.
  right. right. facts.
Qed.

Lemma run_cycle_spec service (c : conductor) :
  exists (c' : conductor) r (a b k l : nat),
    run_aware_cycle service c = (c', Ok r)
    /\ cycle_count (self c') = S (cycle_count (self c))
    /\ decisions (self c') = (decisions (self c) + a)%nat
    /\ executions (self c') = (executions (self c) + b)%nat
    /\ reflections (self c') = (reflections (self c) + k)%nat
    /\ learning (self c') = (learning (self c) + l)%nat
    /\ (l <= k)%nat /\ (k <= b)%nat /\ (b <= a)%nat /\ (a <= 1)%nat
    /\ CycleResult.cycle_number r = S (cycle_count (self c))
    /\ CycleResult.service r = service
    /\ extends c c'
    /\ ((CycleResult.status r = Some "aborted" /\ a = O
         /\ CycleResult.error r = None)
        \/ (CycleResult.status r = Some "stable" /\ a = 1%nat /\ b = O
            /\ CycleResult.error r = None)
        \/ (CycleResult.status r = Some "completed" /\ l = 1%nat
            /\ CycleResult.error r = None)
        \/ (CycleResult.status r = Some "error"
            /\ is_Some (CycleResult.error r))).
Proof.
  unfold run_aware_cycle, try_except.
  match goal with
  | |- context [cycle_body service ?c0] =>
      destruct (cycle_body_spec service c0)
        as (c1 & res & a & b & k & l & E & Hcc & Hd & He & Hr & Hl
            & Hlk & Hkb & Hba & Ha & Hnum & Hsvc & Herr & Hext & Hres)
  end.
  rewrite E. cbn [self world trace fst snd] in *.
  unfold decisions, executions, reflections, learning in *.
  cbn [weigh_agent act_agent reflect_agent enrich_agent cycle_count
       CycleResult.start CycleResult.cycle_number CycleResult.service
       CycleResult.error] in *.
  destruct res as [r|e].
  - destruct Hres as [-> Hstatus].
    exists (Ctx (fst (self c1)) (world c1) (trace c1)), (snd (self c1)),
      a, b, k, l.
    split; [reflexivity|]. cbn [self world trace].
    repeat (split; [assumption|]).
    destruct Hstatus as [[Hs Ha0]|[[Hs [Ha1 Hb0]]|[Hs Hl1]]]; auto 10.
  - unfold Eff.bind, update_result, modify, current_result, get_self, ret.
    cbn [self world trace fst snd].
    eexists _, _, a, b, k, l. split; [reflexivity|].
    cbn [self world trace CycleResult.set_error CycleResult.cycle_number
         CycleResult.service CycleResult.status CycleResult.error].
    repeat (split; [assumption|]).
    right. right. right. split; [reflexivity|eexists; reflexivity].
Qed.

(** X25. A cycle never raises: whatever the environment and the agents
    do, [run_aware_cycle] returns a result that carries the service, the
    new cycle number (the counter always advances by one) and one of the
    four statuses; the status is "error" exactly when an exception was
    caught, which the result then records; and a cycle writes no
    knowledge export. *)
Theorem cycle_always_returns (service : string) (c : conductor) :
  exists (c' : conductor) r,
    run_aware_cycle service c = (c', Ok r)
    /\ cycle_count (self c') = S (cycle_count (self c))
    /\ CycleResult.cycle_number r = S (cycle_count (self c))
    /\ CycleResult.service r = service
    /\ (exists status,
          CycleResult.status r = Some status
          /\ In status ["aborted"; "stable"; "completed"; "error"])
    /\ (CycleResult.status r = Some "error"
        <-> is_Some (CycleResult.error r))
    /\ (exists evs, trace c' = trace c ++ evs /\ exports_of evs = []).
Proof.
  destruct (run_cycle_spec service c)
    as (c' & r & a & b & k & l & E & Hcc & _ & _ & _ & _ & _ & _ & _ & _
        & Hnum & Hsvc & Hext & Hstatus).
  exists c', r. split; [exact E|].
  repeat (split; [assumption|]).
  split; [|split; [|exact Hext]].
  - destruct Hstatus as [(Hs & _)|[(Hs & _)|[(Hs & _)|(Hs & _)]]];
      eexists; (split; [exact Hs|]); cbn [In]; auto 6.
  - destruct Hstatus
      as [(Hs & _ & He)|[(Hs & _ & _ & He)|[(Hs & _ & He)|(Hs & He)]]];
      rewrite Hs, ?He; split; try discriminate; try (intros [? [=]]);
      auto.
Qed.

(** X26. The status of a cycle tells how far it got. "aborted": no
    agent recorded anything. "stable": one decision was recorded and
    nothing was executed, reflected on or learned. "completed": the
    decision, execution and reflection histories and the learning-cycle
    counter each advanced by exactly one. *)
Theorem status_tells_progress (service : string) (c : conductor) :
  let c' := fst (run_aware_cycle service c) in
  forall r, snd (run_aware_cycle service c) = Ok r ->
    (CycleResult.status r = Some "aborted" ->
       decisions (self c') = decisions (self c)
       /\ executions (self c') = executions (self c)
       /\ reflections (self c') = reflections (self c)
       /\ learning (self c') = learning (self c))
    /\ (CycleResult.status r = Some "stable" ->
          decisions (self c') = S (decisions (self c))
          /\ executions (self c') = executions (self c)
          /\ reflections (self c') = reflections (self c)
          /\ learning (self c') = learning (self c))
    /\ (CycleResult.status r = Some "completed" ->
          decisions (self c') = S (decisions (self c))
          /\ executions (self c') = S (executions (self c))
          /\ reflections (self c') = S (reflections (self c))
          /\ learning (self c') = S (learning (self c))).
Proof.
  destruct (run_cycle_spec service c)
    as (c1 & r1 & a & b & k & l & E & _ & Hd & He & Hr & Hl
        & Hlk & Hkb & Hba & Ha & _ & _ & _ & Hstatus).
  rewrite E. cbn [fst snd]. intros r [= <-].
  destruct Hstatus
    as [(Hs & Ha0 & _)|[(Hs & Ha1 & Hb0 & _)|[(Hs & Hl1 & _)|(Hs & _)]]];
    rewrite Hs; (split; [|split]); intros [=]; lia.
Qed.


(** X27. The phase counters stay ordered: if the learning cycles do not
    exceed the reflections, these the executions, these the decisions,
    and these the cycles, the same holds after any cycle, however it
    ends; so the summary of [get_cycle_summary] never reports more
    reflections or learning cycles than cycles, whatever the lookback. *)
Theorem counters_stay_ordered (service : string) (c : conductor) :
  counters_ordered (self c) ->
  let o' := self (fst (run_aware_cycle service c)) in
  counters_ordered o'
  /\ forall lookback,
       let summary := get_cycle_summary o' lookback in
       (KnowledgeSummary.learning_cycles (knowledge_summary summary)
        <= total_cycles summary)%nat
       /\ match reflection_summary summary with
          | ReflectionSummary.NoReflections => True
          | ReflectionSummary.Summary total _ _ _ _ =>
              (total <= total_cycles summary)%nat
          end.
Proof.
  destruct (run_cycle_spec service c)
    as (c1 & r1 & a & b & k & l & E & Hcc & Hd & He & Hr & Hl
        & Hlk & Hkb & Hba & Ha & _).
  rewrite E. cbn [fst]. intros (H1 & H2 & H3 & H4). cbv zeta.
  assert (Hord : counters_ordered (self c1))
    by (unfold counters_ordered; repeat split; lia).
  split; [exact Hord|]. intros lookback.
  destruct Hord as (G1 & G2 & G3 & G4).
  unfold get_cycle_summary.
  cbn [knowledge_summary total_cycles reflection_summary].
  split.
  - unfold learning in G1. unfold EnrichAgent.get_knowledge_summary.
    cbn [KnowledgeSummary.learning_cycles]. lia.
  - pose proof (ReflectLaws.summary_total_le (reflect_agent (self c1))
                  (Some lookback)) as Hsum.
    destruct (ReflectAgent.get_reflection_summary _ _); [exact I|].
    unfold reflections in G2. lia.
Qed.


(** X28. A cycle without adaptation touches nothing. When the
    assessment returns no snapshot the cycle is aborted after that single
    call, without even an audit row; when the decision has no action the
    cycle is "stable" and its only calls are the assessment and one
    audit row with 0 planned and 0 executed actions: no command is run
    and there is no wait. *)
Theorem idle_cycle_touches_nothing (service : string) (c : conductor)
    (w1 : W) :
  (w_assess service (world c) = (w1, Ok None) ->
   exists r,
     run_aware_cycle service c
     = (Ctx (mk (weigh_agent (self c)) (act_agent (self c))
                (reflect_agent (self c)) (enrich_agent (self c))
                (S (cycle_count (self c))))
            w1 (trace c ++ [EvAssess service]),
        Ok r)
     /\ CycleResult.status r = Some "aborted"
     /\ CycleResult.reason r = Some "Assessment failed")
  /\ (forall snapshot weigher decision,
        w_assess service (world c) = (w1, Ok (Some snapshot)) ->
        WeighAgent.weigh (weigh_agent_now (self c)) snapshot service
        = Ok (weigher, decision) ->
        Decision.actions decision = [] ->
        exists r,
          run_aware_cycle service c
          = (Ctx (mk weigher (act_agent (self c)) (reflect_agent (self c))
                     (enrich_agent (self c)) (S (cycle_count (self c))))
                 (fst (w_csv w1))
                 (trace c ++ [EvAssess service;
                              EvCsvRow "stable" 0 0 false]),
             Ok r)
          /\ CycleResult.status r = Some "stable"
          /\ CycleResult.reason r = Some "No adaptations required"
          /\ CycleResult.act (CycleResult.phase r) = None).
Proof.
  split.
  - intros Hassess. unfold run_aware_cycle, try_except, cycle_body.
    unfold Eff.bind at 1. unfold assess at 1.
    erewrite bind_ok by (apply call_eq; exact Hassess).
    unfold lift at 1. cbn [self world trace].
    unfold Eff.bind, update_result, modify, current_result, get_self, ret.
    cbn [self world trace fst snd].
    eexists. split; [reflexivity|]. split; reflexivity.
  - intros snapshot weigher decision Hassess Hweigh Hactions.
    unfold run_aware_cycle, try_except, cycle_body.
    unfold Eff.bind at 1. unfold assess at 1.
    erewrite bind_ok by (apply call_eq; exact Hassess).
    unfold lift at 1.
    unfold Eff.bind at 1. unfold update_phases at 1, update_result at 1,
      modify at 1. cbn [self world trace fst snd].
    unfold Eff.bind at 1. unfold on_agent at 1, zoom at 1.
    cbn [self world trace fst snd].
    unfold weigh at 1. unfold Eff.bind at 1, get_self at 1.
    cbn [self world trace].
    change (weigh_agent_now _) with (weigh_agent_now (self c)).
    rewrite Hweigh. unfold Eff.bind at 1, lift at 1.
    unfold Eff.bind at 1, put_self at 1, ret at 1.
    cbn [self world trace fst snd].
    unfold Eff.bind at 1. unfold update_phases at 1, update_result at 1,
      modify at 1. cbn [self world trace fst snd].
    rewrite Hactions.
    unfold Eff.bind at 1. unfold update_result at 1, modify at 1.
    cbn [self world trace fst snd].
    unfold Eff.bind at 1. unfold _log_to_csv at 1.
    unfold Eff.bind at 1. unfold current_result at 1.
    unfold Eff.bind at 1, get_self at 1, ret at 1.
    cbn [self world trace fst snd].
    unfold Eff.bind at 1, call at 1. cbn [self world trace fst snd].
    destruct (w_csv w1) as [w_log ok]. unfold ret at 1.
    unfold current_result, Eff.bind, get_self, ret.
    cbn [self world trace fst snd set_weigh_agent weigh_agent act_agent
         reflect_agent enrich_agent cycle_count].
    rewrite <- app_assoc.
    eexists. split; [reflexivity|]. repeat split.
Qed.

End WithWorld.

Lemma status_tells_progress_witness :
  exists r,
    snd (run_aware_cycle "svc"
           (OrchestratorSpec.boot EnrichSpec.one_cycle_world)) = Ok r
    /\ CycleResult.status r = Some "completed"
    /\ learning (self (fst (run_aware_cycle "svc"
                              (OrchestratorSpec.boot
                                 EnrichSpec.one_cycle_world))))
       = 1%nat.
Proof.
  eexists. split; [vm_compute; reflexivity|]. split; [reflexivity|].
  eapply (status_tells_progress "svc"
            (OrchestratorSpec.boot EnrichSpec.one_cycle_world)).
  - vm_compute. reflexivity.
  - reflexivity.
Defined.

Lemma counters_stay_ordered_witness :
  counters_ordered
    (self (fst (run_aware_cycle "svc"
                  (OrchestratorSpec.boot EnrichSpec.failing_world)))).
Proof.
  assert (Hboot : counters_ordered
                    (self (OrchestratorSpec.boot EnrichSpec.failing_world))).
  { unfold counters_ordered, decisions, executions, reflections, learning.
    cbn. lia. }
  pose proof (counters_stay_ordered "svc"
                (OrchestratorSpec.boot EnrichSpec.failing_world) Hboot)
    as Hafter.
  cbv zeta in Hafter. exact (proj1 Hafter).
Defined.

Lemma idle_cycle_touches_nothing_witness :
  exists r,
    run_aware_cycle "svc" (OrchestratorSpec.boot EnrichSpec.idle_world)
    = (Ctx (mk (weigh_agent (self (OrchestratorSpec.boot EnrichSpec.idle_world)))
               (act_agent (self (OrchestratorSpec.boot EnrichSpec.idle_world)))
               (reflect_agent (self (OrchestratorSpec.boot EnrichSpec.idle_world)))
               (enrich_agent (self (OrchestratorSpec.boot EnrichSpec.idle_world)))
               (S (cycle_count (self (OrchestratorSpec.boot EnrichSpec.idle_world)))))
           (fst (w_assess "svc" (world (OrchestratorSpec.boot EnrichSpec.idle_world))))
           (trace (OrchestratorSpec.boot EnrichSpec.idle_world) ++ [EvAssess "svc"]),
       Ok r)
    /\ CycleResult.status r = Some "aborted"
    /\ CycleResult.reason r = Some "Assessment failed".
Proof.
  apply (idle_cycle_touches_nothing "svc"
           (OrchestratorSpec.boot EnrichSpec.idle_world)
           (fst (w_assess "svc" (world (OrchestratorSpec.boot EnrichSpec.idle_world))))).
  vm_compute. reflexivity.
Defined.

End OrchestratorLaws.

(** ** monitoring_aware.py *)

Module MonitoringLaws.
Import Py Constants Eff EffSpec AWAREOrchestrator OrchestratorSpec EffFacts
       DictLaws OrchestratorLaws.

Lemma dict_set_keys_nodup {V} (k : string) (v : V) (d : dict V) :
  List.NoDup (map fst d) -> List.NoDup (map fst (dict_set k v d)).
Proof.
  intros Hnd.
  assert (Hkeys : forall k', In k' (map fst (dict_set k v d)) ->
                             k' = k \/ In k' (map fst d)).
  { induction d as [|[k0 v0] d IH]; cbn [dict_set map fst In].
    - intros k' [<-|[]]. left. reflexivity.
    - destruct (String.eqb_spec k k0) as [->|Hne]; cbn [map fst In].
      + intros k' [<-|Hin]; auto.
      + intros k' [<-|Hin]; [auto|].
        apply List.NoDup_cons_iff in Hnd as [_ Hnd].
        destruct (IH Hnd _ Hin); auto. }
  clear Hkeys.
  induction d as [|[k0 v0] d IH]; cbn [dict_set map fst].
  - repeat constructor. intros [].
  - cbn [map fst] in Hnd. apply List.NoDup_cons_iff in Hnd as [Hk0 Hnd].
    destruct (String.eqb_spec k k0) as [->|Hne]; cbn [map fst].
    + constructor; assumption.
    + constructor; [|apply IH, Hnd].
      intros Hin. apply Hk0. clear IH Hnd Hk0.
      induction d as [|[k1 v1] d IHd]; cbn [dict_set map fst In] in *.
      * destruct Hin as [E|[]]. congruence.
      * destruct (String.eqb_spec k k1) as [->|Hne1];
          cbn [map fst In] in Hin.
        -- destruct Hin as [E|Hin]; [congruence|]. right. exact Hin.
        -- destruct Hin as [E|Hin]; [left; exact E|]. right. apply IHd, Hin.
Qed.

Lemma dict_set_length {V} (k : string) (v : V) (d : dict V) :
  (length (dict_set k v d) <= S (length d))%nat.
Proof.
  induction d as [|[k0 v0] d IH]; cbn [dict_set length]; [lia|].
  destruct (String.eqb k k0); cbn [length]; lia.
Qed.

Section WithWorld.
Context {W : Type} `{World W}.
Variable normalize_service_name : string -> string.

Local Abbreviation conductor := (@ctx W AWAREOrchestrator.t).

Lemma monitoring_cycle_spec (pods : list string)
    (all_results : dict CycleResult.t) (c : conductor) :
  exists (c' : conductor) results,
    Monitoring.run_monitoring_cycle normalize_service_name pods all_results c
    = (c', Ok results)
    /\ cycle_count (self c') = (cycle_count (self c) + length pods)%nat
    /\ extends c c'
    /\ (counters_ordered (self c) -> counters_ordered (self c'))
    /\ (List.NoDup (map fst all_results) -> List.NoDup (map fst results))
    /\ (length results <= length all_results + length pods)%nat
    /\ (forall key r, lookup key results = Some r ->
          lookup key all_results = Some r
          \/ (In key (map normalize_service_name pods)
              /\ CycleResult.service r = key
              /\ (cycle_count (self c) < CycleResult.cycle_number r
                  <= cycle_count (self c) + length pods)%nat))
    /\ (forall front pod, pods = front ++ [pod] ->
          exists r, lookup (normalize_service_name pod) results = Some r
                    /\ CycleResult.cycle_number r
                       = (cycle_count (self c) + length pods)%nat)
    /\ (pods = [] -> results = all_results).
Proof.
  revert all_results c. induction pods as [|pod rest IH]; intros acc c.
  - exists c, acc. cbn [Monitoring.run_monitoring_cycle length]. unfold ret.
    split; [reflexivity|]. split; [lia|].
    split; [exists []; rewrite app_nil_r; split; reflexivity|].
    split; [auto|]. split; [auto|]. split; [lia|]. split; [auto|].
    split; [|reflexivity].
    intros front p E. destruct front; discriminate.
  - cbn [Monitoring.run_monitoring_cycle].
    destruct (run_cycle_spec (normalize_service_name pod) c)
      as (c1 & r1 & a & b & k & l & E & Hcc & Hd & He & Hr & Hl
          & Hlk & Hkb & Hba & Ha & Hnum & Hsvc & (evs1 & Ht1 & Hq1) & _).
    unfold Eff.bind at 1. rewrite E.
    destruct (IH (dict_set (normalize_service_name pod) r1 acc) c1)
      as (c' & rs & -> & Hcc' & (evs' & Ht' & Hq') & Hord' & Hnd' & Hlen'
          & Hkeys' & Hlast' & Hnil').
    exists c', rs. split; [reflexivity|]. cbn [length].
    split; [lia|]. split.
    { exists (evs1 ++ evs'). rewrite Ht', Ht1, app_assoc.
      rewrite ActLaws.exports_of_app, Hq1, Hq'. split; reflexivity. }
    split.
    { intros Hord. apply Hord'. unfold counters_ordered in *.
      destruct Hord as (H1 & H2 & H3 & H4). repeat split; lia. }
    split; [intros Hnd; apply Hnd', dict_set_keys_nodup, Hnd|].
    split; [pose proof (dict_set_length (normalize_service_name pod) r1 acc);
            lia|].
    split.
    { intros key r Hlook. destruct (Hkeys' key r Hlook) as [Hacc|Hnew].
      - rewrite lookup_dict_set in Hacc.
        destruct (String.eqb_spec key (normalize_service_name pod))
          as [->|Hne].
        + injection Hacc as <-. right. cbn [map In].
          split; [left; reflexivity|]. split; [exact Hsvc|]. lia.
        + left. exact Hacc.
      - destruct Hnew as (Hin & Hs & Hrange). right. cbn [map In].
        split; [right; exact Hin|]. split; [exact Hs|]. lia. }
    split; [|discriminate].
    intros front p Epods. destruct front as [|q front].
    + cbn [app] in Epods. injection Epods as -> ->.
      rewrite (Hnil' eq_refl). exists r1.
      rewrite lookup_dict_set, String.eqb_refl. split; [reflexivity|].
      cbn [length]. lia.
    + cbn [app] in Epods. injection Epods as -> ->.
      destruct (Hlast' front p eq_refl) as (r & Hr' & Hn').
      exists r. split; [exact Hr'|]. rewrite Hn', Hcc. cbn [length]. lia.
Qed.

(** X29. One monitoring cycle runs one AWARE cycle per pod, in order,
    and never raises: the cycle counter advances by the number of pods.
    The results are keyed by service name, so pods with the same service
    name share one entry, which holds the result of the last of them;
    every entry carries its key as service and a cycle number of this
    round. *)
Theorem monitoring_cycle_runs_every_pod (pods : list string)
    (c : conductor) :
  exists (c' : conductor) results,
    Monitoring.run_monitoring_cycle normalize_service_name pods [] c
    = (c', Ok results)
    /\ cycle_count (self c') = (cycle_count (self c) + length pods)%nat
    /\ NoDup (map fst results)
    /\ (length results <= length pods)%nat
    /\ (forall key r, lookup key results = Some r ->
          In key (map normalize_service_name pods)
          /\ CycleResult.service r = key
          /\ (cycle_count (self c) < CycleResult.cycle_number r
              <= cycle_count (self c) + length pods)%nat)
    /\ (forall front pod, pods = front ++ [pod] ->
          exists r, lookup (normalize_service_name pod) results = Some r
                    /\ CycleResult.cycle_number r
                       = (cycle_count (self c) + length pods)%nat).
Proof.
  destruct (monitoring_cycle_spec pods [] c)
    as (c' & rs & E & Hcc & _ & _ & Hnd & Hlen & Hkeys & Hlast & _).
  exists c', rs. split; [exact E|]. split; [exact Hcc|].
  split; [apply NoDup_ListNoDup, Hnd; constructor|].
  split; [cbn [length] in Hlen; lia|]. split; [|exact Hlast].
  intros key r Hlook. destruct (Hkeys key r Hlook) as [Hold|Hnew];
    [discriminate|exact Hnew].
Qed.

(** *** The main loop *)

Lemma iteration_spec (pods : list string) (cycle_counter : nat)
    (c : conductor) :
  exists c' : conductor,
    Monitoring.iteration normalize_service_name pods cycle_counter c
    = (c', Ok tt)
    /\ cycle_count (self c') = (cycle_count (self c) + length pods)%nat
    /\ (counters_ordered (self c) -> counters_ordered (self c'))
    /\ exists evs,
         trace c' = trace c ++ evs
         /\ exports_of evs
            = if decide (cycle_counter mod 10 = 0)%nat
              then [ExportCycle cycle_counter] else [].
Proof.
  unfold Monitoring.iteration.
  destruct (monitoring_cycle_spec pods [] c)
    as (c1 & rs & E & Hcc & (evs1 & Ht1 & Hq1) & Hord & _).
  unfold Eff.bind at 1. rewrite E.
  unfold Eff.bind at 1.
  destruct (Nat.eqb_spec (cycle_counter mod 10) 0) as [Hten|Hnot].
  - destruct (OrchestratorFacts.export_knowledge_eq c1
                (ExportCycle cycle_counter)) as (w2 & data & -> & _).
    unfold call. cbn [self world trace].
    eexists. split; [reflexivity|]. cbn [self trace].
    split; [exact Hcc|]. split; [exact Hord|].
    eexists. rewrite Ht1, <- !app_assoc. split; [reflexivity|].
    rewrite !ActLaws.exports_of_app, Hq1.
    rewrite decide_True by exact Hten. reflexivity.
  - unfold ret, call. cbn [self world trace].
    eexists. split; [reflexivity|]. cbn [self trace].
    split; [exact Hcc|]. split; [exact Hord|].
    eexists. rewrite Ht1, <- !app_assoc. split; [reflexivity|].
    rewrite !ActLaws.exports_of_app, Hq1.
    rewrite decide_False by exact Hnot. reflexivity.
Qed.

Lemma loop_spec (pods : list string) (iterations cycle_counter : nat)
    (c : conductor) :
  exists c' : conductor,
    Monitoring.loop normalize_service_name pods iterations cycle_counter c
    = (c', Ok tt)
    /\ cycle_count (self c')
       = (cycle_count (self c) + iterations * length pods)%nat
    /\ (counters_ordered (self c) -> counters_ordered (self c'))
    /\ exists evs,
         trace c' = trace c ++ evs
         /\ exports_of evs
            = map ExportCycle
                  (filter (fun j => (j mod 10 = 0)%nat)
                          (seq (S cycle_counter) iterations)).
Proof.
  revert cycle_counter c.
  induction iterations as [|n IH]; intros cycle_counter c.
  - exists c. cbn [Monitoring.loop]. unfold ret.
    split; [reflexivity|]. split; [lia|]. split; [auto|].
    exists []. rewrite app_nil_r. split; reflexivity.
  - cbn [Monitoring.loop].
    destruct (iteration_spec pods (S cycle_counter) c)
      as (c1 & E1 & Hcc1 & Hord1 & evs1 & Ht1 & Hq1).
    unfold Eff.bind at 1. rewrite E1.
    destruct (IH (S cycle_counter) c1)
      as (c' & -> & Hcc' & Hord' & evs' & Ht' & Hq').
    exists c'. split; [reflexivity|]. split; [lia|].
    split; [auto|].
    exists (evs1 ++ evs'). rewrite Ht', Ht1, app_assoc.
    split; [reflexivity|].
    rewrite ActLaws.exports_of_app, Hq1, Hq'.
    cbn [seq]. rewrite filter_cons.
    destruct (decide (S cycle_counter mod 10 = 0)%nat); reflexivity.
Qed.

(** X30. A run of the monitoring process over [n] turns of its loop,
    ended by an interrupt, performs [n] AWARE cycles per pod and asks for
    a knowledge export exactly after each turn whose number is a multiple
    of 10, in a file named by that number, and once more at shutdown in
    the final file; nothing else writes an export, and the phase counters
    of the orchestrator end ordered. *)
Theorem exports_every_tenth_turn (client_initialised : bool)
    (pods : list string) (iterations : nat) (w : W) :
  exists c' : conductor,
    Monitoring.main normalize_service_name client_initialised pods
                    iterations w
    = (c', Ok tt)
    /\ cycle_count (self c') = (iterations * length pods)%nat
    /\ counters_ordered (self c')
    /\ exports_of (trace c')
       = map ExportCycle
             (filter (fun j => (j mod 10 = 0)%nat) (seq 1 iterations))
         ++ [ExportFinal].
Proof.
  unfold Monitoring.main, AWAREOrchestrator.init, EnrichAgent.init,
    EnrichAgent._load_knowledge_base.
  destruct (w_load KNOWLEDGE_BASE_PATH w) as [w0 loaded].
  match goal with
  | |- context [Monitoring.loop _ pods iterations 0 ?c0] =>
      destruct (loop_spec pods iterations 0 c0)
        as (c1 & -> & Hcc & Hord & evs & Ht & Hq)
  end.
  unfold Monitoring.on_keyboard_interrupt.
  destruct (OrchestratorFacts.export_knowledge_eq c1 ExportFinal)
    as (w2 & data & -> & _).
  eexists. split; [reflexivity|]. cbn [self world trace] in *.
  split; [exact Hcc|]. split.
  - apply Hord. unfold counters_ordered, decisions, executions,
      reflections, learning. cbn. lia.
  - rewrite Ht, !ActLaws.exports_of_app, Hq. reflexivity.
Qed.

End WithWorld.

End MonitoringLaws.
